(** * Stock screener: indicator engine, signal scorer, orchestrator,
      outcome tracker and weight optimizer

    A shallow embedding of [screener_v3.py], [data_store.py] and
    [weekly_analysis.py], and of the parts of [daily_report.py] and
    [scheduler.py] that call them.

    Conventions of the embedding:
    - Python [float] values are exact rationals ([Q]); results of divisions,
      sums and recurrences are kept in lowest terms with [Qred], which does
      not change their value ([Qred_correct]). What is proved of a float
      formula is therefore proved of its exact-arithmetic reading; module
      [Binary64] holds [calculate_rsi] once more on the machine's floats,
      where rounding and overflow show.
    - Python [int] values are [Z]; lengths, periods and indices are [nat].
    - Python [str] values are byte strings holding UTF-8 text.
    - A Python exception is a [Raise] in the [result] monad. *)

From Stdlib Require Import ZArith QArith Qabs Qreduction Qround Lia Lqa Permutation Sorted.
From Stdlib Require Import Ascii String DecimalString.
From Stdlib Require Floats.PrimFloat Numbers.Cyclic.Int63.Uint63.
From stdpp Require Import base option list gmap strings.

Local Open Scope Q_scope.
Local Open Scope string_scope.
Local Open Scope list_scope.

(** ** Exceptions *)

Inductive exn : Set :=
| ZeroDivisionError
| IndexError
| ValueError
| OverflowError      (* an [int] that does not fit an SQLite INTEGER *)
| OperationalError.  (* [sqlite3.OperationalError] *)

Inductive result (A : Type) : Type :=
| Ok (a : A)
| Raise (e : exn).
Arguments Ok {A} a.
Arguments Raise {A} e.

#[global] Instance result_ret : MRet result := fun A a => Ok a.
#[global] Instance result_bind : MBind result := fun A B f m =>
  match m with
  | Ok a => f a
  | Raise e => Raise e
  end.
#[global] Instance result_fmap : FMap result := fun A B f m =>
  match m with
  | Ok a => Ok (f a)
  | Raise e => Raise e
  end.

Definition bind {A B} (m : result A) (f : A -> result B) : result B := m ≫= f.

Notation "x <- m ;; k" := (bind m (fun x => k))
  (at level 20, m at level 99, k at level 200, only parsing).
Notation "' pat <- m ;; k" := (bind m (fun x => match x with pat => k end))
  (at level 20, pat pattern, m at level 99, k at level 200, only parsing).

(** [try: ... except Exception: return d] *)
Definition try_except {A} (m : result A) (d : A) : A :=
  match m with
  | Ok a => a
  | Raise _ => d
  end.

(** ** Python numbers and sequences *)

Module Py.

Definition Qltb (x y : Q) : bool := negb (Qle_bool y x).
Definition Qgtb (x y : Q) : bool := Qltb y x.
Definition Qgeb (x y : Q) : bool := Qle_bool y x.

Definition of_nat (n : nat) : Q := inject_Z (Z.of_nat n).

(** [x / y] on floats *)
Definition div (x y : Q) : result Q :=
  if Qeq_bool y 0 then Raise ZeroDivisionError else Ok (Qred (x / y)).

(** [sum(l)] *)
Definition sum (l : list Q) : Q := Qred (fold_left Qplus l 0).

Definition sumZ (l : list Z) : Z := fold_left Z.add l 0%Z.

(** [l[lo:hi]] for non-negative bounds *)
Definition slice {A} (l : list A) (lo hi : nat) : list A :=
  firstn (hi - lo) (skipn lo l).

(** [l[-n:]] for [n > 0] *)
Definition last_n {A} (n : nat) (l : list A) : list A :=
  skipn (length l - n) l.

(** [l[-k]] for [k > 0] *)
Definition from_end {A} (k : nat) (l : list A) : result A :=
  if (length l <? k)%nat then Raise IndexError
  else match nth_error l (length l - k) with
       | Some x => Ok x
       | None => Raise IndexError
       end.

(** [max(l)] and [min(l)] *)
Definition maxQ (x y : Q) : Q := if Qltb x y then y else x.
Definition minQ (x y : Q) : Q := if Qltb y x then y else x.

Definition max (l : list Q) : result Q :=
  match l with
  | [] => Raise ValueError
  | x :: l' => Ok (fold_left maxQ l' x)
  end.

Definition min (l : list Q) : result Q :=
  match l with
  | [] => Raise ValueError
  | x :: l' => Ok (fold_left minQ l' x)
  end.

(** [[x for x in l if x is not None]] *)
Definition not_none {A} (l : list (option A)) : list A := omap id l.

End Py.

(** ** Indicator engine ([TechnicalIndicators]) *)

Module TechnicalIndicators.

Definition calculate_sma (prices : list Q) (period : nat) : result (list Q) :=
  if (length prices <? period)%nat then Ok []
  else match period with
       | O => Raise ZeroDivisionError (* first pass, i = -1: sum([]) / 0 *)
       | S _ =>
           mapM (fun i => Py.div (Py.sum (Py.slice prices (i + 1 - period) (i + 1)))
                                 (Py.of_nat period))
                (seq (period - 1) (length prices - (period - 1)))
       end.

Fixpoint ema_loop (multiplier prev : Q) (prices : list Q) : list Q :=
  match prices with
  | [] => []
  | price :: rest =>
      let e := Qred ((price - prev) * multiplier + prev) in
      e :: ema_loop multiplier e rest
  end.

Definition calculate_ema (prices : list Q) (period : nat) : result (list Q) :=
  if (length prices <? period)%nat then Ok []
  else
    multiplier <- Py.div 2 (Py.of_nat (period + 1));;
    seed <- Py.div (Py.sum (firstn period prices)) (Py.of_nat period);;
    Ok (seed :: ema_loop multiplier seed (skipn period prices)).

Definition zip_sub (xs ys : list Q) : list Q :=
  zip_with (fun x y => Qred (x - y)) xs ys.

Definition calculate_macd (prices : list Q)
  : result (list Q * list Q * list Q) :=
  if (length prices <? 26)%nat then Ok ([], [], [])
  else
    ema12 <- calculate_ema prices 12;;
    ema26 <- calculate_ema prices 26;;
    let diff := (length ema12 - length ema26)%nat in
    let ema12 := skipn diff ema12 in
    let macd_line := zip_sub ema12 ema26 in
    if (9 <=? length macd_line)%nat then
      signal_line <- calculate_ema macd_line 9;;
      let macd_line := Py.last_n (length signal_line) macd_line in
      let histogram := zip_sub macd_line signal_line in
      Ok (macd_line, signal_line, histogram)
    else Ok (macd_line, [], []).

(** The [period] price changes ending at bar [i]. *)
Definition changes (prices : list Q) (period i : nat) : list Q :=
  map (fun j => nth j prices 0 - nth (j - 1) prices 0)
      (seq (i - period + 1) period).

Definition gain (change : Q) : Q := if Py.Qgtb change 0 then change else 0.
Definition loss (change : Q) : Q := if Py.Qgtb change 0 then 0 else Qabs change.

Definition avg_gain (prices : list Q) (period i : nat) : result Q :=
  Py.div (Py.sum (map gain (changes prices period i))) (Py.of_nat period).

Definition avg_loss (prices : list Q) (period i : nat) : result Q :=
  Py.div (Py.sum (map loss (changes prices period i))) (Py.of_nat period).

Definition rsi_at (prices : list Q) (period i : nat) : result Q :=
  ag <- avg_gain prices period i;;
  al <- avg_loss prices period i;;
  if Qeq_bool al 0 then Ok 100
  else
    rs <- Py.div ag al;;
    d <- Py.div 100 (1 + rs);;
    Ok (Qred (100 - d)).

Definition calculate_rsi (prices : list Q) (period : nat) : result (list Q) :=
  if (length prices <? period + 1)%nat then Ok []
  else mapM (rsi_at prices period) (seq period (length prices - period)).

Fixpoint obv_loop (prev_price : Q) (prev_obv : Z) (bars : list (Q * Z)) : list Z :=
  match bars with
  | [] => []
  | (price, volume) :: rest =>
      let o := if Py.Qgtb price prev_price then (prev_obv + volume)%Z
               else if Py.Qltb price prev_price then (prev_obv - volume)%Z
               else prev_obv in
      o :: obv_loop price o rest
  end.

Definition calculate_obv (prices : list Q) (volumes : list Z) : list Z :=
  if negb (length prices =? length volumes)%nat || (length prices <? 2)%nat then []
  else match prices, volumes with
       | p0 :: ps, _ :: vs => 0%Z :: obv_loop p0 0%Z (zip ps vs)
       | _, _ => []
       end.

End TechnicalIndicators.

(** ** The relative strength index on binary64 floats

    [calculate_rsi] of [screener_v3.py] as the interpreter runs it: the
    same lines as [TechnicalIndicators.calculate_rsi], each operation
    rounded to binary64, with its infinities and NaN. *)

Module Binary64.

Import PrimFloat.
Local Open Scope float_scope.

(** [x > y] *)
Definition gtb (x y : float) : bool := PrimFloat.ltb y x.

(** [x / y] on floats; a divisor equal to zero of either sign raises. *)
Definition div (x y : float) : result float :=
  if PrimFloat.eqb y 0 then Raise ZeroDivisionError else Ok (x / y).

(** [sum(l)], the additions taken from the left, starting from 0. *)
Definition sum (l : list float) : float := fold_left PrimFloat.add l 0.

(** An [int] period as a float (exact below 2^53). *)
Definition of_nat (n : nat) : float := of_uint63 (Uint63.of_Z (Z.of_nat n)).

Definition changes (prices : list float) (period i : nat) : list float :=
  map (fun j => nth j prices 0 - nth (j - 1) prices 0)
      (seq (i - period + 1) period).

Definition gain (change : float) : float := if gtb change 0 then change else 0.
Definition loss (change : float) : float := if gtb change 0 then 0 else abs change.

Definition avg_gain (prices : list float) (period i : nat) : result float :=
  div (sum (map gain (changes prices period i))) (of_nat period).

Definition avg_loss (prices : list float) (period i : nat) : result float :=
  div (sum (map loss (changes prices period i))) (of_nat period).

Definition rsi_at (prices : list float) (period i : nat) : result float :=
  ag <- avg_gain prices period i;;
  al <- avg_loss prices period i;;
  if PrimFloat.eqb al 0 then Ok 100
  else
    rs <- div ag al;;
    d <- div 100 (1 + rs);;
    Ok (100 - d).

Definition calculate_rsi (prices : list float) (period : nat) : result (list float) :=
  if (length prices <? period + 1)%nat then Ok []
  else mapM (rsi_at prices period) (seq period (length prices - period)).

(** [0 <= x <= 100]; false of NaN. *)
Definition in_0_100 (x : float) : bool := PrimFloat.leb 0 x && PrimFloat.leb x 100.

Definition half : float := 0.5.
Definition hundred : float := 100.

(** A fall of 1 followed by a rise to 1e17. *)
Definition fall_then_surge : list float := [2; 1; 1e17].

(** Finite prices that alternate between 0 and a value near the largest
    float. *)
Definition near_max : float := 0x1.fp1023.
Definition swings : list float := [0; near_max; 0; near_max; 0].

End Binary64.

(** ** Text formatting *)

Module Fmt.

(** [str(n)] for an [int] *)
Definition of_Z (z : Z) : string := NilZero.string_of_int (Z.to_int z).
Definition of_nat (n : nat) : string := of_Z (Z.of_nat n).

(** Nearest integer, ties to even. *)
Definition round_half_even (q : Q) : Z :=
  let f := Qfloor q in
  let r := q - inject_Z f in
  if Py.Qltb r (1 # 2) then f
  else if Py.Qltb (1 # 2) r then (f + 1)%Z
  else if Z.even f then f else (f + 1)%Z.

(** Zeros on the left up to [width] characters; [fuel] bounds their number. *)
Fixpoint pad_zeros (fuel width : nat) (s : string) : string :=
  match fuel with
  | O => s
  | S fuel' =>
      if (String.length s <? width)%nat then pad_zeros fuel' width ("0" +:+ s) else s
  end.

(** [f"{q:.<digits>f}"] *)
Definition fixed (digits : nat) (q : Q) : string :=
  let scale := (10 ^ Z.of_nat digits)%Z in
  let n := Z.abs (round_half_even (q * inject_Z scale)) in
  let sign := if Py.Qltb q 0 then "-" else EmptyString in
  let whole := of_Z (n / scale) in
  match digits with
  | O => sign +:+ whole
  | S _ => sign +:+ whole +:+ "." +:+ pad_zeros digits digits (of_Z (n mod scale))
  end.

(** A byte that starts a UTF-8 encoded character (not [10xxxxxx]). *)
Definition starts_char (a : ascii) : bool :=
  let n := nat_of_ascii a in (n <? 128)%nat || (192 <=? n)%nat.

(** [s[:n]]: the first [n] characters of a UTF-8 string. *)
Fixpoint take_chars (n : nat) (s : string) : string :=
  match s with
  | EmptyString => EmptyString
  | String a rest =>
      if starts_char a then
        match n with
        | O => EmptyString
        | S n' => String a (take_chars n' rest)
        end
      else String a (take_chars n rest)
  end.

(** [needle in hay] *)
Fixpoint contains (needle hay : string) : bool :=
  if String.prefix needle hay then true
  else match hay with
       | EmptyString => false
       | String _ rest => contains needle rest
       end.

End Fmt.

(** ** Signal scorer ([StockScreenerV3]) *)

Record Weights : Set := {
  ma_golden_cross : Z;
  macd_golden_cross : Z;
  rsi_reversal : Z;
  volume_surge : Z;
  price_breakout_52w : Z;
  price_breakout_20d : Z;
  trend_continuation : Z;
  obv_confirm : Z
}.

Record Config : Set := {
  min_price : Q;
  max_price : Q;
  min_avg_volume : Q;
  min_score : Z;
  volume_surge_ratio : Q;
  trend_confirm_days : nat;
  ma_short : nat;
  ma_long : nat;
  rsi_oversold : Q;
  weights : Weights
}.

(** [_default_config] *)
Definition default_config : Config := {|
  min_price := 5;
  max_price := 1000;
  min_avg_volume := 1000000;
  min_score := 40;
  volume_surge_ratio := 18 # 10;
  trend_confirm_days := 3;
  ma_short := 20;
  ma_long := 50;
  rsi_oversold := 30;
  weights := {|
    ma_golden_cross := 30;
    macd_golden_cross := 25;
    rsi_reversal := 20;
    volume_surge := 15;
    price_breakout_52w := 20;
    price_breakout_20d := 10;
    trend_continuation := 15;
    obv_confirm := 10
  |}
|}.

(** The collaborator's answer for one symbol: [meta] and the first
    [indicators.quote] entry; an absent key is [None] or an empty list. *)
Record StockData : Set := {
  regularMarketPrice : option Q;
  shortName : option string;
  longName : option string;
  quote_close : list (option Q);
  quote_volume : list (option Z);
  quote_high : list (option Q)
}.

Record StockSignal : Set := {
  symbol : string;
  name : string;
  current_price : Q;
  change_percent : Q;
  volume : Z;
  avg_volume : Q;
  signals : list string;
  score : Z;
  trend_strength : string;
  signal_quality : string;
  timestamp : Z
}.

Module Scorer.
Import TechnicalIndicators.

Notation "l @- k" := (Py.from_end k l) (at level 19, no associativity).

(** [a and b], where [b] is only evaluated when [a] holds *)
Definition and_then (a b : result bool) : result bool :=
  x <- a;; if x then b else Ok false.
Infix "<&&>" := and_then (at level 41, right associativity).

Definition cmp {A} (op : A -> A -> bool) (a b : result A) : result bool :=
  x <- a;; y <- b;; Ok (op x y).

Definition nonempty {A} (l : list A) : bool :=
  match l with [] => false | _ => true end.

(** [check_trend_strength] *)
Definition check_trend_strength (closes : list Q) (days : nat) : result (string * Z) :=
  if (length closes <? days + 1)%nat then Ok ("数据不足", 0%Z)
  else
    let recent := Py.last_n (days + 1) closes in
    let up_days :=
      Z.of_nat (length (filter (fun i => Py.Qgtb (nth i recent 0) (nth (i - 1) recent 0) = true)
                               (seq 1 (length recent - 1)))) in
    first <- match recent with [] => Raise IndexError | x :: _ => Ok x end;;
    total_change <-
      (if Py.Qgtb first 0 then
         final <- recent @- 1;;
         r <- Py.div (final - first) first;;
         Ok (r * 100)
       else Ok 0);;
    let d := Z.of_nat days in
    if (d - 1 <=? up_days)%Z && Py.Qgtb total_change 3 then Ok ("强势上涨", 15%Z)
    else if (d - 1 <=? up_days)%Z && Py.Qgtb total_change 0 then Ok ("稳步上涨", 10%Z)
    else if (d / 2 + 1 <=? up_days)%Z then Ok ("温和上涨", 5%Z)
    else if (up_days <=? 1)%Z then Ok ("持续下跌", (-10)%Z)
    else Ok ("震荡", 0%Z).

Definition grade_A : string := "A级（强烈）".
Definition grade_B : string := "B级（较强）".
Definition grade_C : string := "C级（一般）".
Definition grade_D : string := "D级（弱）".

Definition strong_signals : list string := ["金叉"; "52周新高"; "成交量放大"].

Definition is_strong (s : string) : bool :=
  existsb (fun ss => Fmt.contains ss s) strong_signals.

Definition strong_count (signals : list string) : Z :=
  Z.of_nat (length (filter (fun s => is_strong s = true) signals)).

(** [check_signal_quality] *)
Definition check_signal_quality (signals : list string) (score : Z) : string :=
  let strong_count := strong_count signals in
  if (2 <=? strong_count)%Z && (70 <=? score)%Z then grade_A
  else if (1 <=? strong_count)%Z && (50 <=? score)%Z then grade_B
  else if (40 <=? score)%Z then grade_C
  else grade_D.

(** The accumulators [signals] and [score] threaded through the rules. *)
Definition Acc : Set := (list string * Z)%type.

Definition fire (tag : string) (weight : Z) (acc : Acc) : Acc :=
  (acc.1 ++ [tag], (acc.2 + weight)%Z).

(** 1. moving-average golden cross / bullish alignment *)
Definition rule_ma (cfg : Config) (closes : list Q) (acc : Acc) : result Acc :=
  ma_short' <- calculate_sma closes cfg.(ma_short);;
  ma_long' <- calculate_sma closes cfg.(ma_long);;
  if nonempty ma_short' && nonempty ma_long'
     && (3 <=? length ma_short')%nat && (3 <=? length ma_long')%nat then
    let offset := (Z.of_nat (length ma_short') - Z.of_nat (length ma_long'))%Z in
    let ma_short_aligned :=
      if (0 <? offset)%Z then skipn (Z.to_nat offset) ma_short' else ma_short' in
    let ma_long_aligned :=
      if (offset <? 0)%Z then Py.last_n (length ma_short_aligned) ma_long' else ma_long' in
    if (3 <=? length ma_short_aligned)%nat && (3 <=? length ma_long_aligned)%nat then
      cross <- cmp Py.Qgtb (ma_short_aligned @- 1) (ma_long_aligned @- 1)
              <&&> cmp Qle_bool (ma_short_aligned @- 2) (ma_long_aligned @- 2);;
      if cross then
        rising <- cmp Py.Qgtb (closes @- 1) (closes @- 2);;
        if rising then
          Ok (fire ("🔥 MA" +:+ Fmt.of_nat cfg.(ma_short) +:+ "/" +:+ Fmt.of_nat cfg.(ma_long)
                    +:+ "金叉确认")
                   cfg.(weights).(ma_golden_cross) acc)
        else Ok acc
      else
        aligned <- cmp Py.Qgtb (ma_short_aligned @- 1) (ma_long_aligned @- 1)
                  <&&> cmp Py.Qgtb (ma_short_aligned @- 1) (ma_short_aligned @- 2)
                  <&&> cmp Py.Qgtb (ma_short_aligned @- 2) (ma_short_aligned @- 3);;
        if aligned then Ok (fire "📈 均线多头排列" cfg.(weights).(trend_continuation) acc)
        else Ok acc
    else Ok acc
  else Ok acc.

(** 2. MACD golden cross / bullish acceleration *)
Definition rule_macd (cfg : Config) (closes : list Q) (acc : Acc) : result Acc :=
  '(macd_line, signal_line, histogram) <- calculate_macd closes;;
  if nonempty macd_line && nonempty signal_line && (3 <=? length macd_line)%nat then
    cross <- cmp Py.Qgtb (macd_line @- 1) (signal_line @- 1)
            <&&> cmp Qle_bool (macd_line @- 2) (signal_line @- 2)
            <&&> cmp Py.Qgtb (macd_line @- 1) (macd_line @- 2);;
    if cross then Ok (fire "🔥 MACD金叉确认" cfg.(weights).(macd_golden_cross) acc)
    else
      accel <- cmp Py.Qgtb (macd_line @- 1) (Ok 0)
              <&&> Ok (nonempty histogram && (2 <=? length histogram)%nat)
              <&&> cmp Py.Qgtb (histogram @- 1) (histogram @- 2)
              <&&> cmp Py.Qgtb (histogram @- 2) (Ok 0);;
      if accel then Ok (fire "📊 MACD多头加速" (cfg.(weights).(macd_golden_cross) / 2)%Z acc)
      else Ok acc
  else Ok acc.

(** 3. RSI rebound from the oversold zone / break above 50 *)
Definition rule_rsi (cfg : Config) (closes : list Q) (acc : Acc) : result Acc :=
  rsi <- calculate_rsi closes 14;;
  if nonempty rsi && (3 <=? length rsi)%nat then
    current_rsi <- rsi @- 1;;
    rebound <- cmp Py.Qltb (Py.min (Py.slice rsi (length rsi - 5) (length rsi - 1)))
                          (Ok cfg.(rsi_oversold))
              <&&> Ok (Py.Qgtb current_rsi cfg.(rsi_oversold))
              <&&> cmp Py.Qgtb (Ok current_rsi) (rsi @- 2);;
    if rebound then
      Ok (fire ("🔥 RSI超卖反弹 (" +:+ Fmt.fixed 0 current_rsi +:+ ")")
               cfg.(weights).(rsi_reversal) acc)
    else
      break50 <- cmp Py.Qltb (rsi @- 2) (Ok 50)
                <&&> Ok (Py.Qgtb current_rsi 50)
                <&&> cmp Py.Qgtb (Ok current_rsi) (rsi @- 2)
                <&&> cmp Py.Qgtb (rsi @- 2) (rsi @- 3);;
      if break50 then
        Ok (fire ("📈 RSI突破50并上升 (" +:+ Fmt.fixed 0 current_rsi +:+ ")")
                 (cfg.(weights).(rsi_reversal) / 2)%Z acc)
      else Ok acc
  else Ok acc.

(** [current_volume / avg_volume if avg_volume > 0 else 0] *)
Definition volume_ratio (current_volume : Z) (avg_volume : Q) : result Q :=
  if Py.Qgtb avg_volume 0 then Py.div (inject_Z current_volume) avg_volume else Ok 0.

(** 4. volume surge *)
Definition rule_volume (cfg : Config) (volumes : list Z) (avg_volume : Q) (acc : Acc)
  : result Acc :=
  if nonempty volumes && (2 <=? length volumes)%nat then
    current_volume <- volumes @- 1;;
    volume_ratio <- volume_ratio current_volume avg_volume;;
    if Py.Qgeb volume_ratio cfg.(volume_surge_ratio) then
      Ok (fire ("🔥 成交量放大 " +:+ Fmt.fixed 1 volume_ratio +:+ "倍")
               cfg.(weights).(volume_surge) acc)
    else Ok acc
  else Ok acc.

(** 5. price breakout: 52-week high and 20-session high *)
Definition rule_breakout (cfg : Config) (highs : list Q) (current_price : Q) (acc : Acc)
  : result Acc :=
  if nonempty highs && (20 <=? length highs)%nat then
    high_52w <- (if (250 <=? length highs)%nat then Py.max (Py.last_n 250 highs)
                else Py.max highs);;
    ratio_52w <- (if Py.Qgtb high_52w 0 then Py.div current_price high_52w else Ok 0);;
    let acc :=
      if Py.Qgeb ratio_52w (98 # 100) then
        fire ("🔥 突破52周新高 (" +:+ Fmt.fixed 1 (ratio_52w * 100) +:+ "%)")
             cfg.(weights).(price_breakout_52w) acc
      else if Py.Qgeb ratio_52w (92 # 100) then
        fire ("📈 接近52周新高 (" +:+ Fmt.fixed 1 (ratio_52w * 100) +:+ "%)")
             (cfg.(weights).(price_breakout_52w) / 2)%Z acc
      else acc in
    high_20d <- Py.max (Py.last_n 20 highs);;
    if Py.Qgeb current_price (high_20d * (99 # 100)) then
      Ok (fire "📈 突破20日高点" cfg.(weights).(price_breakout_20d) acc)
    else Ok acc
  else Ok acc.

(** 6. OBV confirmation *)
Definition rule_obv (cfg : Config) (closes : list Q) (volumes : list Z) (acc : Acc)
  : result Acc :=
  let obv := calculate_obv closes volumes in
  if nonempty obv && (10 <=? length obv)%nat then
    obv_sma <- Py.div (inject_Z (Py.sumZ (Py.last_n 10 obv))) 10;;
    let q (x : result Z) : result Q := inject_Z <$> x in
    rising <- cmp Py.Qgtb (q (obv @- 1)) (Ok (obv_sma * (105 # 100)))
             <&&> cmp Z.gtb (obv @- 1) (obv @- 2)
             <&&> cmp Z.gtb (obv @- 2) (obv @- 3);;
    if rising then Ok (fire "📊 OBV持续上升" cfg.(weights).(obv_confirm) acc)
    else Ok acc
  else Ok acc.

(** 7. trend strength; returns the accumulators and [trend_desc] *)
Definition rule_trend (cfg : Config) (closes : list Q) (acc : Acc)
  : result (Acc * string) :=
  '(trend_desc, trend_score) <- check_trend_strength closes cfg.(trend_confirm_days);;
  let signals := if (0 <? trend_score)%Z then acc.1 ++ ["📈 " +:+ trend_desc] else acc.1 in
  Ok ((signals, (acc.2 + trend_score)%Z), trend_desc).

(** All seven rules, from [signals = []] and [score = 0]. *)
Definition run_rules (cfg : Config) (closes : list Q) (volumes : list Z) (highs : list Q)
           (current_price avg_volume : Q) : result (Acc * string) :=
  acc <- rule_ma cfg closes ([], 0%Z);;
  acc <- rule_macd cfg closes acc;;
  acc <- rule_rsi cfg closes acc;;
  acc <- rule_volume cfg volumes avg_volume acc;;
  acc <- rule_breakout cfg highs current_price acc;;
  acc <- rule_obv cfg closes volumes acc;;
  rule_trend cfg closes acc.

(** [meta.get('regularMarketPrice', closes[-1])] *)
Definition current_price_of (data : StockData) : result Q :=
  last_close <- Py.not_none data.(quote_close) @- 1;;
  Ok (default last_close data.(regularMarketPrice)).

(** [sum(volumes[-20:]) / 20 if len(volumes) >= 20 else sum(volumes) / len(volumes)] *)
Definition average_volume (volumes : list Z) : result Q :=
  if (20 <=? length volumes)%nat
  then Py.div (inject_Z (Py.sumZ (Py.last_n 20 volumes))) 20
  else Py.div (inject_Z (Py.sumZ volumes)) (Py.of_nat (length volumes)).

(** The basic filter; [true] means the symbol is dropped. *)
Definition price_out_of_range (cfg : Config) (current_price : Q) : bool :=
  Py.Qltb current_price cfg.(min_price) || Py.Qgtb current_price cfg.(max_price).

Definition volume_too_low (cfg : Config) (avg_volume : Q) : bool :=
  Py.Qltb avg_volume cfg.(min_avg_volume).

(** The threshold test that decides whether a signal is returned. *)
Definition passes_threshold (cfg : Config) (signals : list string) (score : Z) : bool :=
  nonempty signals && (cfg.(min_score) <=? score)%Z.

(** The [StockSignal] built once the threshold is passed. *)
Definition build_signal (now : Z) (symbol : string) (data : StockData)
           (current_price avg_volume : Q) (signals : list string) (score : Z)
           (trend_desc : string) : result StockSignal :=
  let closes := Py.not_none data.(quote_close) in
  let volumes := Py.not_none data.(quote_volume) in
  let name := default (default symbol data.(longName)) data.(shortName) in
  prev_close <- (if (2 <=? length closes)%nat then closes @- 2 else Ok current_price);;
  change_percent <-
    (if Py.Qgtb prev_close 0 then
       r <- Py.div (current_price - prev_close) prev_close;;
       Ok (r * 100)
     else Ok 0);;
  let signal_quality := check_signal_quality signals score in
  volume <- (if nonempty volumes then volumes @- 1 else Ok 0%Z);;
  Ok {|
    symbol := symbol;
    name := if String.eqb name EmptyString then symbol else Fmt.take_chars 30 name;
    current_price := current_price;
    change_percent := change_percent;
    volume := volume;
    avg_volume := avg_volume;
    signals := signals;
    score := score;
    trend_strength := trend_desc;
    signal_quality := signal_quality;
    timestamp := now
  |}.

(** The body of [analyze_stock] under its [try]. [now] is the reading of
    [datetime.now()] taken when the signal is built. *)
Definition analyze_data (cfg : Config) (now : Z) (symbol : string) (data : StockData)
  : result (option StockSignal) :=
  let closes := Py.not_none data.(quote_close) in
  let volumes := Py.not_none data.(quote_volume) in
  let highs := Py.not_none data.(quote_high) in
  if (length closes <? 60)%nat then Ok None
  else
    current_price <- current_price_of data;;
    if price_out_of_range cfg current_price then Ok None
    else
      avg_volume <- average_volume volumes;;
      if volume_too_low cfg avg_volume then Ok None
      else
        '(signals, score, trend_desc) <-
          run_rules cfg closes volumes highs current_price avg_volume;;
        if passes_threshold cfg signals score then
          Some <$> build_signal now symbol data current_price avg_volume
                                signals score trend_desc
        else Ok None.

(** A signal with its [timestamp] field replaced. *)
Definition with_timestamp (t : Z) (s : StockSignal) : StockSignal := {|
  symbol := s.(symbol);
  name := s.(name);
  current_price := s.(current_price);
  change_percent := s.(change_percent);
  volume := s.(volume);
  avg_volume := s.(avg_volume);
  signals := s.(signals);
  score := s.(score);
  trend_strength := s.(trend_strength);
  signal_quality := s.(signal_quality);
  timestamp := t
|}.

(** [analyze_stock]: [fetch] is [get_stock_data], which answers [None] when
    the collaborator fails or has nothing for the symbol. *)
Definition analyze_stock (cfg : Config) (fetch : string -> option StockData) (now : Z)
           (symbol : string) : option StockSignal :=
  match fetch symbol with
  | None => None
  | Some data => try_except (analyze_data cfg now symbol data) None
  end.

End Scorer.

(** ** Screening orchestrator ([screen_stocks]) *)

Module Orchestrator.

(** The counters [_processed_count] and [_failed_count], shared by the
    workers and only touched under [_lock]. *)
Record Counters : Set := {
  processed_count : Z;
  failed_count : Z
}.

(** The counting fields of [RunTimeStats]; the clock readings are left out. *)
Record RunTimeStats : Set := {
  total_stocks : Z;
  processed_stocks : Z;
  successful_stocks : Z;
  failed_stocks : Z;
  signals_found : Z;
  high_score_count : Z
}.

(** Stable sort by descending key: [l.sort(key=..., reverse=True)]. *)
Section sorting.
Context {A : Type} (key : A -> Z).

Fixpoint insert_desc (x : A) (l : list A) : list A :=
  match l with
  | [] => [x]
  | y :: l' => if (key x <? key y)%Z then y :: insert_desc x l' else x :: l
  end.

Definition sort_desc (l : list A) : list A := foldr insert_desc [] l.
End sorting.

Section run.
(** [analyze_stock] as one worker sees it. *)
Variable analyze : string -> option StockSignal.

(** [_analyze_with_tracking]; the critical section is one atomic step. *)
Definition analyze_with_tracking (symbol : string) (c : Counters)
  : option StockSignal * Counters :=
  let result := analyze symbol in
  (result,
   {| processed_count := c.(processed_count) + 1;
      failed_count := match result with
                      | None => c.(failed_count) + 1
                      | Some _ => c.(failed_count)
                      end |})%Z.

(** [analyze_stock] answered [None] for this symbol. *)
Definition no_signal (symbol : string) : bool :=
  match analyze symbol with
  | None => true
  | Some _ => false
  end.

(** The pool runs the submitted tasks in the order [run_order]. *)
Definition run_workers (run_order : list string) (c : Counters) : Counters :=
  fold_left (fun c symbol => (analyze_with_tracking symbol c).2) run_order c.

(** [as_completed] hands the futures back in the order [completion_order];
    a future that holds a signal is appended to [results]. *)
Definition collect (completion_order : list string) : list StockSignal :=
  omap analyze completion_order.

(** [screen_stocks]. The two orders are permutations of [symbols] chosen
    by the thread pool. *)
Definition screen_stocks (symbols run_order completion_order : list string)
  : list StockSignal * RunTimeStats :=
  let c := run_workers run_order {| processed_count := 0; failed_count := 0 |} in
  let results := collect completion_order in
  let stats := {|
    total_stocks := Z.of_nat (length symbols);
    processed_stocks := c.(processed_count);
    successful_stocks := c.(processed_count) - c.(failed_count);
    failed_stocks := c.(failed_count);
    signals_found := Z.of_nat (length results);
    high_score_count :=
      Z.of_nat (length (filter (fun r => (70 <= r.(score))%Z) results))
  |}%Z in
  (sort_desc score results, stats).
End run.

End Orchestrator.

(** ** Persistence ([DataStore]) and outcome tracking ([PerformanceTracker]) *)

Module DataStore.

Record datetime : Set := {
  dt_date : Z;   (* calendar day *)
  dt_clock : Z   (* time within the day *)
}.

(** One entry of the [results] list handed to [save_screening_results]. *)
Record ResultDict : Set := {
  r_symbol : string;
  r_name : string;
  r_price : Q;
  r_change_percent : Q;
  r_volume : Z;
  r_avg_volume : Q;
  r_signals : list string;
  r_score : Z
}.

(** A row of [screening_results]. *)
Record ScreeningRow : Set := {
  sr_id : Z;
  sr_scan_time : datetime;
  sr_symbol : string;
  sr_name : string;
  sr_price : Q;
  sr_change_percent : Q;
  sr_volume : Z;
  sr_avg_volume : Q;
  sr_signals : string;   (* JSON text *)
  sr_score : Z
}.

(** A row of [performance_tracking]. *)
Record TrackingRow : Set := {
  pt_id : Z;
  screening_id : Z;
  pt_symbol : string;
  signal_date : Z;
  signal_price : Q;
  signal_score : Z;
  day1_price : option Q;
  day1_change : option Q;
  day3_price : option Q;
  day3_change : option Q;
  day5_price : option Q;
  day5_change : option Q;
  day7_price : option Q;
  day7_change : option Q;
  max_gain : option Q;
  max_loss : option Q;
  is_successful : option Z;
  updated_at : option Z
}.

(** The two tables, in row order, with their [AUTOINCREMENT] counters. *)
Record DB : Set := {
  screening_results : list ScreeningRow;
  performance_tracking : list TrackingRow;
  last_screening_id : Z;
  last_tracking_id : Z
}.

Definition empty_db : DB := {|
  screening_results := [];
  performance_tracking := [];
  last_screening_id := 0;
  last_tracking_id := 0
|}.

(** The [data] dictionary of [update_tracking]; [None] is an absent key
    ([data.get] answers [None]). *)
Record TrackingData : Set := {
  d_day1_price : option Q;
  d_day1_change : option Q;
  d_day3_price : option Q;
  d_day3_change : option Q;
  d_day5_price : option Q;
  d_day5_change : option Q;
  d_day7_price : option Q;
  d_day7_change : option Q;
  d_max_gain : option Q;
  d_max_loss : option Q;
  d_is_successful : option Z
}.

(** SQL [COALESCE(new, old)] *)
Definition COALESCE {A} (new old : option A) : option A :=
  match new with
  | Some x => Some x
  | None => old
  end.

(** The [SET] clause of [update_tracking] applied to one row. *)
Definition set_tracking (data : TrackingData) (now : Z) (row : TrackingRow) : TrackingRow := {|
  pt_id := row.(pt_id);
  screening_id := row.(screening_id);
  pt_symbol := row.(pt_symbol);
  signal_date := row.(signal_date);
  signal_price := row.(signal_price);
  signal_score := row.(signal_score);
  day1_price := COALESCE data.(d_day1_price) row.(day1_price);
  day1_change := COALESCE data.(d_day1_change) row.(day1_change);
  day3_price := COALESCE data.(d_day3_price) row.(day3_price);
  day3_change := COALESCE data.(d_day3_change) row.(day3_change);
  day5_price := COALESCE data.(d_day5_price) row.(day5_price);
  day5_change := COALESCE data.(d_day5_change) row.(day5_change);
  day7_price := COALESCE data.(d_day7_price) row.(day7_price);
  day7_change := COALESCE data.(d_day7_change) row.(day7_change);
  max_gain := COALESCE data.(d_max_gain) row.(max_gain);
  max_loss := COALESCE data.(d_max_loss) row.(max_loss);
  is_successful := data.(d_is_successful);
  updated_at := Some now
|}.

(** [update_tracking]: [UPDATE performance_tracking SET ... WHERE id = ?] *)
Definition update_tracking (tracking_id : Z) (data : TrackingData) (now : Z) (db : DB) : DB := {|
  screening_results := db.(screening_results);
  performance_tracking :=
    map (fun row => if (row.(pt_id) =? tracking_id)%Z then set_tracking data now row else row)
        db.(performance_tracking);
  last_screening_id := db.(last_screening_id);
  last_tracking_id := db.(last_tracking_id)
|}.

(** The row of [performance_tracking] with a given id. *)
Definition tracking_row (db : DB) (tracking_id : Z) : option TrackingRow :=
  find (fun row => (row.(pt_id) =? tracking_id)%Z) db.(performance_tracking).

Section json.
(** [json.dumps(..., ensure_ascii=False)] and [json.loads] on a list of
    strings: the standard library's codec, taken with its contract. *)
Variable json_dumps : list string -> string.
Variable json_loads : string -> list string.

(** An SQLite INTEGER holds 64 bits, signed. *)
Definition fits_int64 (z : Z) : bool := (- 2 ^ 63 <=? z)%Z && (z <? 2 ^ 63)%Z.

(** Binding a Python [int] to a [?] of a statement: the [sqlite3] module
    raises [OverflowError] outside the 64-bit range. *)
Definition bind_int (z : Z) : result Z :=
  if fits_int64 z then Ok z else Raise OverflowError.

(** The id an [AUTOINCREMENT] column gives the next row: one more than the
    largest id the table has held; once that is the largest INTEGER the
    [INSERT] fails (SQLITE_FULL). *)
Definition next_id (last : Z) : result Z :=
  if (last <? 2 ^ 63 - 1)%Z then Ok (last + 1)%Z else Raise OperationalError.

(** The two rows that one pass of the loop of [save_screening_results]
    appends, once the values are bound and the ids are given. *)
Definition insert_rows (scan_time : datetime) (db : DB) (result : ResultDict) : DB :=
  let screening_id := (db.(last_screening_id) + 1)%Z in
  let tracking_id := (db.(last_tracking_id) + 1)%Z in
  {| screening_results :=
       db.(screening_results) ++ [{|
         sr_id := screening_id;
         sr_scan_time := scan_time;
         sr_symbol := result.(r_symbol);
         sr_name := result.(r_name);
         sr_price := result.(r_price);
         sr_change_percent := result.(r_change_percent);
         sr_volume := result.(r_volume);
         sr_avg_volume := result.(r_avg_volume);
         sr_signals := json_dumps result.(r_signals);
         sr_score := result.(r_score)
       |}];
     performance_tracking :=
       db.(performance_tracking) ++ [{|
         pt_id := tracking_id;
         screening_id := screening_id;
         pt_symbol := result.(r_symbol);
         signal_date := scan_time.(dt_date);
         signal_price := result.(r_price);
         signal_score := result.(r_score);
         day1_price := None; day1_change := None;
         day3_price := None; day3_change := None;
         day5_price := None; day5_change := None;
         day7_price := None; day7_change := None;
         max_gain := None; max_loss := None;
         is_successful := None;
         updated_at := None
       |}];
     last_screening_id := screening_id;
     last_tracking_id := tracking_id |}.

(** One pass of the loop of [save_screening_results]: the first [execute]
    binds [volume] and [score] and inserts the screening row, the second
    inserts the tracking row. *)
Definition insert_result (scan_time : datetime) (db : DB) : ResultDict -> result DB :=
  fun result =>
  _ <- bind_int result.(r_volume) ;;
  _ <- bind_int result.(r_score) ;;
  _ <- next_id db.(last_screening_id) ;;
  _ <- next_id db.(last_tracking_id) ;;
  Ok (insert_rows scan_time db result).

(** The loop of [save_screening_results], with its [saved_count]. *)
Fixpoint insert_all (scan_time : datetime) (results : list ResultDict) (db : DB)
         (saved_count : Z) : result (DB * Z) :=
  match results with
  | [] => Ok (db, saved_count)
  | result :: results =>
      db <- insert_result scan_time db result ;;
      insert_all scan_time results db (saved_count + 1)%Z
  end.

(** [save_screening_results]; answers the store and [saved_count]. The one
    [commit] comes after the loop: when a pass raises, the exception leaves
    the function with nothing of the batch committed, and the store stays
    the [db] that was passed in. *)
Definition save_screening_results (results : list ResultDict) (scan_time : datetime)
           (db : DB) : result (DB * Z) :=
  match results with
  | [] => Ok (db, 0%Z)
  | _ => insert_all scan_time results db 0%Z
  end.

(** Both integers of an entry fit an SQLite INTEGER. *)
Definition storable (entry : ResultDict) : bool :=
  fits_int64 entry.(r_volume) && fits_int64 entry.(r_score).

(** Both tables have ids left for [n] more rows. *)
Definition has_room (db : DB) (n : nat) : Prop :=
  (db.(last_screening_id) + Z.of_nat n < 2 ^ 63)%Z
  /\ (db.(last_tracking_id) + Z.of_nat n < 2 ^ 63)%Z.

(** The store after a call of [save_screening_results], raised or not. *)
Definition store_after (results : list ResultDict) (scan_time : datetime) (db : DB) : DB :=
  match save_screening_results results scan_time db with
  | Ok (db', _) => db'
  | Raise _ => db
  end.

(** One dictionary of the list answered by [get_results_by_date]. *)
Record ResultRow : Set := {
  o_symbol : string;
  o_name : string;
  o_price : Q;
  o_change_percent : Q;
  o_volume : Z;
  o_avg_volume : Q;
  o_signals : list string;
  o_score : Z;
  o_scan_time : datetime
}.

Definition decode_row (row : ScreeningRow) : ResultRow := {|
  o_symbol := row.(sr_symbol);
  o_name := row.(sr_name);
  o_price := row.(sr_price);
  o_change_percent := row.(sr_change_percent);
  o_volume := row.(sr_volume);
  o_avg_volume := row.(sr_avg_volume);
  o_signals := if String.eqb row.(sr_signals) EmptyString then [] else json_loads row.(sr_signals);
  o_score := row.(sr_score);
  o_scan_time := row.(sr_scan_time)
|}.

(** [WHERE DATE(scan_time) = ?] *)
Definition rows_on (db : DB) (date : Z) : list ScreeningRow :=
  filter (fun row => row.(sr_scan_time).(dt_date) = date) db.(screening_results).

(** What the [SELECT] of [get_results_by_date] may answer: one row per
    symbol ([GROUP BY symbol]), taken from a row of the group that holds
    the group's [MAX(score)], the answer ordered by descending score
    ([ORDER BY score DESC]). SQL leaves the order of equal scores to the
    engine, so this is a relation. *)
Definition select_by_date (db : DB) (date : Z) (out : list ScreeningRow) : Prop :=
  List.NoDup (map sr_symbol out)
  /\ (forall row, In row out ->
        In row (rows_on db date)
        /\ forall row', In row' (rows_on db date) ->
             row'.(sr_symbol) = row.(sr_symbol) -> (row'.(sr_score) <= row.(sr_score))%Z)
  /\ (forall row, In row (rows_on db date) -> In row.(sr_symbol) (map sr_symbol out))
  /\ Sorted (fun a b => (b.(sr_score) <= a.(sr_score))%Z) out.

(** One engine for that [SELECT]: the groups in order of first appearance,
    each holding its first row of highest score, then a stable sort. *)
Fixpoint upsert (row : ScreeningRow) (groups : list ScreeningRow) : list ScreeningRow :=
  match groups with
  | [] => [row]
  | g :: rest =>
      if String.eqb g.(sr_symbol) row.(sr_symbol)
      then (if (g.(sr_score) <? row.(sr_score))%Z then row else g) :: rest
      else g :: upsert row rest
  end.

Definition group_by_symbol (rows : list ScreeningRow) : list ScreeningRow :=
  fold_left (fun groups row => upsert row groups) rows [].

(** What [GROUP BY symbol] with [MAX(score)] asks of the groups. *)
Definition grouped (rows groups : list ScreeningRow) : Prop :=
  List.NoDup (map sr_symbol groups)
  /\ (forall g, In g groups ->
        In g rows
        /\ forall r, In r rows -> r.(sr_symbol) = g.(sr_symbol) ->
                     (r.(sr_score) <= g.(sr_score))%Z)
  /\ (forall r, In r rows -> In r.(sr_symbol) (map sr_symbol groups)).

Definition run_select (db : DB) (date : Z) : list ScreeningRow :=
  Orchestrator.sort_desc sr_score (group_by_symbol (rows_on db date)).

(** [get_results_by_date] *)
Definition get_results_by_date (db : DB) (date : Z) (results : list ResultRow) : Prop :=
  exists out, select_by_date db date out /\ results = map decode_row out.

End json.

(** A sequence of [update_tracking] calls, oldest first. *)
Definition apply_updates (updates : list (Z * TrackingData * Z)) (db : DB) : DB :=
  fold_left (fun db '(tracking_id, data, now) => update_tracking tracking_id data now db)
            updates db.

(** Every outcome field set in [row] is still set in [row']. *)
Definition fills_kept (row row' : TrackingRow) : Prop :=
  (is_Some row.(day1_price) -> is_Some row'.(day1_price))
  /\ (is_Some row.(day1_change) -> is_Some row'.(day1_change))
  /\ (is_Some row.(day3_price) -> is_Some row'.(day3_price))
  /\ (is_Some row.(day3_change) -> is_Some row'.(day3_change))
  /\ (is_Some row.(day5_price) -> is_Some row'.(day5_price))
  /\ (is_Some row.(day5_change) -> is_Some row'.(day5_change))
  /\ (is_Some row.(day7_price) -> is_Some row'.(day7_price))
  /\ (is_Some row.(day7_change) -> is_Some row'.(day7_change))
  /\ (is_Some row.(max_gain) -> is_Some row'.(max_gain))
  /\ (is_Some row.(max_loss) -> is_Some row'.(max_loss)).

(** The fields on which a saved signal and a row read back are compared. *)
Definition saved_as (result : ResultDict) : string * Z * list string :=
  (result.(r_symbol), result.(r_score), result.(r_signals)).

Definition read_as (row : ResultRow) : string * Z * list string :=
  (row.(o_symbol), row.(o_score), row.(o_signals)).

Definition by_score_desc (a b : ResultRow) : Prop := (b.(o_score) <= a.(o_score))%Z.

End DataStore.

Module PerformanceTracker.
Import DataStore.

(** The bars of the collaborator's answer used by [_update_single_tracking];
    [dates] are the timestamps turned into calendar days. *)
Record Chart : Set := {
  dates : list Z;
  closes : list (option Q);
  highs : list (option Q);
  lows : list (option Q)
}.

(** Truth value of a bar entry: [None] and [0] are false. *)
Definition truthy (x : option Q) : option Q :=
  match x with
  | Some q => if Qeq_bool q 0 then None else Some q
  | None => None
  end.

(** First index [i] with [dates[i] >= signal_date]. *)
Fixpoint find_signal_idx (dates : list Z) (signal_date : Z) (i : nat) : option nat :=
  match dates with
  | [] => None
  | d :: rest => if (signal_date <=? d)%Z then Some i
                 else find_signal_idx rest signal_date (S i)
  end.

(** [((x - signal_price) / signal_price) * 100] *)
Definition pct_change (x signal_price : Q) : result Q :=
  r <- Py.div (x - signal_price) signal_price;;
  Ok (Qred (r * 100)).

(** The [Day n] block: price and change, when the bar exists and is truthy. *)
Definition day_n (closes : list (option Q)) (signal_idx n : nat) (signal_price : Q)
  : result (option Q * option Q) :=
  if (signal_idx + n <? length closes)%nat then
    match truthy (nth (signal_idx + n) closes None) with
    | Some c => change <- pct_change c signal_price;; Ok (Some c, Some change)
    | None => Ok (None, None)
    end
  else Ok (None, None).

(** The dictionary [data] built by [_update_single_tracking]. *)
Definition tracking_data (chart : Chart) (signal_idx : nat) (signal_price : Q)
  : result TrackingData :=
  '(p1, c1) <- day_n chart.(closes) signal_idx 1 signal_price;;
  '(p3, c3) <- day_n chart.(closes) signal_idx 3 signal_price;;
  '(p5, c5) <- day_n chart.(closes) signal_idx 5 signal_price;;
  '(p7, c7) <- day_n chart.(closes) signal_idx 7 signal_price;;
  let end_idx := Nat.min (signal_idx + 8) (length chart.(closes)) in
  let period_highs := omap truthy (Py.slice chart.(highs) signal_idx end_idx) in
  let period_lows := omap truthy (Py.slice chart.(lows) signal_idx end_idx) in
  gain <- (match period_highs with
           | [] => Ok None
           | _ => max_high <- Py.max period_highs;;
                  Some <$> pct_change max_high signal_price
           end);;
  loss <- (match period_lows with
           | [] => Ok None
           | _ => min_low <- Py.min period_lows;;
                  Some <$> pct_change min_low signal_price
           end);;
  let success :=
    match c7 with
    | Some change => Some (if Py.Qgeb change 3 then 1 else 0)%Z
    | None =>
        match gain with
        | Some g => Some (if Py.Qgeb g 5 then 1 else 0)%Z
        | None => None
        end
    end in
  Ok {| d_day1_price := p1; d_day1_change := c1;
        d_day3_price := p3; d_day3_change := c3;
        d_day5_price := p5; d_day5_change := c5;
        d_day7_price := p7; d_day7_change := c7;
        d_max_gain := gain; d_max_loss := loss;
        d_is_successful := success |}.

(** [_update_single_tracking]; [response] is the collaborator's answer for
    the record's symbol. The log line that follows the store update can
    raise, but only after the update is committed, so the store is the one
    computed here. *)
Definition update_single_tracking (row : TrackingRow) (response : option Chart)
           (now : Z) (db : DB) : result DB :=
  match response with
  | None => Ok db
  | Some chart =>
      if negb (Scorer.nonempty chart.(dates)) || negb (Scorer.nonempty chart.(closes))
      then Ok db
      else match find_signal_idx chart.(dates) row.(signal_date) 0 with
           | None => Ok db
           | Some signal_idx =>
               data <- tracking_data chart signal_idx row.(signal_price);;
               Ok (update_tracking row.(pt_id) data now db)
           end
  end.

(** One record of a pass of [update_all_tracking]: a failure is logged and
    the store is left as it was. *)
Definition update_one (row : TrackingRow) (response : option Chart) (now : Z) (db : DB) : DB :=
  try_except (update_single_tracking row response now db) db.

End PerformanceTracker.

(** ** Weight optimizer ([WeeklyAnalyzer.auto_optimize_model]) *)

Module WeeklyAnalyzer.

Record Suggestion : Set := {
  s_type : string;
  target : string;
  reason : string;
  action : string;
  priority : string
}.

Record Applied : Set := {
  param : string;
  old : Z;
  new : Z;
  a_reason : string
}.

Record Skipped : Set := {
  suggestion : string;
  k_reason : string
}.

Record Adjustments : Set := {
  applied : list Applied;
  skipped : list Skipped
}.

(** The weights used when the configuration has no ['weights'] entry. *)
Definition fallback_weights : gmap string Z :=
  list_to_map [("ma_golden_cross", 25); ("macd_golden_cross", 20); ("rsi_bullish", 15);
               ("volume_surge", 15); ("price_breakout", 15); ("obv_confirm", 10)]%Z.

Definition signal_to_weight : gmap string string :=
  list_to_map [("MA金叉", "ma_golden_cross");
               ("MACD金叉", "macd_golden_cross");
               ("MACD多头", "macd_golden_cross");
               ("RSI反弹", "rsi_bullish");
               ("RSI健康", "rsi_bullish");
               ("成交量放大", "volume_surge");
               ("接近新高", "price_breakout");
               ("价格突破", "price_breakout");
               ("OBV确认", "obv_confirm")].

(** The loop state: [new_weights] and [adjustments]. *)
Definition LoopState : Type := (gmap string Z * Adjustments)%type.

(** The shared body of the two weight branches. *)
Definition nudge (f : Z -> Z) (s : Suggestion) (st : LoopState) : LoopState :=
  let '(new_weights, adjustments) := st in
  match signal_to_weight !! s.(target) with
  | Some weight_key =>
      if String.eqb weight_key EmptyString then st
      else match new_weights !! weight_key with
           | Some old_value =>
               let new_value := f old_value in
               (<[weight_key := new_value]> new_weights,
                {| applied := adjustments.(applied) ++
                              [{| param := weight_key; old := old_value;
                                  new := new_value; a_reason := s.(reason) |}];
                   skipped := adjustments.(skipped) |})
           | None => st
           end
  | None => st
  end.

(** One pass of the loop over the suggestions. *)
Definition apply_suggestion (st : LoopState) (s : Suggestion) : LoopState :=
  if String.eqb s.(s_type) "reduce_weight" then
    nudge (fun old_value => Z.max 5 (old_value - 5)) s st
  else if String.eqb s.(s_type) "increase_weight" then
    nudge (fun old_value => Z.min 35 (old_value + 5)) s st
  else if String.eqb s.(s_type) "review" then
    (st.1, {| applied := st.2.(applied);
              skipped := st.2.(skipped) ++
                         [{| suggestion := s.(action); k_reason := "需要人工审查" |}] |})
  else st.

Definition apply_suggestions (suggestions : list Suggestion) (current_weights : gmap string Z)
  : LoopState :=
  fold_left apply_suggestion suggestions
            (current_weights, {| applied := []; skipped := [] |}).

(** The weight that a suggestion acts on, if it is one of the two weight
    suggestions and its target is in the table. *)
Definition weight_key (s : Suggestion) : option string :=
  if String.eqb s.(s_type) "reduce_weight" || String.eqb s.(s_type) "increase_weight"
  then signal_to_weight !! s.(target) else None.

(** All weights lie between the floor and the ceiling of the optimizer. *)
Definition in_band (w : gmap string Z) : Prop :=
  map_Forall (fun _ v => (5 <= v <= 35)%Z) w.

(** Every weight that a suggestion acts on already sits at the bound of
    that suggestion. *)
Definition pinned (suggestions : list Suggestion) (w : gmap string Z) : Prop :=
  forall s k v,
    In s suggestions -> signal_to_weight !! s.(target) = Some k -> w !! k = Some v ->
    (s.(s_type) = "reduce_weight" -> v = 5%Z)
    /\ (s.(s_type) = "increase_weight" -> v = 35%Z).

(** The analyzer's state touched by the optimizer: the ['weights'] entry of
    its configuration and the [model_params_history] table. *)
Record Analyzer : Type := {
  config_weights : option (gmap string Z);
  model_params_history : list (gmap string Z * option Q * string)
}.

(** [self.config.get('weights', {...})] *)
Definition current_weights (self : Analyzer) : gmap string Z :=
  default fallback_weights self.(config_weights).

(** [auto_optimize_model]; [suggestions] and [accuracy_rate] are the two
    entries of [analysis] that it reads. *)
Definition auto_optimize_model (suggestions : list Suggestion) (accuracy_rate : option Q)
           (self : Analyzer) : Adjustments * Analyzer :=
  let '(new_weights, adjustments) := apply_suggestions suggestions (current_weights self) in
  match adjustments.(applied) with
  | [] => (adjustments, self)
  | _ =>
      (adjustments,
       {| config_weights := Some new_weights;
          model_params_history :=
            self.(model_params_history) ++
            [(new_weights, accuracy_rate,
              "自动优化: " +:+ Fmt.of_nat (length adjustments.(applied)) +:+ " 项调整")] |})
  end.

End WeeklyAnalyzer.

(** * Concrete inputs *)

Module Examples.

(** Sixty sessions of a stock that rises faster and faster (close
    [100 + i + i^2/50] on session [i], high one dollar above), with a
    surge of volume on the last one. *)
Definition rising : StockData := {|
  regularMarketPrice := None;
  shortName := Some "Acme Corp";
  longName := None;
  quote_close :=
    map (fun i => Some (inject_Z (100 + Z.of_nat i) + (Z.of_nat (i * i) # 50))) (seq 0 60);
  quote_volume := map (fun i => Some (if (i =? 59)%nat then 5000000 else 2000000)%Z) (seq 0 60);
  quote_high :=
    map (fun i => Some (inject_Z (101 + Z.of_nat i) + (Z.of_nat (i * i) # 50))) (seq 0 60)
|}.

(** The same history quoted at two dollars. *)
Definition penny : StockData := {|
  regularMarketPrice := Some 2;
  shortName := rising.(shortName);
  longName := rising.(longName);
  quote_close := rising.(quote_close);
  quote_volume := rising.(quote_volume);
  quote_high := rising.(quote_high)
|}.

(** Three sessions only. *)
Definition short_history : StockData := {|
  regularMarketPrice := Some 102;
  shortName := Some "Acme Corp";
  longName := None;
  quote_close := [Some 100; Some 101; Some 102];
  quote_volume := [Some 2000000; Some 2000000; Some 2000000]%Z;
  quote_high := [Some 101; Some 102; Some 103]
|}.

Definition fetch_short (symbol : string) : option StockData := Some short_history.

Definition fetch_rising (symbol : string) : option StockData := Some rising.
Definition fetch_penny (symbol : string) : option StockData := Some penny.

(** A configuration with a low entry threshold and unit weights. *)
Definition low_threshold : Config := {|
  min_price := 5;
  max_price := 1000;
  min_avg_volume := 1000000;
  min_score := 10;
  volume_surge_ratio := 18 # 10;
  trend_confirm_days := 3;
  ma_short := 20;
  ma_long := 50;
  rsi_oversold := 30;
  weights := {|
    ma_golden_cross := 1;
    macd_golden_cross := 1;
    rsi_reversal := 1;
    volume_surge := 1;
    price_breakout_52w := 1;
    price_breakout_20d := 1;
    trend_continuation := 1;
    obv_confirm := 1
  |}
|}.

(** *** Orchestrator *)

Definition fetch_one (symbol : string) : option StockData :=
  if String.eqb symbol "AAA" then Some rising else None.

Definition universe : list string := ["AAA"; "BBB"; "CCC"].
Definition run_order : list string := ["BBB"; "AAA"; "CCC"].
Definition completion_order : list string := ["CCC"; "AAA"; "BBB"].

(** *** Persistence *)

(** A small codec with the contract of [json.dumps] and [json.loads]. *)
Fixpoint enc (s : string) : string :=
  match s with
  | EmptyString => ","
  | String c rest => String "x" (String c (enc rest))
  end.

Fixpoint dumps_items (l : list string) : string :=
  match l with
  | [] => EmptyString
  | s :: rest => enc s +:+ dumps_items rest
  end.

Definition dumps (l : list string) : string := String "[" (dumps_items l).

Fixpoint dec (t : string) : list string :=
  match t with
  | String "x" (String c rest) =>
      match dec rest with
      | s :: l => String c s :: l
      | [] => []
      end
  | String "," rest => EmptyString :: dec rest
  | _ => []
  end.

Definition loads (t : string) : list string :=
  match t with
  | String "[" rest => dec rest
  | _ => []
  end.

Definition scan_time : DataStore.datetime :=
  {| DataStore.dt_date := 10; DataStore.dt_clock := 34200 |}.

Definition saved (symbol : string) (score : Z) : DataStore.ResultDict := {|
  DataStore.r_symbol := symbol;
  DataStore.r_name := "Acme Corp";
  DataStore.r_price := 100;
  DataStore.r_change_percent := 1;
  DataStore.r_volume := 5000000;
  DataStore.r_avg_volume := 2150000;
  DataStore.r_signals := ["🔥 MACD金叉确认"];
  DataStore.r_score := score
|}.

(** An entry whose volume is one above the largest SQLite INTEGER. *)
Definition oversized : DataStore.ResultDict := {|
  DataStore.r_symbol := "BIG";
  DataStore.r_name := "Acme Corp";
  DataStore.r_price := 100;
  DataStore.r_change_percent := 1;
  DataStore.r_volume := 2 ^ 63;
  DataStore.r_avg_volume := 2150000;
  DataStore.r_signals := ["🔥 MACD金叉确认"];
  DataStore.r_score := 50
|}.

(** The same symbol twice in one batch. *)
Definition twice : list DataStore.ResultDict := [saved "AAA" 50; saved "AAA" 60].

(** Two symbols with equal scores. *)
Definition tied : list DataStore.ResultDict := [saved "ZZZ" 50; saved "AAA" 50].

(** Two symbols with different scores. *)
Definition two : list DataStore.ResultDict := [saved "ZZZ" 50; saved "AAA" 60].

Definition store_of (batch : list DataStore.ResultDict) : DataStore.DB :=
  DataStore.store_after dumps batch scan_time DataStore.empty_db.

(** The row that the store holds for a saved signal. *)
Definition row_of (id : Z) (result : DataStore.ResultDict) : DataStore.ScreeningRow := {|
  DataStore.sr_id := id;
  DataStore.sr_scan_time := scan_time;
  DataStore.sr_symbol := result.(DataStore.r_symbol);
  DataStore.sr_name := result.(DataStore.r_name);
  DataStore.sr_price := result.(DataStore.r_price);
  DataStore.sr_change_percent := result.(DataStore.r_change_percent);
  DataStore.sr_volume := result.(DataStore.r_volume);
  DataStore.sr_avg_volume := result.(DataStore.r_avg_volume);
  DataStore.sr_signals := dumps result.(DataStore.r_signals);
  DataStore.sr_score := result.(DataStore.r_score)
|}.

(** *** Outcome tracking *)

Definition db0 : DataStore.DB := store_of [saved "AAA" 55].

(** Two sessions after the signal: a high of 106, no seventh session yet. *)
Definition chart_day2 : PerformanceTracker.Chart := {|
  PerformanceTracker.dates := [10; 11; 12]%Z;
  PerformanceTracker.closes := [Some 100; Some 101; Some 102];
  PerformanceTracker.highs := [Some 100; Some 106; Some 103];
  PerformanceTracker.lows := [Some 99; Some 100; Some 101]
|}.

(** Eight sessions: the seventh close after the signal is 101. *)
Definition chart_day8 : PerformanceTracker.Chart := {|
  PerformanceTracker.dates := [10; 11; 12; 13; 14; 17; 18; 19]%Z;
  PerformanceTracker.closes :=
    [Some 100; Some 101; Some 102; Some 103; Some 102; Some 101; Some 100; Some 101];
  PerformanceTracker.highs :=
    [Some 100; Some 106; Some 103; Some 104; Some 103; Some 102; Some 101; Some 102];
  PerformanceTracker.lows :=
    [Some 99; Some 100; Some 101; Some 102; Some 101; Some 100; Some 99; Some 100]
|}.

(** One pass of the tracker over record 1, with the chart it is given. *)
Definition pass (chart : PerformanceTracker.Chart) (now : Z) (db : DataStore.DB)
  : DataStore.DB :=
  match DataStore.tracking_row db 1 with
  | Some row => PerformanceTracker.update_one row (Some chart) now db
  | None => db
  end.

Definition db1 : DataStore.DB := pass chart_day2 12 db0.
Definition db2 : DataStore.DB := pass chart_day8 19 db1.

(** Eight sessions with a seventh close of 104 and no high above 104.5. *)
Definition chart_full : PerformanceTracker.Chart := {|
  PerformanceTracker.dates := [10; 11; 12; 13; 14; 17; 18; 19]%Z;
  PerformanceTracker.closes :=
    [Some 100; Some 101; Some 102; Some 103; Some 103; Some 104; Some 104; Some 104];
  PerformanceTracker.highs :=
    [Some 100; Some 102; Some 103; Some 104; Some 104; Some (209 # 2); Some (209 # 2);
     Some (209 # 2)];
  PerformanceTracker.lows :=
    [Some 99; Some 100; Some 101; Some 102; Some 102; Some 103; Some 103; Some 103]
|}.

(** The same sessions fetched again with the seventh close missing. *)
Definition chart_gap : PerformanceTracker.Chart := {|
  PerformanceTracker.dates := chart_full.(PerformanceTracker.dates);
  PerformanceTracker.closes :=
    [Some 100; Some 101; Some 102; Some 103; Some 103; Some 104; Some 104; None];
  PerformanceTracker.highs := chart_full.(PerformanceTracker.highs);
  PerformanceTracker.lows := chart_full.(PerformanceTracker.lows)
|}.

Definition db_full : DataStore.DB := pass chart_full 19 db0.
Definition db_gap : DataStore.DB := pass chart_gap 21 db_full.

(** An update that carries no outcome field. *)
Definition no_news : DataStore.TrackingData := {|
  DataStore.d_day1_price := None; DataStore.d_day1_change := None;
  DataStore.d_day3_price := None; DataStore.d_day3_change := None;
  DataStore.d_day5_price := None; DataStore.d_day5_change := None;
  DataStore.d_day7_price := None; DataStore.d_day7_change := None;
  DataStore.d_max_gain := None; DataStore.d_max_loss := None;
  DataStore.d_is_successful := Some 1%Z
|}.

(** *** Optimizer *)

Definition suggest (type target : string) : WeeklyAnalyzer.Suggestion := {|
  WeeklyAnalyzer.s_type := type;
  WeeklyAnalyzer.target := target;
  WeeklyAnalyzer.reason := "准确率过低 (20.0%)";
  WeeklyAnalyzer.action := "建议降低 " +:+ target +:+ " 的权重";
  WeeklyAnalyzer.priority := "high"
|}.

Definition reduce_ma : list WeeklyAnalyzer.Suggestion := [suggest "reduce_weight" "MA金叉"].

Definition reduce_and_increase : list WeeklyAnalyzer.Suggestion :=
  [suggest "reduce_weight" "MA金叉"; suggest "increase_weight" "成交量放大"].

(** An analyzer whose configuration has no ['weights'] entry yet. *)
Definition fresh : WeeklyAnalyzer.Analyzer :=
  {| WeeklyAnalyzer.config_weights := None; WeeklyAnalyzer.model_params_history := [] |}.

(** An analyzer whose moving-average weight is at the floor. *)
Definition at_floor : WeeklyAnalyzer.Analyzer :=
  {| WeeklyAnalyzer.config_weights := Some (<["ma_golden_cross" := 5%Z]> WeeklyAnalyzer.fallback_weights);
     WeeklyAnalyzer.model_params_history := [] |}.

(** Weights outside the interval from 5 to 35. *)
Definition out_of_band : gmap string Z :=
  list_to_map [("ma_golden_cross", 3); ("volume_surge", 40)]%Z.
End Examples.


(** ** Notions used to state further properties *)

(** One step of the on-balance volume: what session [i] adds to the sum. *)
Definition obv_step (prev_price price : Q) (volume : Z) : Z :=
  if Py.Qgtb price prev_price then volume
  else if Py.Qltb price prev_price then (- volume)%Z
  else 0%Z.

Module Accounting.
Import Scorer.

(** What some rule steps did to the accumulators: at most [n] tags
    appended, a bonus between 0 and [W] added, and no bonus without a tag. *)
Definition grew_by (n : nat) (W : Z) (acc acc' : Acc) : Prop :=
  exists tags d,
    acc' = (acc.1 ++ tags, (acc.2 + d)%Z)
    /\ (length tags <= n)%nat /\ (0 <= d <= W)%Z /\ (tags = [] -> d = 0%Z).

(** No weight is negative. *)
Definition nonnegative (w : Weights) : Prop :=
  (0 <= w.(ma_golden_cross) /\ 0 <= w.(macd_golden_cross) /\ 0 <= w.(rsi_reversal)
   /\ 0 <= w.(volume_surge) /\ 0 <= w.(price_breakout_52w) /\ 0 <= w.(price_breakout_20d)
   /\ 0 <= w.(trend_continuation) /\ 0 <= w.(obv_confirm))%Z.

(** The highest score the rules can add up to: the first rule fires either
    the golden cross or the bullish alignment, the trend adds 15 at most. *)
Definition score_ceiling (w : Weights) : Z :=
  (Z.max w.(ma_golden_cross) w.(trend_continuation) + w.(macd_golden_cross)
   + w.(rsi_reversal) + w.(volume_surge) + w.(price_breakout_52w)
   + w.(price_breakout_20d) + w.(obv_confirm) + 15)%Z.

(** Grades in rising order. *)
Definition grade_rank (grade : string) : nat :=
  if String.eqb grade grade_A then 3
  else if String.eqb grade grade_B then 2
  else if String.eqb grade grade_C then 1
  else 0.

End Accounting.

(** ** Notifier ([TelegramNotifier.send_message]) *)

Module TelegramNotifier.

Section send.
(** The characters of a Python [str]. *)
Context {Char : Type}.

(** [range(0, stop, step)] for [step > 0] *)
Definition range_step (stop step : nat) : list nat :=
  map (fun k => k * step)%nat (seq 0 ((stop + step - 1) / step)).

(** [[text[i:i+max_length] for i in range(0, len(text), max_length)]] *)
Definition messages (max_length : nat) (text : list Char) : list (list Char) :=
  map (fun i => Py.slice text i (i + max_length)) (range_step (length text) max_length).

(** The answer of [requests.post] to the [k]-th request of the call: a
    status code, or an exception. *)
Variable post : nat -> list Char -> result Z.

(** The loop over [messages]. [accepted] collects the chunks that were
    answered with status 200; an exception or another status ends the call
    with [False]. *)
Fixpoint send_loop (k : nat) (msgs accepted : list (list Char))
  : bool * list (list Char) :=
  match msgs with
  | [] => (true, accepted)
  | msg :: rest =>
      match post k msg with
      | Raise _ => (false, accepted)
      | Ok status_code =>
          if negb (status_code =? 200)%Z then (false, accepted)
          else send_loop (S k) rest (accepted ++ [msg])
      end
  end.

Definition max_length : nat := 4000.

(** [send_message]; answers the return value and the chunks accepted. *)
Definition send_message (text : list Char) : bool * list (list Char) :=
  send_loop 0 (messages max_length text) [].

End send.

End TelegramNotifier.

(** ** Integrity of the store *)

Module Integrity.
Import DataStore.

(** What the engine guarantees for the two [AUTOINCREMENT] keys: the ids
    of a table are distinct and not above the table's counter. *)
Definition well_formed (db : DB) : Prop :=
  List.NoDup (map sr_id db.(screening_results))
  /\ List.NoDup (map pt_id db.(performance_tracking))
  /\ Forall (fun s => (s.(sr_id) <= db.(last_screening_id))%Z) db.(screening_results)
  /\ Forall (fun t => (t.(pt_id) <= db.(last_tracking_id))%Z) db.(performance_tracking).

(** The screening row [s] holds the entry [result] of a batch. *)
Definition stores (json_dumps : list string -> string) (scan_time : datetime)
           (result : ResultDict) (s : ScreeningRow) : Prop :=
  s.(sr_scan_time) = scan_time /\ s.(sr_symbol) = result.(r_symbol)
  /\ s.(sr_name) = result.(r_name) /\ s.(sr_price) = result.(r_price)
  /\ s.(sr_change_percent) = result.(r_change_percent)
  /\ s.(sr_volume) = result.(r_volume) /\ s.(sr_avg_volume) = result.(r_avg_volume)
  /\ s.(sr_signals) = json_dumps result.(r_signals) /\ s.(sr_score) = result.(r_score).

(** The tracking row [t] was opened for the screening row [s]. *)
Definition tracks (s : ScreeningRow) (t : TrackingRow) : Prop :=
  t.(screening_id) = s.(sr_id) /\ t.(pt_symbol) = s.(sr_symbol)
  /\ t.(signal_date) = s.(sr_scan_time).(dt_date)
  /\ t.(signal_price) = s.(sr_price) /\ t.(signal_score) = s.(sr_score).

(** No outcome has been written to the tracking row yet. *)
Definition untouched (t : TrackingRow) : Prop :=
  t.(day1_price) = None /\ t.(day1_change) = None
  /\ t.(day3_price) = None /\ t.(day3_change) = None
  /\ t.(day5_price) = None /\ t.(day5_change) = None
  /\ t.(day7_price) = None /\ t.(day7_change) = None
  /\ t.(max_gain) = None /\ t.(max_loss) = None
  /\ t.(is_successful) = None /\ t.(updated_at) = None.

(** The row with its [updated_at] left out. *)
Definition forget_time (t : TrackingRow) : TrackingRow := {|
  pt_id := t.(pt_id);
  screening_id := t.(screening_id);
  pt_symbol := t.(pt_symbol);
  signal_date := t.(signal_date);
  signal_price := t.(signal_price);
  signal_score := t.(signal_score);
  day1_price := t.(day1_price); day1_change := t.(day1_change);
  day3_price := t.(day3_price); day3_change := t.(day3_change);
  day5_price := t.(day5_price); day5_change := t.(day5_change);
  day7_price := t.(day7_price); day7_change := t.(day7_change);
  max_gain := t.(max_gain); max_loss := t.(max_loss);
  is_successful := t.(is_successful);
  updated_at := None
|}.

(** The store with the [updated_at] of every tracking row left out. *)
Definition forget_times (db : DB) : DB := {|
  screening_results := db.(screening_results);
  performance_tracking := map forget_time db.(performance_tracking);
  last_screening_id := db.(last_screening_id);
  last_tracking_id := db.(last_tracking_id)
|}.

(** The two integers that [update_tracking] binds, the id and the success
    flag, fit an SQLite INTEGER; outside that range the [sqlite3] module
    raises [OverflowError] and the [UPDATE] is not run. *)
Definition bindable (tracking_id : Z) (data : TrackingData) : bool :=
  fits_int64 tracking_id
  && match data.(d_is_successful) with
     | Some flag => fits_int64 flag
     | None => true
     end.

End Integrity.

(** ** The tracking pass ([get_pending_tracking], [update_all_tracking]) *)

Module TrackingPass.
Import DataStore PerformanceTracker.

Section pass.
(** The calendar day of a [CURRENT_TIMESTAMP] reading. *)
Variable day_of : Z -> Z.

(** The [WHERE] clause of [get_pending_tracking]. [sql_today] is
    [DATE('now')]; a time stamp is below a date when its day is before
    that date, and a comparison with [NULL] does not hold. *)
Definition is_pending (cutoff_date sql_today : Z) (row : TrackingRow) : bool :=
  (cutoff_date <=? row.(signal_date))%Z
  && (match row.(day7_price) with None => true | Some _ => false end
      || match row.(updated_at) with
         | Some u => (day_of u <? sql_today - 1)%Z
         | None => false
         end).

(** [get_pending_tracking]; [today] is [datetime.now().date()]. The five
    columns selected are read off the row. *)
Definition get_pending_tracking (days_ago today sql_today : Z) (db : DB) : list TrackingRow :=
  List.filter (is_pending (today - days_ago) sql_today) db.(performance_tracking).

(** [update_all_tracking]: [respond] is the collaborator's answer and
    [clock] the time of the store update, for the record with a given id. *)
Definition update_all_tracking (today sql_today : Z) (respond : Z -> option Chart)
           (clock : Z -> Z) (db : DB) : DB :=
  let pending := get_pending_tracking 14 today sql_today db in
  fold_left (fun db record =>
               update_one record (respond record.(pt_id)) (clock record.(pt_id)) db)
            pending db.

End pass.

(** What one [Day n] block leaves in [data]. *)
Definition day_filled (closes : list (option Q)) (signal_idx n : nat) (signal_price : Q)
           (p c : option Q) : Prop :=
  match p, c with
  | Some price, Some change =>
      (signal_idx + n < length closes)%nat
      /\ nth (signal_idx + n) closes None = Some price
      /\ ~ price == 0 /\ ~ signal_price == 0
      /\ change == (price - signal_price) / signal_price * 100
  | None, None => True
  | _, _ => False
  end.

(** All the fields of [data] are absent. *)
Definition no_data (data : TrackingData) : Prop :=
  data.(d_day1_price) = None /\ data.(d_day1_change) = None
  /\ data.(d_day3_price) = None /\ data.(d_day3_change) = None
  /\ data.(d_day5_price) = None /\ data.(d_day5_change) = None
  /\ data.(d_day7_price) = None /\ data.(d_day7_change) = None
  /\ data.(d_max_gain) = None /\ data.(d_max_loss) = None
  /\ data.(d_is_successful) = None.

End TrackingPass.

(** ** Tracking statistics ([DataStore.get_tracking_stats]) *)

Module TrackingStats.
Import DataStore.

Record ScoreGroup : Set := {
  g_total : Z;
  g_successful : option Z;
  g_accuracy : Q;
  g_avg_return : Q
}.

Record Stats : Set := {
  total_signals : Z;
  successful_signals : Z;
  accuracy_rate : Q;
  avg_return : Q;
  avg_max_gain : Q;
  avg_max_loss : Q;
  by_score : gmap string ScoreGroup
}.

(** [WHERE signal_date >= ? AND day7_change IS NOT NULL] *)
Definition tracked (cutoff_date : Z) (row : TrackingRow) : bool :=
  (cutoff_date <=? row.(signal_date))%Z
  && match row.(day7_change) with Some _ => true | None => false end.

(** [is_successful = 1] *)
Definition succeeded (row : TrackingRow) : bool :=
  match row.(is_successful) with
  | Some v => (v =? 1)%Z
  | None => false
  end.

(** [SUM(CASE WHEN is_successful = 1 THEN 1 ELSE 0 END)]: [NULL] over no row *)
Definition SUM_successful (rows : list TrackingRow) : option Z :=
  match rows with
  | [] => None
  | _ => Some (Z.of_nat (length (List.filter succeeded rows)))
  end.

(** [AVG(column)]: the mean of the values that are not [NULL], and [NULL]
    when there is none *)
Definition AVG (column : list (option Q)) : option Q :=
  match omap id column with
  | [] => None
  | values => Some (Qred (Py.sum values / Py.of_nat (length values)))
  end.

(** [(successful / total * 100) if total else 0]; dividing [None] is an
    error *)
Definition accuracy (successful : option Z) (total : Z) : result Q :=
  if (total =? 0)%Z then Ok 0
  else match successful with
       | None => Raise ValueError
       | Some s =>
           r <- Py.div (inject_Z s) (inject_Z total);;
           Ok (Qred (r * 100))
       end.

(** [CASE WHEN signal_score >= 70 THEN 'high' WHEN signal_score >= 40 THEN
    'medium' ELSE 'low' END] *)
Definition score_group (row : TrackingRow) : string :=
  if (70 <=? row.(signal_score))%Z then "high"
  else if (40 <=? row.(signal_score))%Z then "medium"
  else "low".

(** The rows of one group of [GROUP BY score_group]. *)
Definition group_rows (rows : list TrackingRow) (group : string) : list TrackingRow :=
  List.filter (fun row => String.eqb (score_group row) group) rows.

(** The dictionary stored for one row of the second query. *)
Definition group_entry (rows : list TrackingRow) : result ScoreGroup :=
  let total := Z.of_nat (length rows) in
  let successful := SUM_successful rows in
  acc <- accuracy successful total;;
  Ok {| g_total := total;
        g_successful := successful;
        g_accuracy := acc;
        g_avg_return := default 0 (AVG (map day7_change rows)) |}.

(** The loop over the rows of the second query: one row per group that is
    not empty. *)
Definition add_group (rows : list TrackingRow) (m : result (gmap string ScoreGroup))
           (group : string) : result (gmap string ScoreGroup) :=
  by_score <- m;;
  match group_rows rows group with
  | [] => Ok by_score
  | members => entry <- group_entry members;; Ok (<[group := entry]> by_score)
  end.

(** [get_tracking_stats]; [cutoff_date] is [(datetime.now() -
    timedelta(days=days)).date()]. *)
Definition get_tracking_stats (cutoff_date : Z) (db : DB) : result Stats :=
  let rows := List.filter (tracked cutoff_date) db.(performance_tracking) in
  let total := Z.of_nat (length rows) in
  let successful := SUM_successful rows in
  acc <- accuracy successful total;;
  by_score <- fold_left (add_group rows) ["high"; "medium"; "low"] (Ok ∅);;
  Ok {| total_signals := total;
        successful_signals := default 0%Z successful;
        accuracy_rate := acc;
        avg_return := default 0 (AVG (map day7_change rows));
        avg_max_gain := default 0 (AVG (map max_gain rows));
        avg_max_loss := default 0 (AVG (map max_loss rows));
        by_score := by_score |}.

(** The counts of a group in [by_score], 0 for a group that is absent. *)
Definition group_total (stats : Stats) (group : string) : Z :=
  from_option g_total 0%Z (stats.(by_score) !! group).

Definition group_successful (stats : Stats) (group : string) : Z :=
  from_option (fun g => default 0%Z g.(g_successful)) 0%Z (stats.(by_score) !! group).

(** What [by_score] holds for a group: nothing when the group has no row,
    else its entry. *)
Definition group_view (rows : list TrackingRow) (group : string) (g : option ScoreGroup)
  : Prop :=
  match group_rows rows group with
  | [] => g = None
  | members => exists entry, g = Some entry /\ group_entry members = Ok entry
  end.

End TrackingStats.

(** ** Daily summaries ([save_daily_summary], [mark_email_sent]) *)

Module DailySummary.

(** A row of [daily_summary]. *)
Record SummaryRow : Set := {
  ds_id : Z;
  summary_date : Z;
  total_scans : Z;
  total_signals : Z;
  top_stocks : string;   (* JSON text *)
  avg_score : Q;
  sent_email : Z
}.

(** The [data] dictionary of [save_daily_summary]; [None] is an absent key. *)
Record SummaryData : Set := {
  d_total_scans : option Z;
  d_total_signals : option Z;
  d_top_stocks : option (list string);
  d_avg_score : option Q;
  d_sent_email : option Z
}.

(** The table in row order, with its [AUTOINCREMENT] counter. *)
Record Table : Set := {
  rows : list SummaryRow;
  last_id : Z
}.

Section json.
Variable json_dumps : list string -> string.

(** [INSERT OR REPLACE INTO daily_summary ...]: [summary_date] is [UNIQUE],
    so the rows of that date are deleted before the new row goes in. *)
Definition save_daily_summary (date : Z) (data : SummaryData) (t : Table) : Table :=
  let id := (t.(last_id) + 1)%Z in
  {| rows :=
       List.filter (fun row => negb (row.(summary_date) =? date)%Z) t.(rows) ++ [{|
         ds_id := id;
         summary_date := date;
         total_scans := default 0%Z data.(d_total_scans);
         total_signals := default 0%Z data.(d_total_signals);
         top_stocks := json_dumps (default [] data.(d_top_stocks));
         avg_score := default 0 data.(d_avg_score);
         sent_email := default 0%Z data.(d_sent_email)
       |}];
     last_id := id |}.
End json.

Definition set_sent (row : SummaryRow) : SummaryRow := {|
  ds_id := row.(ds_id);
  summary_date := row.(summary_date);
  total_scans := row.(total_scans);
  total_signals := row.(total_signals);
  top_stocks := row.(top_stocks);
  avg_score := row.(avg_score);
  sent_email := 1
|}.

(** [UPDATE daily_summary SET sent_email = 1 WHERE summary_date = ?] *)
Definition mark_email_sent (date : Z) (t : Table) : Table :=
  {| rows := map (fun row => if (row.(summary_date) =? date)%Z then set_sent row else row)
                 t.(rows);
     last_id := t.(last_id) |}.

(** The row of a date. *)
Definition summary_on (t : Table) (date : Z) : option SummaryRow :=
  find (fun row => (row.(summary_date) =? date)%Z) t.(rows).

(** The [UNIQUE] constraint on [summary_date]. *)
Definition one_per_date (t : Table) : Prop := List.NoDup (map summary_date t.(rows)).

End DailySummary.

(** ** Parameter history ([save_model_params], [get_latest_model_params]) *)

Module ModelParams.

(** A row of [model_params_history]. *)
Record ParamsRow : Set := {
  mp_id : Z;
  effective_date : Z;
  params : string;   (* JSON text *)
  accuracy_rate : option Q;
  notes : string
}.

Record Table : Set := {
  rows : list ParamsRow;
  last_id : Z
}.

Section json.
(** The parameters dictionary and the standard library's codec for it. *)
Context {Params : Type}.
Variable json_dumps : Params -> string.
Variable json_loads : string -> Params.

(** [save_model_params]; [today] is [datetime.now().date()]. *)
Definition save_model_params (today : Z) (p : Params) (accuracy : option Q)
           (note : string) (t : Table) : Table :=
  let id := (t.(last_id) + 1)%Z in
  {| rows := t.(rows) ++ [{| mp_id := id;
                             effective_date := today;
                             params := json_dumps p;
                             accuracy_rate := accuracy;
                             notes := note |}];
     last_id := id |}.

(** [ORDER BY effective_date DESC, id DESC]: [a] comes before [b]. *)
Definition newer (a b : ParamsRow) : bool :=
  (b.(effective_date) <? a.(effective_date))%Z
  || ((a.(effective_date) =? b.(effective_date))%Z && (b.(mp_id) <? a.(mp_id))%Z).

(** The better of the row kept so far and the next row. *)
Definition pick (best : option ParamsRow) (row : ParamsRow) : option ParamsRow :=
  match best with
  | None => Some row
  | Some b => if newer row b then Some row else Some b
  end.

(** [... LIMIT 1]: the first row of that order. *)
Definition first_row (rows : list ParamsRow) : option ParamsRow :=
  fold_left pick rows None.

(** [get_latest_model_params] *)
Definition get_latest_model_params (t : Table) : option Params :=
  (fun row => json_loads row.(params)) <$> first_row t.(rows).
End json.

(** The ids are not above the counter. *)
Definition well_formed (t : Table) : Prop :=
  Forall (fun row => (row.(mp_id) <= t.(last_id))%Z) t.(rows).

End ModelParams.

(** ** Weekly analysis ([WeeklyAnalyzer]) *)

Module Analysis.
Import WeeklyAnalyzer.

(** [_extract_signal_type] *)
Definition extract_signal_type (signal : string) : string :=
  let has (needle : string) : bool := Fmt.contains needle signal in
  if has "MA" && has "金叉" then "MA金叉"
  else if has "MACD" && has "金叉" then "MACD金叉"
  else if has "MACD" && has "多头" then "MACD多头"
  else if has "RSI" && has "反弹" then "RSI反弹"
  else if has "RSI" && has "健康" then "RSI健康"
  else if has "成交量" && has "放大" then "成交量放大"
  else if has "52周" || has "新高" then "接近新高"
  else if has "突破" then "价格突破"
  else if has "OBV" then "OBV确认"
  else "其他".

(** The labels that appear in [_extract_signal_type]. *)
Definition signal_types : list string :=
  ["MA金叉"; "MACD金叉"; "MACD多头"; "RSI反弹"; "RSI健康"; "成交量放大"; "接近新高";
   "价格突破"; "OBV确认"; "其他"].

(** One row fetched by [_analyze_signal_performance]: [sr.signals],
    [pt.day7_change] (not [NULL] by the [WHERE] clause) and
    [pt.is_successful]. *)
Record Fetched : Set := {
  f_signals : option string;
  f_day7_change : Q;
  f_is_successful : option Z
}.

(** An entry of [signal_stats]. *)
Record SignalStat : Set := {
  count : Z;
  successful : Z;
  returns : list Q
}.

(** An entry of the dictionary answered by [_analyze_signal_performance]. *)
Record Perf : Set := {
  p_count : Z;
  p_accuracy : Q;
  p_avg_return : Q;
  p_std_return : Q
}.

(** Truth value of [is_successful]. *)
Definition truthy (v : option Z) : bool :=
  match v with
  | Some z => negb (z =? 0)%Z
  | None => false
  end.

(** The three updates made to [signal_stats[signal_type]]; the entry is
    created with zeros when it is not there. *)
Fixpoint bump (signal_type : string) (ok : bool) (change : Q)
         (signal_stats : list (string * SignalStat)) : list (string * SignalStat) :=
  match signal_stats with
  | [] => [(signal_type, {| count := 0 + 1;
                            successful := if ok then 0 + 1 else 0;
                            returns := [] ++ [change] |})]
  | (k, d) :: rest =>
      if String.eqb k signal_type
      then (k, {| count := d.(count) + 1;
                  successful := if ok then d.(successful) + 1 else d.(successful);
                  returns := d.(returns) ++ [change] |}) :: rest
      else (k, d) :: bump signal_type ok change rest
  end%Z.

Section library.
(** [json.loads] on a list of strings and [statistics.stdev], taken as
    they are. *)
Variable json_loads : string -> list string.
Variable stdev : list Q -> Q.

(** [json.loads(row[0]) if row[0] else []] *)
Definition signals_of (row : Fetched) : list string :=
  match row.(f_signals) with
  | Some text => if String.eqb text EmptyString then [] else json_loads text
  | None => []
  end.

(** The loop over the fetched rows. *)
Definition collect_stats (fetched : list Fetched) : list (string * SignalStat) :=
  fold_left (fun signal_stats row =>
               fold_left (fun signal_stats signal =>
                            bump (extract_signal_type signal) (truthy row.(f_is_successful))
                                 row.(f_day7_change) signal_stats)
                         (signals_of row) signal_stats)
            fetched [].

(** [statistics.mean] *)
Definition mean (l : list Q) : result Q :=
  match l with
  | [] => Raise ValueError
  | _ => Py.div (Py.sum l) (Py.of_nat (length l))
  end.

(** The entry built for one signal type with [count > 0]. *)
Definition perf_of (data : SignalStat) : result Perf :=
  r <- Py.div (inject_Z data.(successful)) (inject_Z data.(count));;
  avg <- (if Scorer.nonempty data.(returns) then mean data.(returns) else Ok 0);;
  Ok {| p_count := data.(count);
        p_accuracy := Qred (r * 100);
        p_avg_return := avg;
        p_std_return := if (1 <? length data.(returns))%nat then stdev data.(returns) else 0 |}.

(** [_analyze_signal_performance], from the rows fetched by its query on. *)
Definition analyze_signal_performance (fetched : list Fetched)
  : result (list (string * Perf)) :=
  mapM (fun '(signal_type, data) => perf <- perf_of data;; Ok (signal_type, perf))
       (List.filter (fun '(_, data) => (0 <? data.(count))%Z) (collect_stats fetched)).
End library.

(** What holds of every entry of [signal_stats]. *)
Definition sound_entry (item : string * SignalStat) : Prop :=
  In item.1 signal_types /\ item.1 <> "MACD金叉"
  /\ (1 <= item.2.(count))%Z /\ (0 <= item.2.(successful) <= item.2.(count))%Z
  /\ item.2.(count) = Z.of_nat (length item.2.(returns)).

(** The uses counted in all the entries. *)
Definition total_count (signal_stats : list (string * SignalStat)) : Z :=
  foldr (fun item n => item.2.(count) + n)%Z 0%Z signal_stats.

Definition total_uses (performance : list (string * Perf)) : Z :=
  foldr (fun item n => item.2.(p_count) + n)%Z 0%Z performance.

(** The dictionary answered by [_detect_overfitting]. *)
Record Overfitting : Set := {
  is_overfitting : bool;
  concerns : list string;
  severity : string
}.

Definition add_concern (concern : string) (a : Overfitting) : Overfitting :=
  {| is_overfitting := a.(is_overfitting);
     concerns := a.(concerns) ++ [concern];
     severity := a.(severity) |}.

Definition set_overfitting (a : Overfitting) : Overfitting :=
  {| is_overfitting := true; concerns := a.(concerns); severity := a.(severity) |}.

Definition set_severity (s : string) (a : Overfitting) : Overfitting :=
  {| is_overfitting := a.(is_overfitting); concerns := a.(concerns); severity := s |}.

(** [by_score.get(group, {}).get('accuracy', 0)] *)
Definition group_accuracy (stats : TrackingStats.Stats) (group : string) : Q :=
  from_option TrackingStats.g_accuracy 0 (stats.(TrackingStats.by_score) !! group).

(** [_detect_overfitting] *)
Definition detect_overfitting (stats : TrackingStats.Stats) : Overfitting :=
  let analysis := {| is_overfitting := false; concerns := []; severity := "low" |} in
  let high_acc := group_accuracy stats "high" in
  let low_acc := group_accuracy stats "low" in
  let analysis :=
    if Py.Qgtb high_acc 0 && Py.Qgtb low_acc 0 then
      if Py.Qltb high_acc (low_acc + 10) then
        set_overfitting
          (add_concern "高分股票准确率未显著高于低分，评分系统可能需要调整" analysis)
      else analysis
    else analysis in
  let overall_acc := stats.(TrackingStats.accuracy_rate) in
  let analysis :=
    if Py.Qgtb overall_acc 80 then
      set_severity "medium"
        (set_overfitting
           (add_concern ("准确率过高 (" +:+ Fmt.fixed 1 overall_acc
                         +:+ "%)，可能存在过拟合或样本偏差") analysis))
    else if Py.Qltb overall_acc 30 then
      set_severity "high"
        (add_concern ("准确率过低 (" +:+ Fmt.fixed 1 overall_acc
                      +:+ "%)，模型需要重新校准") analysis)
    else analysis in
  let avg_return := stats.(TrackingStats.avg_return) in
  let avg_max_loss := stats.(TrackingStats.avg_max_loss) in
  let analysis :=
    if Py.Qltb avg_max_loss (-10) && Py.Qltb avg_return 3 then
      set_severity "medium"
        (add_concern ("风险收益比不佳: 平均收益 " +:+ Fmt.fixed 1 avg_return
                      +:+ "%, 平均最大亏损 " +:+ Fmt.fixed 1 avg_max_loss +:+ "%") analysis)
    else analysis in
  let total := stats.(TrackingStats.total_signals) in
  if (total <? 20)%Z then
    add_concern ("样本量不足 (" +:+ Fmt.of_Z total +:+ "个)，分析结果可能不可靠") analysis
  else analysis.

(** The suggestion made for one signal type. *)
Definition weight_suggestion (item : string * Perf) : list Suggestion :=
  let '(signal_type, perf) := item in
  if (5 <=? perf.(p_count))%Z then
    if Py.Qltb perf.(p_accuracy) 30 then
      [{| s_type := "reduce_weight";
          target := signal_type;
          reason := "准确率过低 (" +:+ Fmt.fixed 1 perf.(p_accuracy) +:+ "%)";
          action := "建议降低 " +:+ signal_type +:+ " 的权重";
          priority := "high" |}]
    else if Py.Qgtb perf.(p_accuracy) 70 && Py.Qgtb perf.(p_avg_return) 5 then
      [{| s_type := "increase_weight";
          target := signal_type;
          reason := "表现优异: 准确率 " +:+ Fmt.fixed 1 perf.(p_accuracy)
                    +:+ "%, 平均收益 " +:+ Fmt.fixed 1 perf.(p_avg_return) +:+ "%";
          action := "建议提高 " +:+ signal_type +:+ " 的权重";
          priority := "medium" |}]
    else []
  else [].

Definition review (severity concern : string) : Suggestion :=
  {| s_type := "review";
     target := "model";
     reason := concern;
     action := "需要人工审查模型参数";
     priority := severity |}.

(** [_generate_optimization_suggestions] *)
Definition generate_optimization_suggestions (stats : TrackingStats.Stats)
           (signal_perf : list (string * Perf)) (overfitting : Overfitting)
  : list Suggestion :=
  let suggestions := flat_map weight_suggestion signal_perf in
  let high_accuracy := group_accuracy stats "high" in
  let suggestions :=
    if Py.Qltb high_accuracy 50 then
      suggestions ++ [{| s_type := "adjust_threshold";
                         target := "high_score_threshold";
                         reason := "高分股票准确率不足 (" +:+ Fmt.fixed 1 high_accuracy +:+ "%)";
                         action := "建议提高高分阈值或调整评分权重";
                         priority := "high" |}]
    else suggestions in
  if overfitting.(is_overfitting) then
    suggestions ++ map (review overfitting.(severity)) overfitting.(concerns)
  else suggestions.

Definition is_type (t : string) (s : Suggestion) : bool := String.eqb s.(s_type) t.

Definition is_weight_suggestion (s : Suggestion) : bool :=
  is_type "reduce_weight" s || is_type "increase_weight" s.

(** The entry logged for a review suggestion. *)
Definition skipped_entry (s : Suggestion) : Skipped :=
  {| suggestion := s.(action); k_reason := "需要人工审查" |}.

(** The entry [a] of the log records a step made for the suggestion [s]. *)
Definition logs (s : Suggestion) (a : Applied) : Prop :=
  weight_key s = Some a.(param) /\ a.(a_reason) = s.(reason)
  /\ ((s.(s_type) = "reduce_weight" /\ a.(new) = Z.max 5 (a.(old) - 5))
      \/ (s.(s_type) = "increase_weight" /\ a.(new) = Z.min 35 (a.(old) + 5))).

(** What a weight suggestion says about its signal type. *)
Definition justified (signal_perf : list (string * Perf)) (s : Suggestion) : Prop :=
  exists perf,
    In (s.(target), perf) signal_perf /\ (5 <= perf.(p_count))%Z
    /\ ((s.(s_type) = "reduce_weight" /\ perf.(p_accuracy) < 30)
        \/ (s.(s_type) = "increase_weight" /\ 30 <= perf.(p_accuracy)
            /\ 70 < perf.(p_accuracy) /\ 5 < perf.(p_avg_return))).

End Analysis.

(** ** Daily report ([DailyReporter.generate_daily_summary]) *)

Module DailyReporter.
Import DataStore.

(** The dictionary answered by [generate_daily_summary]; [None] is a key
    that the dictionary does not have. *)
Record Summary : Set := {
  date : Z;
  total_signals : Z;
  unique_stocks : option Z;
  top_stocks : list ResultRow;
  avg_score : option Q;
  high_score_count : option Z;
  medium_score_count : option Z;
  low_score_count : option Z;
  most_frequent : option (list (string * Z));
  message : option string
}.

(** [Counter(...)]: the counts in order of first appearance. *)
Fixpoint count_symbol (symbol : string) (counts : list (string * Z)) : list (string * Z) :=
  match counts with
  | [] => [(symbol, 1%Z)]
  | (k, n) :: rest =>
      if String.eqb k symbol then (k, (n + 1)%Z) :: rest
      else (k, n) :: count_symbol symbol rest
  end.

(** [Counter.most_common(n)] *)
Definition most_common (n : nat) (counts : list (string * Z)) : list (string * Z) :=
  take n (Orchestrator.sort_desc snd counts).

(** One pass of the loop that fills [best_scores]. *)
Fixpoint keep_best (r : ResultRow) (best_scores : list (string * ResultRow))
  : list (string * ResultRow) :=
  match best_scores with
  | [] => [(r.(o_symbol), r)]
  | (symbol, best) :: rest =>
      if String.eqb symbol r.(o_symbol)
      then (symbol, if (best.(o_score) <? r.(o_score))%Z then r else best) :: rest
      else (symbol, best) :: keep_best r rest
  end.

Definition count_where (p : ResultRow -> bool) (l : list ResultRow) : Z :=
  Z.of_nat (length (List.filter p l)).

Section json.
Variable json_dumps : list string -> string.

(** [generate_daily_summary], from the answer [results] of
    [get_results_by_date] on; answers the summary and the table of daily
    summaries. *)
Definition generate_daily_summary (target_date : Z) (results : list ResultRow)
           (t : DailySummary.Table) : result (Summary * DailySummary.Table) :=
  match results with
  | [] =>
      Ok ({| date := target_date;
             total_signals := 0;
             unique_stocks := None;
             top_stocks := [];
             avg_score := None;
             high_score_count := None;
             medium_score_count := None;
             low_score_count := None;
             most_frequent := None;
             message := Some "当天无筛选结果" |}, t)
  | _ =>
      let symbol_counts :=
        fold_left (fun counts r => count_symbol r.(o_symbol) counts) results [] in
      let best_scores := fold_left (fun best_scores r => keep_best r best_scores) results [] in
      let sorted_stocks := Orchestrator.sort_desc o_score (map snd best_scores) in
      avg <- (if Scorer.nonempty sorted_stocks
              then Py.div (inject_Z (Py.sumZ (map o_score sorted_stocks)))
                          (Py.of_nat (length sorted_stocks))
              else Ok 0);;
      let summary :=
        {| date := target_date;
           total_signals := Z.of_nat (length results);
           unique_stocks := Some (Z.of_nat (length best_scores));
           top_stocks := take 20 sorted_stocks;
           avg_score := Some avg;
           high_score_count := Some (count_where (fun s => (70 <=? s.(o_score))%Z) sorted_stocks);
           medium_score_count :=
             Some (count_where (fun s => (40 <=? s.(o_score))%Z && (s.(o_score) <? 70)%Z)
                               sorted_stocks);
           low_score_count := Some (count_where (fun s => (s.(o_score) <? 40)%Z) sorted_stocks);
           most_frequent := Some (most_common 5 symbol_counts);
           message := None |} in
      Ok (summary,
          DailySummary.save_daily_summary json_dumps target_date
            {| DailySummary.d_total_scans := Some (Z.of_nat (length results));
               DailySummary.d_total_signals := Some (Z.of_nat (length best_scores));
               DailySummary.d_top_stocks := Some (map o_symbol (take 10 sorted_stocks));
               DailySummary.d_avg_score := Some avg;
               DailySummary.d_sent_email := None |} t)
  end.
End json.

End DailyReporter.

(** ** The hourly scan ([scheduler.run_priority_scan]) *)

Module Scheduler.
Import DataStore.

(** The dictionary built from one signal; its keys [signal_quality] and
    [trend_strength] are not read by the store. *)
Definition result_dict (r : StockSignal) : ResultDict := {|
  r_symbol := r.(symbol);
  r_name := r.(name);
  r_price := r.(current_price);
  r_change_percent := r.(change_percent);
  r_volume := r.(volume);
  r_avg_volume := r.(avg_volume);
  r_signals := r.(signals);
  r_score := r.(score)
|}.

Section scan.
Variable json_dumps : list string -> string.
Variable analyze : string -> option StockSignal.

(** [run_priority_scan] from the list of symbols to the store and to the
    log of run times, of which the last 100 entries are kept; the report
    file and the notifications are left out. [symbols] is the list that
    [load_stock_list] gave, [runtime_history] the log as it was read (the
    empty list when the file is missing or unreadable). The answer holds
    what the function returns, then the store and the log it leaves.
    With no symbol it returns at once. An exception of
    [save_screening_results] leaves the function before the log is
    written: store and log stay as they were. *)
Definition scan_and_store (symbols run_order completion_order : list string)
           (scan_time : datetime) (db : DB) (runtime_history : list Orchestrator.RunTimeStats)
  : result (list StockSignal * option Orchestrator.RunTimeStats
            * DB * list Orchestrator.RunTimeStats) :=
  match symbols with
  | [] => Ok ([], None, db, runtime_history)
  | _ =>
      let '(results, stats) :=
        Orchestrator.screen_stocks analyze symbols run_order completion_order in
      db <- match results with
            | [] => Ok db
            | _ =>
                '(db, _) <- save_screening_results json_dumps (map result_dict results)
                                                   scan_time db;;
                Ok db
            end;;
      Ok (results, Some stats, db, Py.last_n 100 (runtime_history ++ [stats]))
  end.
End scan.

(** The tracking row [t] was opened for the signal [r] on the day [d]. *)
Definition opened_for (d : Z) (r : StockSignal) (t : TrackingRow) : Prop :=
  t.(pt_symbol) = r.(symbol) /\ t.(signal_price) = r.(current_price)
  /\ t.(signal_score) = r.(score) /\ t.(signal_date) = d
  /\ Integrity.untouched t.

End Scheduler.

(** ** Results of a range of days ([DataStore.get_results_by_date_range]) *)

Module RangeQuery.
Import DataStore.

(** [WHERE DATE(scan_time) BETWEEN ? AND ?] *)
Definition rows_between (db : DB) (start_date end_date : Z) : list ScreeningRow :=
  List.filter (fun row => (start_date <=? row.(sr_scan_time).(dt_date))%Z
                          && (row.(sr_scan_time).(dt_date) <=? end_date)%Z)
              db.(screening_results).

(** [ORDER BY scan_time DESC, score DESC]: [a] may come before [b]. *)
Definition before (a b : ScreeningRow) : Prop :=
  let ta := a.(sr_scan_time) in
  let tb := b.(sr_scan_time) in
  (tb.(dt_date) < ta.(dt_date))%Z
  \/ (tb.(dt_date) = ta.(dt_date) /\ (tb.(dt_clock) < ta.(dt_clock))%Z)
  \/ (tb = ta /\ (b.(sr_score) <= a.(sr_score))%Z).

(** What the [SELECT] may answer: the rows of the range, each once, in
    that order; rows equal in time and score come as the engine likes. *)
Definition select_between (db : DB) (start_date end_date : Z) (out : list ScreeningRow)
  : Prop :=
  Permutation out (rows_between db start_date end_date) /\ Sorted before out.

Section json.
Variable json_loads : string -> list string.

(** [get_results_by_date_range] *)
Definition get_results_by_date_range (db : DB) (start_date end_date : Z)
           (results : list ResultRow) : Prop :=
  exists out, select_between db start_date end_date out
              /\ results = map (decode_row json_loads) out.
End json.

End RangeQuery.

(** ** Further worked examples *)

Module MoreExamples.

(** One tracked signal fetched for the week. *)
Definition one_row : list Analysis.Fetched :=
  [{| Analysis.f_signals := Some (Examples.dumps ["🔥 MACD金叉确认"; "📈 突破20日高点"]);
      Analysis.f_day7_change := 4;
      Analysis.f_is_successful := Some 1%Z |}].

(** The statistics of a store without tracked outcomes. *)
Definition no_outcomes : TrackingStats.Stats := {|
  TrackingStats.total_signals := 0;
  TrackingStats.successful_signals := 0;
  TrackingStats.accuracy_rate := 0;
  TrackingStats.avg_return := 0;
  TrackingStats.avg_max_gain := 0;
  TrackingStats.avg_max_loss := 0;
  TrackingStats.by_score := ∅
|}.

(** A standard deviation is not needed for one value. *)
Definition no_stdev (l : list Q) : Q := 0.

End MoreExamples.
(** * Properties *)

(** ** The [result] monad and Python arithmetic *)

(** One step of a computation in the [result] monad. *)
Ltac run_bind := cbn [bind mbind result_bind].

(** A decidable closed proposition, settled by evaluation. *)
Ltac decide_by_computation := refine (bool_decide_unpack _ _); vm_compute; exact I.

Lemma bind_Ok {A B} (m : result A) (f : A -> result B) b :
  bind m f = Ok b -> exists a, m = Ok a /\ f a = Ok b.
Proof. destruct m as [a|e]; [eauto | discriminate]. Qed.

Lemma mapM_Ok_lookup {A B} (f : A -> result B) l rs :
  mapM f l = Ok rs ->
  forall k r, rs !! k = Some r -> exists x, l !! k = Some x /\ f x = Ok r.
Proof.
  revert rs. induction l as [|x l IH]; intros rs H k r Hk.
  - inversion H; subst. discriminate.
  - cbn in H. destruct (f x) as [y|] eqn:Hx; [|discriminate].
    cbn in H. destruct (mapM f l) as [ys|] eqn:Hl; [|discriminate].
    cbn in H. inversion H; subst. destruct k as [|k]; cbn in Hk.
    + inversion Hk; subst. exists x. auto.
    + destruct (IH ys eq_refl k r Hk) as (x' & ? & ?). exists x'. auto.
Qed.

Lemma mapM_Ok_total {A B} (f : A -> result B) l :
  (forall x, In x l -> exists r, f x = Ok r) -> exists rs, mapM f l = Ok rs.
Proof.
  induction l as [|x l IH]; intros H.
  - exists []. reflexivity.
  - destruct (H x) as [y Hy]; [left; reflexivity|].
    destruct IH as [ys Hys]; [intros; apply H; right; assumption|].
    exists (y :: ys). cbn. rewrite Hy. cbn. rewrite Hys. reflexivity.
Qed.

Lemma div_Ok x y r : Py.div x y = Ok r -> ~ y == 0 /\ r == x / y.
Proof.
  unfold Py.div. destruct (Qeq_bool y 0) eqn:E; [discriminate|].
  intros H. inversion H; subst. split.
  - intros Hy. apply Qeq_bool_iff in Hy. congruence.
  - apply Qred_correct.
Qed.

Lemma div_total x y : ~ y == 0 -> exists r, Py.div x y = Ok r.
Proof.
  intros Hy. unfold Py.div. destruct (Qeq_bool y 0) eqn:E; [|eauto].
  apply Qeq_bool_iff in E. contradiction.
Qed.

Lemma fold_Qplus_nonneg l a : 0 <= a -> Forall (fun x => 0 <= x) l -> 0 <= fold_left Qplus l a.
Proof.
  revert a. induction l as [|x l IH]; intros a Ha Hl; cbn [fold_left]; [assumption|].
  inversion Hl; subst. apply IH; [lra | assumption].
Qed.

Lemma sum_nonneg l : Forall (fun x => 0 <= x) l -> 0 <= Py.sum l.
Proof. intros H. unfold Py.sum. rewrite Qred_correct. apply fold_Qplus_nonneg; [lra|assumption]. Qed.

Lemma Qgtb_true x y : Py.Qgtb x y = true <-> y < x.
Proof.
  unfold Py.Qgtb, Py.Qltb. rewrite negb_true_iff. split.
  - intros H. apply Qnot_le_lt. intros Hle. apply Qle_bool_iff in Hle. congruence.
  - intros H. destruct (Qle_bool x y) eqn:E; [|reflexivity]. apply Qle_bool_iff in E. lra.
Qed.
Lemma gain_nonneg c : 0 <= TechnicalIndicators.gain c.
Proof. unfold TechnicalIndicators.gain. destruct (Py.Qgtb c 0) eqn:E; [apply Qgtb_true in E|]; lra. Qed.
Lemma loss_nonneg c : 0 <= TechnicalIndicators.loss c.
Proof. unfold TechnicalIndicators.loss. destruct (Py.Qgtb c 0); [lra | apply Qabs_nonneg]. Qed.


Lemma frac_bound (rs d : Q) : 0 <= rs -> d == 100 / (1 + rs) -> 0 < d /\ d <= 100.
Proof.
  intros Hrs Hd.
  assert (Ht : 0 < 1 + rs) by lra.
  assert (E : d * (1 + rs) == 100). { rewrite Hd. field. lra. }
  split; nra.
Qed.


Lemma of_nat_pos n : (0 < n)%nat -> 0 < Py.of_nat n.
Proof.
  intros H. unfold Py.of_nat, Qlt. cbn. lia.
Qed.

Lemma of_nat_nonneg n : 0 <= Py.of_nat n.
Proof. unfold Py.of_nat, Qle. cbn. lia. Qed.

Lemma of_nat_zero n : Py.of_nat n == 0 -> n = 0%nat.
Proof. unfold Py.of_nat, Qeq. cbn. lia. Qed.

Lemma quot_nonneg x y : 0 <= x -> 0 < y -> 0 <= x / y.
Proof. intros Hx Hy. apply Qle_shift_div_l; [assumption | lra]. Qed.

Lemma avg_nonneg l n r :
  Forall (fun x => 0 <= x) l -> Py.div (Py.sum l) (Py.of_nat n) = Ok r -> 0 <= r.
Proof.
  intros Hl H. apply div_Ok in H as [Hn Hr]. rewrite Hr.
  apply quot_nonneg; [apply sum_nonneg; assumption|].
  pose proof (of_nat_nonneg n). lra.
Qed.

Lemma avg_gain_nonneg prices period i r : TechnicalIndicators.avg_gain prices period i = Ok r -> 0 <= r.
Proof.
  apply avg_nonneg. apply List.Forall_forall. intros x Hx.
  apply List.in_map_iff in Hx as (c & <- & _). apply gain_nonneg.
Qed.

Lemma avg_loss_nonneg prices period i r : TechnicalIndicators.avg_loss prices period i = Ok r -> 0 <= r.
Proof.
  apply avg_nonneg. apply List.Forall_forall. intros x Hx.
  apply List.in_map_iff in Hx as (c & <- & _). apply loss_nonneg.
Qed.

Lemma rsi_at_spec prices period i r :
  TechnicalIndicators.rsi_at prices period i = Ok r ->
  0 <= r <= 100 /\ exists al, TechnicalIndicators.avg_loss prices period i = Ok al /\ (r == 100 <-> al == 0).
Proof.
  unfold TechnicalIndicators.rsi_at. intros H.
  apply bind_Ok in H as (ag & Hag & H).
  apply bind_Ok in H as (al & Hal & H).
  pose proof (avg_gain_nonneg _ _ _ _ Hag) as Hag0.
  pose proof (avg_loss_nonneg _ _ _ _ Hal) as Hal0.
  destruct (Qeq_bool al 0) eqn:E.
  - inversion H; subst. apply Qeq_bool_iff in E. split; [lra|].
    exists al. split; [assumption|]. split; intros _; [assumption | reflexivity].
  - assert (Hne : ~ al == 0).
    { intros Hz. apply Qeq_bool_iff in Hz. congruence. }
    apply bind_Ok in H as (rs & Hrs & H).
    apply bind_Ok in H as (d & Hd & H).
    inversion H; subst. clear H.
    apply div_Ok in Hrs as [_ Hrs]. apply div_Ok in Hd as [_ Hd].
    assert (0 <= rs). { rewrite Hrs. apply quot_nonneg; [assumption | lra]. }
    destruct (frac_bound rs d) as [Hd1 Hd2]; [assumption .. |].
    rewrite Qred_correct. split; [lra|].
    exists al. split; [assumption|]. rewrite Qred_correct.
    split; intros Hx; [lra | contradiction].
Qed.

Lemma rsi_at_total prices period i :
  (0 < period)%nat -> exists r, TechnicalIndicators.rsi_at prices period i = Ok r.
Proof.
  intros Hp. unfold TechnicalIndicators.rsi_at.
  assert (Hn : ~ Py.of_nat period == 0).
  { intros Hz. apply of_nat_zero in Hz. lia. }
  destruct (div_total (Py.sum (map TechnicalIndicators.gain (TechnicalIndicators.changes prices period i))) _ Hn) as [ag Hag].
  destruct (div_total (Py.sum (map TechnicalIndicators.loss (TechnicalIndicators.changes prices period i))) _ Hn) as [al Hal].
  fold (TechnicalIndicators.avg_gain prices period i) in Hag. fold (TechnicalIndicators.avg_loss prices period i) in Hal.
  rewrite Hag, Hal. cbn.
  pose proof (avg_gain_nonneg _ _ _ _ Hag) as Hag0.
  pose proof (avg_loss_nonneg _ _ _ _ Hal) as Hal0.
  destruct (Qeq_bool al 0) eqn:E; [eauto|].
  assert (Hne : ~ al == 0).
  { intros Hz. apply Qeq_bool_iff in Hz. congruence. }
  destruct (div_total ag al Hne) as [rs Hrs]. rewrite Hrs. cbn.
  apply div_Ok in Hrs as [_ Hrs'].
  assert (0 <= rs). { rewrite Hrs'. apply quot_nonneg; [assumption | lra]. }
  destruct (div_total 100 (1 + rs)) as [d Hd]; [lra|].
  rewrite Hd. cbn. eauto.
Qed.

Lemma volume_ratio_total v avg :
  exists ratio, Scorer.volume_ratio v avg = Ok ratio /\ (avg == 0 -> ratio = 0).
Proof.
  unfold Scorer.volume_ratio. destruct (Py.Qgtb avg 0) eqn:E.
  - apply Qgtb_true in E. destruct (div_total (inject_Z v) avg) as [r Hr]; [lra|].
    exists r. split; [assumption|]. intros Hz. lra.
  - exists 0. split; reflexivity.
Qed.

Lemma fold_Qplus_zero_iff l a :
  0 <= a -> Forall (fun x => 0 <= x) l ->
  (fold_left Qplus l a == 0 <-> a == 0 /\ Forall (fun x => x == 0) l).
Proof.
  revert a. induction l as [|x l IH]; intros a Ha Hl; cbn [fold_left].
  - split; [intros H; split; [assumption | constructor] | intros [H _]; assumption].
  - inversion Hl as [|? ? Hx Hl']; subst.
    rewrite (IH (a + x) ltac:(lra) Hl'). split.
    + intros [H0 Hz]. split; [lra|]. constructor; [lra | assumption].
    + intros [H0 Hz]. inversion Hz; subst. split; [lra | assumption].
Qed.

Lemma loss_zero c : TechnicalIndicators.loss c == 0 <-> 0 <= c.
Proof.
  unfold TechnicalIndicators.loss. destruct (Py.Qgtb c 0) eqn:E.
  - apply Qgtb_true in E. split; intros _; lra.
  - assert (Hc : c <= 0).
    { apply Qnot_lt_le. intros H. apply Qgtb_true in H. congruence. }
    rewrite (Qabs_neg c Hc). split; intros H; lra.
Qed.

(** The average loss is zero exactly when no change of the window is a fall. *)
Lemma avg_loss_zero prices period i al :
  TechnicalIndicators.avg_loss prices period i = Ok al ->
  (al == 0 <-> Forall (fun c => 0 <= c) (TechnicalIndicators.changes prices period i)).
Proof.
  unfold TechnicalIndicators.avg_loss. intros H. apply div_Ok in H as [Hn Hal].
  pose proof (of_nat_nonneg period) as Hp.
  set (losses := map TechnicalIndicators.loss (TechnicalIndicators.changes prices period i)) in *.
  assert (Hnonneg : Forall (fun x => 0 <= x) losses).
  { apply List.Forall_forall. intros x Hx.
    apply List.in_map_iff in Hx as (c & <- & _). apply loss_nonneg. }
  assert (Hsum : al == 0 <-> Py.sum losses == 0).
  { rewrite Hal. split; intros H.
    - assert (E : Py.sum losses == (Py.sum losses / Py.of_nat period) * Py.of_nat period)
        by (field; assumption).
      rewrite E, H. lra.
    - rewrite H. field. assumption. }
  rewrite Hsum. unfold Py.sum. rewrite Qred_correct.
  rewrite (fold_Qplus_zero_iff losses 0 ltac:(lra) Hnonneg).
  unfold losses. rewrite !List.Forall_forall. split.
  - intros [_ H] c Hc. apply loss_zero. apply H. apply List.in_map. assumption.
  - intros H. split; [lra|]. intros x Hx.
    apply List.in_map_iff in Hx as (c & <- & Hc). apply loss_zero. apply H. assumption.
Qed.

(** The changes of the window of the RSI value of index [k], price by price. *)
Lemma changes_nonneg prices period k :
  Forall (fun c => 0 <= c) (TechnicalIndicators.changes prices period (period + k))
  <-> forall j, (k + 1 <= j <= k + period)%nat -> nth (j - 1) prices 0 <= nth j prices 0.
Proof.
  unfold TechnicalIndicators.changes. rewrite List.Forall_forall.
  replace (period + k - period + 1)%nat with (k + 1)%nat by lia. split.
  - intros H j Hj.
    assert (Hin : In (nth j prices 0 - nth (j - 1) prices 0)
                     (map (fun j => nth j prices 0 - nth (j - 1) prices 0) (seq (k + 1) period))).
    { apply List.in_map_iff. exists j. split; [reflexivity|]. apply List.in_seq. lia. }
    apply H in Hin. lra.
  - intros H c Hc. apply List.in_map_iff in Hc as (j & <- & Hj). apply List.in_seq in Hj.
    specialize (H j ltac:(lia)). lra.
Qed.

(** ** RSI and the volume ratio *)

(** C9. In exact arithmetic, for a positive period [calculate_rsi] never
    raises; every value it produces lies in the interval from 0 to 100, and
    it is 100 exactly when the trailing average loss is zero, which is
    exactly when no price of the value's window is below the price before
    it. The volume ratio never raises either, and it is 0 when the average
    volume is zero. *)
Theorem rsi_bounds_and_sentinels (prices : list Q) (period : nat) :
  (0 < period)%nat ->
  (exists rs, TechnicalIndicators.calculate_rsi prices period = Ok rs /\
     forall k r, rs !! k = Some r ->
       0 <= r <= 100
       /\ (exists al, TechnicalIndicators.avg_loss prices period (period + k) = Ok al
                      /\ (r == 100 <-> al == 0))
       /\ (r == 100 <->
           forall j, (k + 1 <= j <= k + period)%nat -> nth (j - 1) prices 0 <= nth j prices 0))
  /\ (forall current_volume avg_volume,
        exists ratio, Scorer.volume_ratio current_volume avg_volume = Ok ratio /\
                      (avg_volume == 0 -> ratio = 0)).
Proof.
  intros Hp. split; [|intros; apply volume_ratio_total].
  unfold TechnicalIndicators.calculate_rsi. destruct (length prices <? period + 1)%nat.
  - exists []. split; [reflexivity|]. intros k r Hk. discriminate.
  - destruct (mapM_Ok_total (TechnicalIndicators.rsi_at prices period) (seq period (length prices - period)))
      as [rs Hrs].
    { intros i _. apply rsi_at_total. assumption. }
    exists rs. split; [assumption|]. intros k r Hk.
    destruct (mapM_Ok_lookup _ _ _ Hrs k r Hk) as (i & Hi & Hr).
    apply lookup_seq in Hi as [-> _].
    destruct (rsi_at_spec _ _ _ _ Hr) as (Hb & al & Hal & Hiff).
    split; [exact Hb|]. split; [exists al; split; assumption|].
    rewrite Hiff, (avg_loss_zero _ _ _ _ Hal). apply changes_nonneg.
Qed.

Lemma rsi_bounds_and_sentinels_witness :
  exists rs, TechnicalIndicators.calculate_rsi [1; 2; 3; 2] 2 = Ok rs
             /\ rs = [100; 50]
             /\ forall k r, rs !! k = Some r ->
                  0 <= r <= 100
                  /\ (r == 100 <->
                      forall j, (k + 1 <= j <= k + 2)%nat ->
                                nth (j - 1) [1; 2; 3; 2] 0 <= nth j [1; 2; 3; 2] 0).
Proof.
  destruct (rsi_bounds_and_sentinels [1; 2; 3; 2] 2) as [(rs & Hrs & Hb) _]; [lia|].
  exists rs. split; [exact Hrs|]. split.
  - vm_compute in Hrs. congruence.
  - intros k r Hk. destruct (Hb k r Hk) as (H1 & _ & H2). split; assumption.
Defined.

(** C9, on the machine's floats. After a fall from 2 to 1 and a rise to
    1e17 the average loss over two changes is 0.5, yet the RSI is 100.0:
    the quotient 100 / (1 + rs) is below half the spacing of the floats
    under 100. In exact arithmetic the same series gives a value below 100.
    And finite prices whose changes add up to infinity give a NaN, which is
    not in the interval from 0 to 100. *)
Lemma binary64_rsi_is_100_after_a_fall :
  Binary64.avg_loss Binary64.fall_then_surge 2 2 = Ok Binary64.half
  /\ Binary64.calculate_rsi Binary64.fall_then_surge 2 = Ok [Binary64.hundred]
  /\ (exists r, TechnicalIndicators.calculate_rsi [2; 1; 100000000000000000] 2 = Ok [r]
                /\ r < 100)
  /\ (exists r, Binary64.calculate_rsi Binary64.swings 4 = Ok [r]
                /\ PrimFloat.is_nan r = true
                /\ Binary64.in_0_100 r = false).
Proof.
  split; [vm_compute; reflexivity|]. split; [vm_compute; reflexivity|]. split.
  - eexists. split; [vm_compute; reflexivity|]. unfold Qlt. cbn. lia.
  - eexists. split; [vm_compute; reflexivity|]. split; vm_compute; reflexivity.
Qed.

(** ** Insufficient history *)

Lemma short_sma prices period :
  (length prices < period)%nat -> TechnicalIndicators.calculate_sma prices period = Ok [].
Proof.
  intros H. unfold TechnicalIndicators.calculate_sma.
  apply Nat.ltb_lt in H. rewrite H. reflexivity.
Qed.

Lemma short_ema prices period :
  (length prices < period)%nat -> TechnicalIndicators.calculate_ema prices period = Ok [].
Proof.
  intros H. unfold TechnicalIndicators.calculate_ema.
  apply Nat.ltb_lt in H. rewrite H. reflexivity.
Qed.

Lemma short_macd prices :
  (length prices < 26)%nat -> TechnicalIndicators.calculate_macd prices = Ok ([], [], []).
Proof.
  intros H. unfold TechnicalIndicators.calculate_macd.
  apply Nat.ltb_lt in H. rewrite H. reflexivity.
Qed.

Lemma short_rsi prices period :
  (length prices < period + 1)%nat -> TechnicalIndicators.calculate_rsi prices period = Ok [].
Proof.
  intros H. unfold TechnicalIndicators.calculate_rsi.
  apply Nat.ltb_lt in H. rewrite H. reflexivity.
Qed.

Lemma short_analyze cfg now symbol data :
  (length (Py.not_none data.(quote_close)) < 60)%nat ->
  Scorer.analyze_data cfg now symbol data = Ok None.
Proof.
  intros H. unfold Scorer.analyze_data.
  apply Nat.ltb_lt in H. rewrite H. reflexivity.
Qed.

(** C8. With fewer prices than the period, [calculate_sma] and
    [calculate_ema] answer the empty list; so do [calculate_macd] below 26
    prices and [calculate_rsi] below [period + 1] prices; with fewer than
    60 closes the body of [analyze_stock] ends normally without a signal,
    and [analyze_stock] answers [None]. None of them raises. *)
Theorem insufficient_history_is_not_an_error :
  (forall prices period, (length prices < period)%nat ->
     TechnicalIndicators.calculate_sma prices period = Ok []
     /\ TechnicalIndicators.calculate_ema prices period = Ok [])
  /\ (forall prices, (length prices < 26)%nat ->
        TechnicalIndicators.calculate_macd prices = Ok ([], [], []))
  /\ (forall prices period, (length prices < period + 1)%nat ->
        TechnicalIndicators.calculate_rsi prices period = Ok [])
  /\ (forall cfg fetch now symbol data,
        fetch symbol = Some data ->
        (length (Py.not_none data.(quote_close)) < 60)%nat ->
        Scorer.analyze_data cfg now symbol data = Ok None
        /\ Scorer.analyze_stock cfg fetch now symbol = None).
Proof.
  split; [|split; [|split]].
  - intros prices period H. split; [apply short_sma | apply short_ema]; assumption.
  - apply short_macd.
  - apply short_rsi.
  - intros cfg fetch now symbol data Hf H. split; [apply short_analyze; assumption|].
    unfold Scorer.analyze_stock. rewrite Hf, short_analyze by assumption. reflexivity.
Qed.

Lemma insufficient_history_is_not_an_error_witness :
  TechnicalIndicators.calculate_sma [1; 2] 3 = Ok []
  /\ TechnicalIndicators.calculate_ema [1; 2] 3 = Ok []
  /\ TechnicalIndicators.calculate_macd [1; 2] = Ok ([], [], [])
  /\ TechnicalIndicators.calculate_rsi [1; 2] 14 = Ok []
  /\ Scorer.analyze_stock default_config Examples.fetch_short 0 "AAA" = None.
Proof.
  destruct insufficient_history_is_not_an_error as (Hma & Hmacd & Hrsi & Hscore).
  destruct (Hma [1; 2] 3%nat) as [Hsma Hema]; [cbn; lia|].
  split; [exact Hsma|]. split; [exact Hema|].
  split; [apply Hmacd; cbn; lia|].
  split; [apply Hrsi; cbn; lia|].
  apply (Hscore default_config Examples.fetch_short 0%Z "AAA" Examples.short_history).
  - reflexivity.
  - cbn. lia.
Defined.

(** ** The filter gate *)

Lemma Qltb_true x y : Py.Qltb x y = true <-> x < y.
Proof. apply (Qgtb_true y x). Qed.

(** C7. When the current price is below [min_price] or above [max_price],
    or the average volume is below [min_avg_volume], [analyze_stock]
    answers [None], whatever the scoring rules would have found. *)
Theorem filter_gate_runs_first cfg fetch now symbol data :
  fetch symbol = Some data ->
  (exists price, Scorer.current_price_of data = Ok price
                 /\ (price < cfg.(min_price) \/ cfg.(max_price) < price))
  \/ (exists avg, Scorer.average_volume (Py.not_none data.(quote_volume)) = Ok avg
                  /\ avg < cfg.(min_avg_volume)) ->
  Scorer.analyze_stock cfg fetch now symbol = None.
Proof.
  intros Hf H. unfold Scorer.analyze_stock. rewrite Hf.
  unfold Scorer.analyze_data.
  destruct (length (Py.not_none (quote_close data)) <? 60)%nat; [reflexivity|].
  destruct (Scorer.current_price_of data) as [price|e] eqn:Hp; [|reflexivity].
  run_bind.
  destruct (Scorer.price_out_of_range cfg price) eqn:Hr; [reflexivity|].
  destruct (Scorer.average_volume (Py.not_none (quote_volume data))) as [avg|e] eqn:Ha;
    [|reflexivity].
  run_bind.
  destruct (Scorer.volume_too_low cfg avg) eqn:Hv; [reflexivity|].
  exfalso. destruct H as [(p & Hp' & Hrange) | (a & Ha' & Hlow)].
  - inversion Hp'; subst p. unfold Scorer.price_out_of_range in Hr.
    apply orb_false_iff in Hr as [H1 H2].
    destruct Hrange as [Hlt | Hgt].
    + apply Qltb_true in Hlt. congruence.
    + apply Qgtb_true in Hgt. congruence.
  - inversion Ha'; subst a. unfold Scorer.volume_too_low in Hv.
    apply Qltb_true in Hlow. congruence.
Qed.

Lemma filter_gate_runs_first_witness :
  Scorer.analyze_stock default_config Examples.fetch_penny 0 "AAA" = None.
Proof.
  apply (filter_gate_runs_first default_config Examples.fetch_penny 0%Z "AAA" Examples.penny).
  - reflexivity.
  - left. exists 2. split; [reflexivity|]. left. reflexivity.
Defined.

(** ** Determinism of the scorer *)

Lemma build_signal_restamp now1 now2 symbol data price avg signals score trend :
  Scorer.build_signal now1 symbol data price avg signals score trend
  = Scorer.with_timestamp now1
      <$> Scorer.build_signal now2 symbol data price avg signals score trend.
Proof.
  unfold Scorer.build_signal.
  destruct (if (2 <=? length (Py.not_none (quote_close data)))%nat
            then Py.from_end 2 (Py.not_none (quote_close data)) else Ok price)
    as [prev_close|]; [|reflexivity].
  run_bind.
  destruct (if Py.Qgtb prev_close 0
            then bind (Py.div (price - prev_close) prev_close) (fun r => Ok (r * 100))
            else Ok 0) as [change|]; [|reflexivity].
  run_bind.
  destruct (if Scorer.nonempty (Py.not_none (quote_volume data))
            then Py.from_end 1 (Py.not_none (quote_volume data)) else Ok 0%Z)
    as [vol|]; reflexivity.
Qed.

(** C1, as amended. Two runs of [analyze_stock] on the same configuration
    and the same collaborator answer agree on whether a signal is emitted,
    and the emitted signals are equal in every field except [timestamp],
    which holds the clock reading of its own run. *)
Theorem analyze_stock_deterministic_up_to_timestamp cfg fetch symbol now1 now2 :
  Scorer.analyze_stock cfg fetch now1 symbol
  = Scorer.with_timestamp now1 <$> Scorer.analyze_stock cfg fetch now2 symbol.
Proof.
  unfold Scorer.analyze_stock. destruct (fetch symbol) as [data|]; [|reflexivity].
  unfold Scorer.analyze_data.
  destruct (length (Py.not_none (quote_close data)) <? 60)%nat; [reflexivity|].
  destruct (Scorer.current_price_of data) as [price|]; [|reflexivity].
  run_bind.
  destruct (Scorer.price_out_of_range cfg price); [reflexivity|].
  destruct (Scorer.average_volume (Py.not_none (quote_volume data))) as [avg|]; [|reflexivity].
  run_bind.
  destruct (Scorer.volume_too_low cfg avg); [reflexivity|].
  destruct (Scorer.run_rules _ _ _ _ _ _) as [[[signals score] trend]|]; [|reflexivity].
  run_bind.
  destruct (Scorer.passes_threshold cfg signals score); [|reflexivity].
  rewrite (build_signal_restamp now1 now2).
  destruct (Scorer.build_signal now2 _ _ _ _ _ _ _); reflexivity.
Qed.

(** Against C1 as stated: on the rising history, two runs at different
    clock readings emit signals that differ in [timestamp]. *)
Lemma analyze_stock_depends_on_the_clock :
  exists s1 s2,
    Scorer.analyze_stock default_config Examples.fetch_rising 0 "AAA" = Some s1
    /\ Scorer.analyze_stock default_config Examples.fetch_rising 1 "AAA" = Some s2
    /\ s1.(timestamp) <> s2.(timestamp)
    /\ s1 <> s2.
Proof.
  eexists. eexists. split; [vm_compute; reflexivity|]. split; [vm_compute; reflexivity|].
  split; [cbn; discriminate | intros H; discriminate H].
Qed.

(** ** Emission threshold and grades *)

Lemma from_end_total {A} (k : nat) (l : list A) :
  (1 <= k <= length l)%nat -> exists x, Py.from_end k l = Ok x.
Proof.
  intros [H1 H2]. unfold Py.from_end.
  destruct (length l <? k)%nat eqn:E; [apply Nat.ltb_lt in E; lia|].
  destruct (nth_error l (length l - k)) as [x|] eqn:En; [eauto|].
  apply nth_error_None in En. lia.
Qed.

Lemma build_signal_fields now symbol data price avg tags total trend sig :
  Scorer.build_signal now symbol data price avg tags total trend = Ok sig ->
  sig.(signals) = tags /\ sig.(score) = total
  /\ sig.(signal_quality) = Scorer.check_signal_quality tags total
  /\ sig.(timestamp) = now.
Proof.
  unfold Scorer.build_signal. intros H.
  apply bind_Ok in H as (prev_close & _ & H).
  apply bind_Ok in H as (change & _ & H).
  apply bind_Ok in H as (vol & _ & H).
  inversion H; subst. cbn. auto.
Qed.

Lemma build_signal_total now symbol data price avg tags total trend :
  (2 <= length (Py.not_none data.(quote_close)))%nat ->
  exists sig, Scorer.build_signal now symbol data price avg tags total trend = Ok sig.
Proof.
  intros Hlen. unfold Scorer.build_signal.
  apply Nat.leb_le in Hlen as Hlen'. rewrite Hlen'.
  destruct (from_end_total 2 (Py.not_none (quote_close data))) as [prev Hprev]; [lia|].
  rewrite Hprev. run_bind.
  assert (Hc : exists change,
             (if Py.Qgtb prev 0
              then bind (Py.div (price - prev) prev) (fun r => Ok (r * 100))
              else Ok 0) = Ok change).
  { destruct (Py.Qgtb prev 0) eqn:E; [|eauto].
    apply Qgtb_true in E. destruct (div_total (price - prev) prev) as [r Hr]; [lra|].
    rewrite Hr. cbn. eauto. }
  destruct Hc as [change ->]. run_bind.
  destruct (Py.not_none (quote_volume data)) as [|v vs] eqn:Ev; cbn [Scorer.nonempty].
  - cbn. eauto.
  - destruct (from_end_total 1 (v :: vs)) as [vol Hvol]; [cbn; lia|].
    rewrite Hvol. cbn. eauto.
Qed.

Lemma grades_distinct :
  Scorer.grade_A <> Scorer.grade_B /\ Scorer.grade_A <> Scorer.grade_C
  /\ Scorer.grade_A <> Scorer.grade_D /\ Scorer.grade_B <> Scorer.grade_C
  /\ Scorer.grade_B <> Scorer.grade_D /\ Scorer.grade_C <> Scorer.grade_D.
Proof. repeat split; discriminate. Qed.

Lemma check_signal_quality_spec tags total :
  let strong := Scorer.strong_count tags in
  let q := Scorer.check_signal_quality tags total in
  (q = Scorer.grade_A <-> (2 <= strong /\ 70 <= total)%Z)
  /\ (q = Scorer.grade_B <-> (~ (2 <= strong /\ 70 <= total) /\ 1 <= strong /\ 50 <= total)%Z)
  /\ (q = Scorer.grade_C <->
        (~ (2 <= strong /\ 70 <= total) /\ ~ (1 <= strong /\ 50 <= total) /\ 40 <= total)%Z)
  /\ (q = Scorer.grade_D <-> (total < 40)%Z).
Proof.
  cbv zeta. unfold Scorer.check_signal_quality.
  destruct grades_distinct as (AB & AC & AD & BC & BD & CD).
  destruct (Z.leb_spec 2 (Scorer.strong_count tags));
    destruct (Z.leb_spec 70 total);
    destruct (Z.leb_spec 1 (Scorer.strong_count tags));
    destruct (Z.leb_spec 50 total);
    destruct (Z.leb_spec 40 total); cbn [andb];
    repeat split; intros; try lia; try congruence.
Qed.

Lemma passes_threshold_spec cfg tags total :
  Scorer.passes_threshold cfg tags total = true
  <-> tags <> [] /\ (cfg.(min_score) <= total)%Z.
Proof.
  unfold Scorer.passes_threshold. rewrite andb_true_iff, Z.leb_le.
  destruct tags; cbn; split; intros [H1 H2]; split; try assumption; try congruence.
Qed.

(** Which tags count as strong: the two confirmed crosses, the volume
    surge and the two tags on the 52-week high; the tag on the 20-session
    high and the others do not. *)
Lemma strong_tags :
  Forall (fun tag => Scorer.is_strong tag = true)
         ["🔥 MA20/50金叉确认"; "🔥 MACD金叉确认"; "🔥 成交量放大 2.3倍";
          "🔥 突破52周新高 (99.6%)"; "📈 接近52周新高 (93.0%)"]
  /\ Forall (fun tag => Scorer.is_strong tag = false)
            ["📈 均线多头排列"; "📊 MACD多头加速"; "🔥 RSI超卖反弹 (35)";
             "📈 RSI突破50并上升 (55)"; "📈 突破20日高点"; "📊 OBV持续上升";
             "📈 强势上涨"; "📈 稳步上涨"; "📈 温和上涨"].
Proof. split; repeat constructor. Qed.

(** C6, as amended. Once the filter is passed and the rules have produced
    [tags] and [total], a signal is emitted exactly when [tags] is
    not empty and [total >= min_score]. The emitted grade is A exactly when
    there are at least 2 strong tags and the score is at least 70; B exactly
    when that fails and there is at least 1 strong tag with a score of at
    least 50; C exactly when both fail and the score is at least 40; D
    exactly when the score is below 40, which cannot happen on an emitted
    signal when [min_score >= 40]. *)
Theorem emission_threshold_and_grades
        cfg fetch now symbol data price avg tags total trend :
  fetch symbol = Some data ->
  (60 <= length (Py.not_none data.(quote_close)))%nat ->
  Scorer.current_price_of data = Ok price ->
  Scorer.price_out_of_range cfg price = false ->
  Scorer.average_volume (Py.not_none data.(quote_volume)) = Ok avg ->
  Scorer.volume_too_low cfg avg = false ->
  Scorer.run_rules cfg (Py.not_none data.(quote_close)) (Py.not_none data.(quote_volume))
                   (Py.not_none data.(quote_high)) price avg = Ok (tags, total, trend) ->
  let strong := Scorer.strong_count tags in
  ((exists sig, Scorer.analyze_stock cfg fetch now symbol = Some sig)
   <-> tags <> [] /\ (cfg.(min_score) <= total)%Z)
  /\ (forall sig, Scorer.analyze_stock cfg fetch now symbol = Some sig ->
        sig.(signals) = tags /\ sig.(score) = total
        /\ (sig.(signal_quality) = Scorer.grade_A <-> (2 <= strong /\ 70 <= total)%Z)
        /\ (sig.(signal_quality) = Scorer.grade_B
            <-> (~ (2 <= strong /\ 70 <= total) /\ 1 <= strong /\ 50 <= total)%Z)
        /\ (sig.(signal_quality) = Scorer.grade_C
            <-> (~ (2 <= strong /\ 70 <= total) /\ ~ (1 <= strong /\ 50 <= total)
                 /\ 40 <= total)%Z)
        /\ (sig.(signal_quality) = Scorer.grade_D <-> (total < 40)%Z)
        /\ ((40 <= cfg.(min_score))%Z -> sig.(signal_quality) <> Scorer.grade_D)).
Proof.
  intros Hf Hlen Hp Hr Ha Hv Hrules strong.
  assert (Hrun : Scorer.analyze_stock cfg fetch now symbol
                 = if Scorer.passes_threshold cfg tags total
                   then try_except
                          (Some <$> Scorer.build_signal now symbol data price avg
                                                        tags total trend) None
                   else None).
  { unfold Scorer.analyze_stock. rewrite Hf. unfold Scorer.analyze_data.
    assert (Hl : (length (Py.not_none (quote_close data)) <? 60)%nat = false)
      by (apply Nat.ltb_ge; assumption).
    rewrite Hl, Hp. run_bind. rewrite Hr, Ha.
    run_bind. rewrite Hv, Hrules. run_bind.
    destruct (Scorer.passes_threshold cfg tags total); reflexivity. }
  destruct (build_signal_total now symbol data price avg tags total trend)
    as [sig0 Hsig0]; [lia|].
  rewrite Hrun, Hsig0. cbn [fmap result_fmap try_except].
  pose proof (passes_threshold_spec cfg tags total) as Hpass.
  split.
  - destruct (Scorer.passes_threshold cfg tags total).
    + split; [intros _; apply Hpass; reflexivity | eauto].
    + split; [intros [sig Hs]; discriminate | intros H; apply Hpass in H; discriminate].
  - intros sig Hs.
    destruct (Scorer.passes_threshold cfg tags total); [|discriminate].
    inversion Hs; subst sig0. clear Hs.
    destruct (build_signal_fields _ _ _ _ _ _ _ _ _ Hsig0) as (-> & -> & -> & _).
    destruct (check_signal_quality_spec tags total) as (HA & HB & HC & HD).
    split; [reflexivity|]. split; [reflexivity|].
    split; [exact HA|]. split; [exact HB|]. split; [exact HC|]. split; [exact HD|].
    intros Hmin Hq. apply HD in Hq.
    assert (cfg.(min_score) <= total)%Z by (apply Hpass; reflexivity). lia.
Qed.

Lemma emission_threshold_and_grades_witness :
  exists sig,
    Scorer.analyze_stock default_config Examples.fetch_rising 0 "AAA" = Some sig
    /\ sig.(score) = 97%Z
    /\ sig.(signal_quality) = Scorer.grade_A.
Proof.
  destruct (emission_threshold_and_grades
              default_config Examples.fetch_rising 0%Z "AAA" Examples.rising
              (11431 # 50) 2150000
              ["📈 均线多头排列"; "📊 MACD多头加速"; "🔥 成交量放大 2.3倍";
               "🔥 突破52周新高 (99.6%)"; "📈 突破20日高点"; "📊 OBV持续上升";
               "📈 强势上涨"]
              97%Z "强势上涨") as [Hemit Hgrade].
  - reflexivity.
  - vm_compute. lia.
  - vm_compute. reflexivity.
  - vm_compute. reflexivity.
  - vm_compute. reflexivity.
  - vm_compute. reflexivity.
  - vm_compute. reflexivity.
  - destruct Hemit as [_ Hemit]. destruct Hemit as [sig Hsig].
    + split; [discriminate | vm_compute; intros H; discriminate H].
    + exists sig. split; [exact Hsig|].
      destruct (Hgrade sig Hsig) as (_ & Hscore & HA & _).
      split; [exact Hscore|]. apply HA. split; vm_compute; intros H; discriminate H.
Defined.

(** Against C6 as stated: under a threshold of 10 and unit weights the
    rising history is emitted with a score of 20 and the grade D. *)
Lemma grade_D_is_emitted_below_forty :
  exists sig,
    Scorer.analyze_stock Examples.low_threshold Examples.fetch_rising 0 "AAA" = Some sig
    /\ sig.(signals) <> []
    /\ (Examples.low_threshold.(min_score) <= sig.(score) < 40)%Z
    /\ sig.(signal_quality) = Scorer.grade_D
    /\ sig.(signal_quality) <> Scorer.grade_C.
Proof.
  eexists. split; [vm_compute; reflexivity|].
  cbn [signals score signal_quality].
  split; [discriminate|]. split; [vm_compute; split; [intros H; discriminate H | reflexivity]|].
  split; [reflexivity | discriminate].
Qed.
(** ** Run statistics *)

Section counters.
Import Orchestrator.
Variable analyze : string -> option StockSignal.

Lemma run_workers_counts run_order c :
  let c' := run_workers analyze run_order c in
  (c'.(processed_count) = c.(processed_count) + Z.of_nat (length run_order)
   /\ c'.(failed_count)
      = c.(failed_count) + Z.of_nat (length (List.filter (no_signal analyze) run_order)))%Z.
Proof.
  revert c. induction run_order as [|s l IH]; intros c; cbv zeta.
  - cbn. lia.
  - change (run_workers analyze (s :: l) c)
      with (run_workers analyze l (analyze_with_tracking analyze s c).2).
    specialize (IH (analyze_with_tracking analyze s c).2).
    cbv zeta in IH. destruct IH as [-> ->].
    cbn [length List.filter]. unfold analyze_with_tracking, no_signal.
    destruct (analyze s); cbn; lia.
Qed.

Lemma collect_length l :
  (length (collect analyze l) + length (List.filter (no_signal analyze) l) = length l)%nat.
Proof.
  unfold collect, no_signal. induction l as [|s l IH]; cbn; [reflexivity|].
  destruct (analyze s); cbn; lia.
Qed.

Lemma no_signal_count_perm l l' :
  Permutation l l' ->
  length (List.filter (no_signal analyze) l) = length (List.filter (no_signal analyze) l').
Proof.
  intros H. induction H; cbn.
  - reflexivity.
  - destruct ((no_signal analyze) x); cbn; congruence.
  - destruct ((no_signal analyze) x), ((no_signal analyze) y); reflexivity.
  - congruence.
Qed.

Lemma insert_desc_length {A} (key : A -> Z) x l :
  length (insert_desc key x l) = S (length l).
Proof. induction l as [|y l IH]; cbn; [reflexivity|]. destruct (key x <? key y)%Z; cbn; congruence. Qed.

Lemma sort_desc_length {A} (key : A -> Z) l : length (sort_desc key l) = length l.
Proof.
  induction l as [|x l IH]; cbn; [reflexivity|].
  unfold sort_desc in *. rewrite insert_desc_length. congruence.
Qed.
End counters.

(** C10. Whatever order the pool runs and completes the tasks in, after
    [screen_stocks] the count of processed symbols is the number of input
    symbols, successful plus failed symbols make up the processed ones,
    the successful ones are as many as the signals found, and the failed
    ones are exactly the symbols for which [analyze_stock] answered
    [None]. *)
Theorem run_statistics_add_up analyze symbols run_order completion_order :
  Permutation symbols run_order ->
  Permutation symbols completion_order ->
  let '(results, stats) :=
    Orchestrator.screen_stocks analyze symbols run_order completion_order in
  (stats.(Orchestrator.processed_stocks) = Z.of_nat (length symbols)
   /\ stats.(Orchestrator.successful_stocks) + stats.(Orchestrator.failed_stocks)
      = stats.(Orchestrator.processed_stocks)
   /\ stats.(Orchestrator.successful_stocks) = stats.(Orchestrator.signals_found)
   /\ stats.(Orchestrator.signals_found) = Z.of_nat (length results)
   /\ stats.(Orchestrator.failed_stocks)
      = Z.of_nat (length (List.filter (Orchestrator.no_signal analyze) symbols)))%Z.
Proof.
  intros Hrun Hdone. unfold Orchestrator.screen_stocks.
  destruct (run_workers_counts analyze run_order
              {| Orchestrator.processed_count := 0; Orchestrator.failed_count := 0 |})
    as [Hp Hfail].
  cbn [Orchestrator.processed_stocks Orchestrator.successful_stocks
       Orchestrator.failed_stocks Orchestrator.signals_found].
  rewrite Hp, Hfail. cbn [Orchestrator.processed_count Orchestrator.failed_count].
  rewrite sort_desc_length.
  pose proof (collect_length analyze completion_order) as Hc.
  rewrite <- (no_signal_count_perm analyze _ _ Hrun).
  rewrite <- (no_signal_count_perm analyze _ _ Hdone) in Hc.
  apply Permutation_length in Hrun, Hdone.
  repeat split; lia.
Qed.

Lemma run_statistics_add_up_witness :
  let '(results, stats) :=
    Orchestrator.screen_stocks (Scorer.analyze_stock default_config Examples.fetch_one 0)
      Examples.universe Examples.run_order Examples.completion_order in
  (stats.(Orchestrator.processed_stocks) = 3
   /\ stats.(Orchestrator.successful_stocks) + stats.(Orchestrator.failed_stocks)
      = stats.(Orchestrator.processed_stocks)
   /\ stats.(Orchestrator.successful_stocks) = stats.(Orchestrator.signals_found)
   /\ stats.(Orchestrator.signals_found) = Z.of_nat (length results))%Z.
Proof.
  pose proof (run_statistics_add_up
                (Scorer.analyze_stock default_config Examples.fetch_one 0)
                Examples.universe Examples.run_order Examples.completion_order) as H.
  destruct (Orchestrator.screen_stocks _ _ _ _) as [results stats].
  destruct H as (H1 & H2 & H3 & H4 & _).
  - unfold Examples.universe, Examples.run_order.
    apply perm_trans with (l' := ["BBB"; "AAA"; "CCC"]); [apply perm_swap | reflexivity].
  - unfold Examples.universe, Examples.completion_order.
    apply perm_trans with (l' := ["AAA"; "CCC"; "BBB"]).
    + apply perm_skip. apply perm_swap.
    + apply perm_swap.
  - split; [exact H1|]. split; [exact H2|]. split; [exact H3 | exact H4].
Defined.

Import DataStore.

(** ** Outcome tracking *)

Lemma COALESCE_keeps {A} (new old : option A) : is_Some old -> is_Some (COALESCE new old).
Proof. destruct new; cbn; eauto. Qed.

Lemma fills_kept_refl row : fills_kept row row.
Proof. unfold fills_kept. tauto. Qed.

Lemma fills_kept_trans r1 r2 r3 : fills_kept r1 r2 -> fills_kept r2 r3 -> fills_kept r1 r3.
Proof. unfold fills_kept. tauto. Qed.

Lemma set_tracking_keeps data now row : fills_kept row (set_tracking data now row).
Proof. unfold fills_kept, set_tracking; cbn. repeat split; apply COALESCE_keeps. Qed.

Lemma tracking_row_update tracking_id data now db id :
  tracking_row (update_tracking tracking_id data now db) id
  = (fun row => if (row.(pt_id) =? tracking_id)%Z then set_tracking data now row else row)
      <$> tracking_row db id.
Proof.
  unfold tracking_row, update_tracking. cbn [performance_tracking].
  induction (performance_tracking db) as [|row rows IH]; [reflexivity|].
  cbn [map find].
  assert (Hid : pt_id (if (pt_id row =? tracking_id)%Z then set_tracking data now row else row)
                = pt_id row) by (destruct (pt_id row =? tracking_id)%Z; reflexivity).
  rewrite Hid. destruct (pt_id row =? id)%Z; [reflexivity | apply IH].
Qed.

Lemma update_tracking_keeps tracking_id data now db id row :
  tracking_row db id = Some row ->
  exists row', tracking_row (update_tracking tracking_id data now db) id = Some row'
               /\ fills_kept row row'.
Proof.
  intros H. rewrite tracking_row_update, H. cbn.
  destruct (pt_id row =? tracking_id)%Z; eexists; split; try reflexivity.
  - apply set_tracking_keeps.
  - apply fills_kept_refl.
Qed.

Lemma apply_updates_keeps updates db id row :
  tracking_row db id = Some row ->
  exists row', tracking_row (apply_updates updates db) id = Some row' /\ fills_kept row row'.
Proof.
  revert db row. induction updates as [|[[tid data] now] updates IH]; intros db row H.
  - exists row. split; [assumption | apply fills_kept_refl].
  - destruct (update_tracking_keeps tid data now db id row H) as (row1 & H1 & K1).
    destruct (IH _ _ H1) as (row2 & H2 & K2).
    exists row2. split; [exact H2 | eapply fills_kept_trans; eassumption].
Qed.

Lemma update_tracking_verdict tracking_id data now db row v :
  tracking_row db tracking_id = Some row ->
  data.(d_is_successful) = Some v ->
  exists row', tracking_row (update_tracking tracking_id data now db) tracking_id = Some row'
               /\ row'.(is_successful) = Some v.
Proof.
  intros H Hv. rewrite tracking_row_update, H. cbn.
  unfold tracking_row in H. apply find_some in H as [_ Hid]. rewrite Hid.
  eexists. split; [reflexivity|]. cbn. assumption.
Qed.

(** C2, as amended. Over any sequence of [update_tracking] calls, every
    day-N price and change, [max_gain] and [max_loss] that is set in a
    tracking record stays set. [is_successful] is written by each update:
    after an update that carries a verdict the record holds that verdict,
    so a record marked successful is marked unsuccessful by a later update
    whose verdict is 0. *)
Theorem tracking_fills_are_kept updates db tracking_id row :
  tracking_row db tracking_id = Some row ->
  (exists row', tracking_row (apply_updates updates db) tracking_id = Some row'
                /\ fills_kept row row')
  /\ (forall data now v,
        data.(d_is_successful) = Some v ->
        exists row', tracking_row (update_tracking tracking_id data now db) tracking_id
                     = Some row'
                     /\ row'.(is_successful) = Some v).
Proof.
  intros H. split.
  - apply apply_updates_keeps. assumption.
  - intros data now v Hv. eapply update_tracking_verdict; eassumption.
Qed.

Lemma tracking_fills_are_kept_witness :
  exists row',
    tracking_row (apply_updates [(1%Z, Examples.no_news, 13%Z)] Examples.db1) 1 = Some row'
    /\ is_Some row'.(max_gain) /\ is_Some row'.(day1_change).
Proof.
  destruct (DataStore.tracking_row Examples.db1 1) as [row|] eqn:Hrow;
    [|vm_compute in Hrow; discriminate Hrow].
  destruct (tracking_fills_are_kept [(1%Z, Examples.no_news, 13%Z)] Examples.db1 1 row Hrow)
    as [(row' & Hrow' & Hkept) _].
  exists row'. split; [exact Hrow'|].
  destruct Hkept as (_ & H1c & _ & _ & _ & _ & _ & _ & Hg & _).
  vm_compute in Hrow. inversion Hrow; subst row. clear Hrow.
  split; [apply Hg | apply H1c]; cbn; eauto.
Defined.

(** Against C2 as stated. The tracker marks the record successful on the
    second session (a high 6% above the signal price, no seventh session
    yet) and unsuccessful on the eighth (seventh close 1% above the signal
    price). A record marked successful on a seventh close 4% above the
    signal price is marked unsuccessful by a later pass whose answer lacks
    that close: the stored [day7_change] stays, the verdict is taken from
    [max_gain] (4.5%). *)
Lemma success_flag_is_reset_by_a_later_pass :
  (exists row1 row2,
     tracking_row Examples.db1 1 = Some row1
     /\ tracking_row Examples.db2 1 = Some row2
     /\ row1.(is_successful) = Some 1%Z
     /\ row2.(is_successful) = Some 0%Z)
  /\ (exists row1 row2,
        tracking_row Examples.db_full 1 = Some row1
        /\ tracking_row Examples.db_gap 1 = Some row2
        /\ row1.(is_successful) = Some 1%Z /\ row1.(day7_change) = Some 4
        /\ row2.(is_successful) = Some 0%Z /\ row2.(day7_change) = Some 4).
Proof.
  split.
  - eexists. eexists. split; [vm_compute; reflexivity|].
    split; [vm_compute; reflexivity|]. split; reflexivity.
  - eexists. eexists. split; [vm_compute; reflexivity|].
    split; [vm_compute; reflexivity|]. repeat split; reflexivity.
Qed.
(** ** Sorting *)
Section sort_lemmas.
Import Orchestrator.
Context {A : Type} (key : A -> Z).

Lemma insert_desc_perm x l : Permutation (insert_desc key x l) (x :: l).
Proof.
  induction l as [|y l IH]; cbn; [reflexivity|].
  destruct (key x <? key y)%Z; [|reflexivity].
  rewrite IH. apply perm_swap.
Qed.

Lemma sort_desc_perm l : Permutation (sort_desc key l) l.
Proof.
  induction l as [|x l IH]; cbn; [reflexivity|].
  fold (sort_desc key l). rewrite insert_desc_perm, IH. reflexivity.
Qed.

Lemma insert_desc_sorted x l :
  Sorted (fun a b => (key b <= key a)%Z) l ->
  Sorted (fun a b => (key b <= key a)%Z) (insert_desc key x l).
Proof.
  induction 1 as [|y l Hl IH Hy]; cbn.
  - repeat constructor.
  - destruct (Z.ltb_spec (key x) (key y)).
    + constructor; [exact IH|].
      destruct Hy as [|z l' Hz]; cbn.
      * constructor. lia.
      * destruct (key x <? key z)%Z; constructor; [assumption | lia].
    + constructor; [constructor; assumption | constructor; lia].
Qed.

Lemma sort_desc_sorted l : Sorted (fun a b => (key b <= key a)%Z) (sort_desc key l).
Proof.
  induction l as [|x l IH]; cbn; [constructor|].
  apply insert_desc_sorted. exact IH.
Qed.
End sort_lemmas.

(** ** Grouping by symbol *)

Lemma upsert_symbols row groups s :
  In s (map sr_symbol (upsert row groups))
  <-> s = row.(sr_symbol) \/ In s (map sr_symbol groups).
Proof.
  induction groups as [|g rest IH]; cbn.
  - intuition congruence.
  - destruct (String.eqb_spec (sr_symbol g) (sr_symbol row)) as [E|E].
    + destruct (sr_score g <? sr_score row)%Z; cbn; rewrite ?E; intuition congruence.
    + cbn. rewrite IH. tauto.
Qed.

Lemma upsert_NoDup row groups :
  List.NoDup (map sr_symbol groups) -> List.NoDup (map sr_symbol (upsert row groups)).
Proof.
  induction groups as [|g rest IH]; intros H; cbn.
  - constructor; [intros [] | constructor].
  - inversion H as [|? ? Hg Hrest]; subst.
    destruct (String.eqb_spec (sr_symbol g) (sr_symbol row)) as [E|E].
    + destruct (sr_score g <? sr_score row)%Z; cbn; [rewrite <- E|]; constructor; assumption.
    + cbn. constructor; [|apply IH; assumption].
      rewrite upsert_symbols. intros [Hs|Hs]; [congruence | contradiction].
Qed.

(** A row of [upsert row groups] is [row], which then beats every group of
    its symbol, or a group that [row] does not beat. *)
Lemma upsert_In row groups g :
  List.NoDup (map sr_symbol groups) ->
  In g (upsert row groups) ->
  (g = row /\ forall g', In g' groups -> g'.(sr_symbol) = row.(sr_symbol) ->
                         (g'.(sr_score) < row.(sr_score))%Z)
  \/ (In g groups /\ (g.(sr_symbol) = row.(sr_symbol) -> (row.(sr_score) <= g.(sr_score))%Z)).
Proof.
  induction groups as [|g0 rest IH]; intros Hnd Hin; cbn in Hin.
  - destruct Hin as [<-|[]]. left. split; [reflexivity | intros g' []].
  - inversion Hnd as [|? ? Hg0 Hrest]; subst.
    assert (Hother : forall x, In x rest -> sr_symbol x <> sr_symbol g0).
    { intros x Hx E. apply Hg0. rewrite <- E. apply in_map. exact Hx. }
    destruct (String.eqb_spec (sr_symbol g0) (sr_symbol row)) as [E|E].
    + destruct (Z.ltb_spec (sr_score g0) (sr_score row)) as [Hlt|Hge].
      * destruct Hin as [<-|Hin].
        -- left. split; [reflexivity|]. intros g' [<-|Hg'] Hs; [exact Hlt|].
           exfalso. apply (Hother g' Hg'). congruence.
        -- right. split; [right; exact Hin|]. intros Hs.
           exfalso. apply (Hother g Hin). congruence.
      * destruct Hin as [<-|Hin].
        -- right. split; [left; reflexivity | intros _; lia].
        -- right. split; [right; exact Hin|]. intros Hs.
           exfalso. apply (Hother g Hin). congruence.
    + destruct Hin as [<-|Hin].
      * right. split; [left; reflexivity | intros Hs; contradiction].
      * destruct (IH Hrest Hin) as [[-> Hbeat]|[Hg Hkeep]].
        -- left. split; [reflexivity|]. intros g' [<-|Hg'] Hs; [contradiction | auto].
        -- right. split; [right; exact Hg | exact Hkeep].
Qed.

Lemma upsert_grouped rows groups row :
  grouped rows groups -> grouped (rows ++ [row]) (upsert row groups).
Proof.
  intros (Hnd & Hmax & Hcover). split; [|split].
  - apply upsert_NoDup. exact Hnd.
  - intros g Hg. destruct (upsert_In row groups g Hnd Hg) as [[-> Hbeat]|[Hin Hkeep]].
    + split; [apply in_or_app; right; left; reflexivity|].
      intros r Hr Hs. apply in_app_or in Hr as [Hr|[<-|[]]]; [|lia].
      specialize (Hcover r Hr). apply List.in_map_iff in Hcover as (g' & Hs' & Hg').
      destruct (Hmax g' Hg') as [_ Hle]. specialize (Hle r Hr (eq_sym Hs')).
      specialize (Hbeat g' Hg'). rewrite Hs', Hs in Hbeat. specialize (Hbeat eq_refl). lia.
    + destruct (Hmax g Hin) as [Hrows Hle].
      split; [apply in_or_app; left; exact Hrows|].
      intros r Hr Hs. apply in_app_or in Hr as [Hr|[<-|[]]]; [apply Hle; assumption|].
      apply Hkeep. congruence.
  - intros r Hr. rewrite upsert_symbols. apply in_app_or in Hr as [Hr|[<-|[]]]; auto.
Qed.

Lemma fold_upsert_grouped rows seen groups :
  grouped seen groups ->
  grouped (seen ++ rows) (fold_left (fun groups row => upsert row groups) rows groups).
Proof.
  revert seen groups. induction rows as [|row rows IH]; intros seen groups H; cbn [fold_left].
  - rewrite app_nil_r. exact H.
  - replace (seen ++ row :: rows) with ((seen ++ [row]) ++ rows)
      by (rewrite <- app_assoc; reflexivity).
    apply IH. apply upsert_grouped. exact H.
Qed.

Lemma group_by_symbol_grouped rows : grouped rows (group_by_symbol rows).
Proof.
  apply (fold_upsert_grouped rows [] []). split; [constructor|]. split; intros ? [].
Qed.

(** The engine [run_select] answers the [SELECT]: the relation
    [select_by_date] holds of some list for every store and date. *)
Lemma run_select_selected db date : select_by_date db date (run_select db date).
Proof.
  unfold run_select.
  destruct (group_by_symbol_grouped (rows_on db date)) as (Hnd & Hmax & Hcover).
  pose proof (sort_desc_perm sr_score (group_by_symbol (rows_on db date))) as Hperm.
  split; [|split; [|split]].
  - eapply Permutation_NoDup; [|exact Hnd].
    apply Permutation_map. symmetry. exact Hperm.
  - intros row Hrow. apply Hmax. eapply Permutation_in; eassumption.
  - intros row Hrow. eapply Permutation_in; [|apply Hcover; exact Hrow].
    apply Permutation_map. symmetry. exact Hperm.
  - apply sort_desc_sorted.
Qed.

(** ** Saving a batch *)

Lemma bind_int_Ok z : fits_int64 z = true -> bind_int z = Ok z.
Proof. unfold bind_int. intros ->. reflexivity. Qed.

Lemma next_id_Ok last : (last + 1 < 2 ^ 63)%Z -> next_id last = Ok (last + 1)%Z.
Proof.
  intros H. unfold next_id. destruct (Z.ltb_spec last (2 ^ 63 - 1)) as [_|Hge]; [reflexivity | lia].
Qed.

(** An entry that fits is inserted when both tables have an id left. *)
Lemma insert_result_Ok json_dumps scan_time db entry :
  storable entry = true -> has_room db 1 ->
  insert_result json_dumps scan_time db entry = Ok (insert_rows json_dumps scan_time db entry).
Proof.
  unfold storable, has_room, insert_result. intros Hfit [Hs Ht].
  apply andb_true_iff in Hfit as [Hv Hsc].
  rewrite (bind_int_Ok _ Hv), (bind_int_Ok _ Hsc). run_bind.
  rewrite (next_id_Ok _ Hs), (next_id_Ok _ Ht). reflexivity.
Qed.

(** An entry that does not fit raises before anything is inserted. *)
Lemma insert_result_unfit json_dumps scan_time db entry :
  storable entry = false ->
  insert_result json_dumps scan_time db entry = Raise OverflowError.
Proof.
  unfold storable, insert_result, bind_int. intros Hfit.
  destruct (fits_int64 (r_volume entry)); [|reflexivity].
  cbn in Hfit. rewrite Hfit. reflexivity.
Qed.

Lemma has_room_next json_dumps scan_time db entry n :
  has_room db (S n) -> has_room (insert_rows json_dumps scan_time db entry) n.
Proof.
  unfold has_room. cbn [insert_rows last_screening_id last_tracking_id]. lia.
Qed.

Lemma has_room_one db n : has_room db (S n) -> has_room db 1.
Proof. unfold has_room. lia. Qed.

Lemma insert_all_Ok json_dumps scan_time results db saved_count :
  Forall (fun entry => storable entry = true) results ->
  has_room db (length results) ->
  insert_all json_dumps scan_time results db saved_count
  = Ok (fold_left (insert_rows json_dumps scan_time) results db,
        (saved_count + Z.of_nat (length results))%Z).
Proof.
  revert db saved_count. induction results as [|entry results IH]; intros db saved_count Hfit Hroom.
  - cbn. rewrite Z.add_0_r. reflexivity.
  - inversion Hfit as [|? ? He Hrest]; subst. cbn [insert_all fold_left length] in *.
    rewrite (insert_result_Ok _ _ _ _ He (has_room_one _ _ Hroom)). run_bind.
    rewrite (IH _ _ Hrest (has_room_next json_dumps scan_time db entry _ Hroom)).
    do 2 f_equal. lia.
Qed.

Lemma insert_all_unfit json_dumps scan_time results db saved_count :
  Exists (fun entry => storable entry = false) results ->
  has_room db (length results) ->
  insert_all json_dumps scan_time results db saved_count = Raise OverflowError.
Proof.
  revert db saved_count. induction results as [|entry results IH]; intros db saved_count Hex Hroom.
  - inversion Hex.
  - cbn [insert_all length] in *. destruct (storable entry) eqn:He.
    + rewrite (insert_result_Ok _ _ _ _ He (has_room_one _ _ Hroom)). run_bind.
      apply IH; [|apply has_room_next; exact Hroom].
      inversion Hex as [? ? H|]; subst; [congruence | assumption].
    + rewrite (insert_result_unfit _ _ _ _ He). reflexivity.
Qed.

(** A batch whose entries all fit is saved whole. *)
Lemma save_Ok json_dumps results scan_time db :
  Forall (fun entry => storable entry = true) results ->
  has_room db (length results) ->
  save_screening_results json_dumps results scan_time db
  = Ok (fold_left (insert_rows json_dumps scan_time) results db, Z.of_nat (length results)).
Proof.
  intros Hfit Hroom. unfold save_screening_results. destruct results as [|entry results].
  - reflexivity.
  - rewrite (insert_all_Ok _ _ _ _ _ Hfit Hroom). reflexivity.
Qed.

(** One entry that does not fit makes the call raise: nothing of the
    batch is committed. *)
Lemma save_unfit json_dumps results scan_time db :
  Exists (fun entry => storable entry = false) results ->
  has_room db (length results) ->
  save_screening_results json_dumps results scan_time db = Raise OverflowError
  /\ store_after json_dumps results scan_time db = db.
Proof.
  intros Hex Hroom.
  assert (H : save_screening_results json_dumps results scan_time db = Raise OverflowError).
  { unfold save_screening_results. destruct results as [|entry results]; [inversion Hex|].
    apply insert_all_unfit; assumption. }
  split; [exact H|]. unfold store_after. rewrite H. reflexivity.
Qed.

(** ** Persistence round trip *)
Section roundtrip.
Variable json_dumps : list string -> string.
Variable json_loads : string -> list string.
Hypothesis loads_dumps : forall l, json_loads (json_dumps l) = l.
Hypothesis dumps_nonempty : forall l, json_dumps l <> EmptyString.

Lemma decode_saved scan_time db result row :
  last (insert_rows json_dumps scan_time db result).(screening_results) = Some row ->
  read_as (decode_row json_loads row) = saved_as result
  /\ row.(sr_symbol) = result.(r_symbol)
  /\ row.(sr_scan_time) = scan_time.
Proof.
  cbn [insert_rows screening_results]. rewrite last_snoc. intros H.
  inversion H; subst row. clear H. unfold read_as, saved_as, decode_row. cbn.
  destruct (String.eqb_spec (json_dumps (r_signals result)) EmptyString) as [E|_].
  - exfalso. eapply dumps_nonempty. exact E.
  - rewrite loads_dumps. auto.
Qed.

(** The rows added by a batch, seen through [rows_on]. *)
Lemma rows_on_saved batch scan_time db :
  exists rows,
    rows_on (fold_left (insert_rows json_dumps scan_time) batch db) scan_time.(dt_date)
    = rows_on db scan_time.(dt_date) ++ rows
    /\ map (fun row => read_as (decode_row json_loads row)) rows = map saved_as batch
    /\ map sr_symbol rows = map r_symbol batch.
Proof.
  revert db. induction batch as [|result batch IH]; intros db.
  - exists []. cbn. rewrite app_nil_r. auto.
  - cbn [fold_left]. destruct (IH (insert_rows json_dumps scan_time db result))
      as (rows & Hrows & Hdec & Hsym).
    set (db1 := insert_rows json_dumps scan_time db result) in *.
    destruct (last (screening_results db1)) as [row|] eqn:Hlast.
    2:{ unfold db1 in Hlast. cbn in Hlast. rewrite last_snoc in Hlast. discriminate. }
    destruct (decode_saved scan_time db result row Hlast) as (Hd & Hs & Ht).
    exists (row :: rows). rewrite Hrows. split; [|split].
    + unfold rows_on at 1. unfold db1 in Hlast |- *. cbn [insert_rows screening_results] in *.
      rewrite last_snoc in Hlast. inversion Hlast as [Hrow]. rewrite Hrow.
      rewrite filter_app. rewrite <- app_assoc. f_equal.
      rewrite filter_cons_True by (rewrite Ht; reflexivity). reflexivity.
    + cbn [map]. rewrite Hd, Hdec. reflexivity.
    + cbn [map]. rewrite Hs, Hsym. reflexivity.
Qed.

Lemma NoDup_map_injective {A B} (f : A -> B) l a b :
  List.NoDup (map f l) -> In a l -> In b l -> f a = f b -> a = b.
Proof.
  induction l as [|x l IH]; cbn; intros Hnd Ha Hb Hf; [contradiction|].
  inversion Hnd as [|? ? Hx Hl]; subst.
  destruct Ha as [->|Ha], Hb as [->|Hb].
  - reflexivity.
  - exfalso. apply Hx. rewrite Hf. apply in_map. assumption.
  - exfalso. apply Hx. rewrite <- Hf. apply in_map. assumption.
  - apply IH; assumption.
Qed.

Lemma select_is_permutation db date out :
  List.NoDup (map sr_symbol (rows_on db date)) ->
  select_by_date db date out -> Permutation out (rows_on db date).
Proof.
  intros Hnd (Hout & Hin & Hcover & _).
  apply Permutation.NoDup_Permutation.
  - eapply List.NoDup_map_inv. exact Hout.
  - eapply List.NoDup_map_inv. exact Hnd.
  - intros row. split; [intros H; apply Hin; assumption|].
    intros H. specialize (Hcover row H).
    apply List.in_map_iff in Hcover as (row' & Hsym & Hrow').
    destruct (Hin row' Hrow') as [Hrows _].
    assert (row' = row)
      by (apply (NoDup_map_injective sr_symbol (rows_on db date)); assumption).
    subst. assumption.
Qed.

Lemma Sorted_map {A B} (f : A -> B) (R : A -> A -> Prop) (S : B -> B -> Prop) l :
  (forall a b, R a b -> S (f a) (f b)) -> Sorted R l -> Sorted S (map f l).
Proof.
  intros HRS. induction 1 as [|x l Hl IH Hx]; cbn; constructor; [assumption|].
  destruct Hx; cbn; constructor. auto.
Qed.

(** C3, as amended. Take a batch of N signals with pairwise distinct
    symbols whose volumes and scores fit in 64 bits, a store that holds
    nothing for the scan date and has ids left for N rows. Then
    [save_screening_results] answers N, [get_results_by_date] answers a
    list for that date, and every list it may answer has exactly N
    records, carries the same symbol, score and tag list as the batch up
    to order, and is ordered by descending score; the order among equal
    scores is the engine's. *)
Theorem saved_batch_is_read_back batch scan_time db :
  rows_on db scan_time.(dt_date) = [] ->
  List.NoDup (map r_symbol batch) ->
  Forall (fun entry => storable entry = true) batch ->
  has_room db (length batch) ->
  exists db',
    save_screening_results json_dumps batch scan_time db
    = Ok (db', Z.of_nat (length batch))
    /\ (exists results, get_results_by_date json_loads db' scan_time.(dt_date) results)
    /\ forall results,
         get_results_by_date json_loads db' scan_time.(dt_date) results ->
         length results = length batch
         /\ Permutation (map read_as results) (map saved_as batch)
         /\ Sorted by_score_desc results.
Proof.
  intros Hempty Hnd Hfit Hroom.
  exists (fold_left (insert_rows json_dumps scan_time) batch db).
  split; [apply save_Ok; assumption|].
  set (db' := fold_left (insert_rows json_dumps scan_time) batch db).
  destruct (rows_on_saved batch scan_time db) as (rows & Hrows & Hdec & Hsym).
  fold db' in Hrows. rewrite Hempty in Hrows. cbn [app] in Hrows.
  assert (Hnd' : List.NoDup (map sr_symbol (rows_on db' (dt_date scan_time))))
    by (rewrite Hrows, Hsym; exact Hnd).
  split.
  - eexists. exists (run_select db' (dt_date scan_time)).
    split; [apply run_select_selected | reflexivity].
  - intros results (out & Hsel & ->).
    pose proof (select_is_permutation _ _ _ Hnd' Hsel) as Hperm.
    rewrite Hrows in Hperm. split; [|split].
    + rewrite length_map, (Permutation_length Hperm).
      rewrite <- (length_map sr_symbol), Hsym, length_map. reflexivity.
    + rewrite map_map, <- Hdec. apply Permutation_map. exact Hperm.
    + destruct Hsel as (_ & _ & _ & Hsorted).
      eapply Sorted_map; [|exact Hsorted]. intros a b Hab. exact Hab.
Qed.
End roundtrip.


(** The codec of the examples keeps the contract of the JSON codec. *)
Lemma dec_enc s t : Examples.dec (Examples.enc s +:+ t) = s :: Examples.dec t.
Proof.
  induction s as [|c s IH]; [reflexivity|].
  cbn [Examples.enc].
  change (Examples.dec (String "x" (String c (Examples.enc s +:+ t)))
          = String c s :: Examples.dec t).
  cbn [Examples.dec]. rewrite IH. reflexivity.
Qed.

Lemma loads_dumps l : Examples.loads (Examples.dumps l) = l.
Proof.
  unfold Examples.loads, Examples.dumps. induction l as [|s l IH]; [reflexivity|].
  cbn [Examples.dumps_items]. rewrite dec_enc. f_equal. exact IH.
Qed.

Lemma dumps_nonempty l : Examples.dumps l <> EmptyString.
Proof. discriminate. Qed.

Lemma saved_batch_is_read_back_witness :
  exists db',
    save_screening_results Examples.dumps Examples.two Examples.scan_time empty_db
    = Ok (db', 2%Z)
    /\ exists results,
         get_results_by_date Examples.loads db' 10 results
         /\ length results = 2%nat
         /\ Sorted by_score_desc results.
Proof.
  destruct (saved_batch_is_read_back Examples.dumps Examples.loads loads_dumps dumps_nonempty
              Examples.two Examples.scan_time empty_db) as (db' & Hsave & [results Hres] & Hall).
  - reflexivity.
  - repeat constructor; cbn; intros H; repeat destruct H as [H|H]; try discriminate H; exact H.
  - repeat constructor.
  - unfold has_room. cbn. lia.
  - exists db'. split; [exact Hsave|]. exists results. split; [exact Hres|].
    destruct (Hall results Hres) as (Hlen & _ & Hsorted).
    split; [exact Hlen | exact Hsorted].
Defined.

Lemma rows_on_twice :
  rows_on (Examples.store_of Examples.twice) 10
  = [Examples.row_of 1 (Examples.saved "AAA" 50); Examples.row_of 2 (Examples.saved "AAA" 60)].
Proof. vm_compute. reflexivity. Qed.

(** Against C3 as stated. A batch of two signals that name one symbol is
    saved whole, [save_screening_results] answering 2, and is read back as
    a single record. And a batch that holds a volume of 2^63 is not saved
    at all: the call raises [OverflowError], the store stays empty, and
    nothing is read back. *)
Lemma repeated_symbols_collapse_and_overflow_saves_nothing :
  (save_screening_results Examples.dumps Examples.twice Examples.scan_time empty_db
   = Ok (Examples.store_of Examples.twice, 2%Z)
   /\ (exists results,
         get_results_by_date Examples.loads (Examples.store_of Examples.twice) 10 results)
   /\ forall results,
        get_results_by_date Examples.loads (Examples.store_of Examples.twice) 10 results ->
        length results = 1%nat /\ length results <> length Examples.twice)
  /\ (save_screening_results Examples.dumps [Examples.oversized] Examples.scan_time empty_db
      = Raise OverflowError
      /\ Examples.store_of [Examples.oversized] = empty_db
      /\ forall results,
           get_results_by_date Examples.loads (Examples.store_of [Examples.oversized]) 10
                               results ->
           results = []).
Proof.
  split; [split; [|split] | split; [|split]].
  - vm_compute. reflexivity.
  - eexists. exists [Examples.row_of 2 (Examples.saved "AAA" 60)].
    split; [|reflexivity]. unfold select_by_date. rewrite rows_on_twice.
    split; [|split; [|split]].
    + constructor; [intros [] | constructor].
    + intros row [<-|[]]. split; [right; left; reflexivity|].
      intros row' [<-|[<-|[]]] _; cbn; lia.
    + intros row [<-|[<-|[]]]; left; reflexivity.
    + repeat constructor.
  - intros results (out & (Hnd & Hin & Hcover & _) & ->).
    rewrite length_map. rewrite rows_on_twice in Hin, Hcover.
    assert (Hsym : forall row, In row out -> sr_symbol row = "AAA").
    { intros row Hrow. destruct (Hin row Hrow) as [[<-|[<-|[]]] _]; reflexivity. }
    destruct out as [|a [|b out]].
    + exfalso. apply (Hcover (Examples.row_of 1 (Examples.saved "AAA" 50))).
      left. reflexivity.
    + split; [reflexivity | cbn; lia].
    + exfalso. cbn [map] in Hnd. inversion Hnd as [|? ? Ha _]. apply Ha. left.
      rewrite (Hsym a), (Hsym b); [reflexivity | right; left; reflexivity | left; reflexivity].
  - vm_compute. reflexivity.
  - vm_compute. reflexivity.
  - intros results (out & (_ & Hin & _) & ->).
    destruct out as [|row out]; [reflexivity|].
    destruct (Hin row (or_introl eq_refl)) as [[] _].
Qed.
Import WeeklyAnalyzer.

(** ** Weight optimizer *)

Lemma signal_to_weight_nonempty t k : signal_to_weight !! t = Some k -> k <> EmptyString.
Proof.
  assert (H : map_Forall (fun _ k => k <> EmptyString) signal_to_weight).
  { decide_by_computation. }
  intros Hk. exact (H t k Hk).
Qed.

Lemma nudge_weights f s w adj :
  (nudge f s (w, adj)).1
  = match signal_to_weight !! s.(target) with
    | Some k => match w !! k with
                | Some v => <[k := f v]> w
                | None => w
                end
    | None => w
    end.
Proof.
  unfold nudge. destruct (signal_to_weight !! target s) as [k|] eqn:Hk; [|reflexivity].
  apply signal_to_weight_nonempty in Hk.
  destruct (String.eqb_spec k EmptyString) as [->|_]; [contradiction|].
  destruct (w !! k); reflexivity.
Qed.


Lemma apply_suggestion_weights st s :
  (apply_suggestion st s).1
  = if String.eqb s.(s_type) "reduce_weight" then
      match signal_to_weight !! s.(target) with
      | Some k => match st.1 !! k with
                  | Some v => <[k := Z.max 5 (v - 5)]> st.1
                  | None => st.1
                  end
      | None => st.1
      end
    else if String.eqb s.(s_type) "increase_weight" then
      match signal_to_weight !! s.(target) with
      | Some k => match st.1 !! k with
                  | Some v => <[k := Z.min 35 (v + 5)]> st.1
                  | None => st.1
                  end
      | None => st.1
      end
    else st.1.
Proof.
  destruct st as [w adj]. unfold apply_suggestion.
  destruct (String.eqb (s_type s) "reduce_weight"); [apply nudge_weights|].
  destruct (String.eqb (s_type s) "increase_weight"); [apply nudge_weights|].
  destruct (String.eqb (s_type s) "review"); reflexivity.
Qed.

Lemma apply_suggestion_frame st s k :
  weight_key s <> Some k -> (apply_suggestion st s).1 !! k = st.1 !! k.
Proof.
  intros Hk. rewrite apply_suggestion_weights. unfold weight_key in Hk.
  destruct (String.eqb (s_type s) "reduce_weight"); cbn [orb] in Hk.
  - destruct (signal_to_weight !! target s) as [k'|]; [|reflexivity].
    destruct (st.1 !! k'); [|reflexivity].
    apply lookup_insert_ne. congruence.
  - destruct (String.eqb (s_type s) "increase_weight"); [|reflexivity].
    destruct (signal_to_weight !! target s) as [k'|]; [|reflexivity].
    destruct (st.1 !! k'); [|reflexivity].
    apply lookup_insert_ne. congruence.
Qed.

Lemma apply_suggestions_snoc pre s w :
  apply_suggestions (pre ++ [s]) w = apply_suggestion (apply_suggestions pre w) s.
Proof. unfold apply_suggestions. rewrite fold_left_app. reflexivity. Qed.

Lemma fold_frame suggestions st k :
  (forall s, In s suggestions -> weight_key s <> Some k) ->
  (fold_left apply_suggestion suggestions st).1 !! k = st.1 !! k.
Proof.
  revert st. induction suggestions as [|s l IH]; intros st H; [reflexivity|].
  cbn [fold_left]. rewrite IH by (intros; apply H; right; assumption).
  apply apply_suggestion_frame. apply H. left. reflexivity.
Qed.

Lemma apply_suggestion_band st s : in_band st.1 -> in_band (apply_suggestion st s).1.
Proof.
  intros Hb. rewrite apply_suggestion_weights.
  destruct (String.eqb (s_type s) "reduce_weight").
  - destruct (signal_to_weight !! target s) as [k|]; [|assumption].
    destruct (st.1 !! k) as [v|] eqn:Hv; [|assumption].
    apply map_Forall_insert_2; [|assumption]. specialize (Hb k v Hv). cbn in Hb. lia.
  - destruct (String.eqb (s_type s) "increase_weight"); [|assumption].
    destruct (signal_to_weight !! target s) as [k|]; [|assumption].
    destruct (st.1 !! k) as [v|] eqn:Hv; [|assumption].
    apply map_Forall_insert_2; [|assumption]. specialize (Hb k v Hv). cbn in Hb. lia.
Qed.

Lemma apply_suggestions_band suggestions w :
  in_band w -> in_band (apply_suggestions suggestions w).1.
Proof.
  unfold apply_suggestions. generalize ({| applied := []; skipped := [] |}).
  revert w. induction suggestions as [|s l IH]; intros w adj Hb; [assumption|].
  cbn [fold_left]. destruct (apply_suggestion (w, adj) s) as [w1 adj1] eqn:E.
  apply IH. change w1 with (w1, adj1).1. rewrite <- E.
  apply apply_suggestion_band. assumption.
Qed.

(** C5, as amended. From weights that all lie between 5 and 35, each
    suggestion of a list acts as follows on the weights left by the
    suggestions before it: [reduce_weight] sets the mapped weight [v] to
    [max 5 (v - 5)], which is strictly smaller unless [v] is 5 (where it
    stays) and exactly 5 less from 10 upwards; [increase_weight] sets it to
    [min 35 (v + 5)], strictly larger unless [v] is 35 and exactly 5 more up
    to 30; the mapped weight is again between 5 and 35 and no other weight
    changes in that step. A weight that no suggestion of the list maps to
    is the same after the whole list. *)
Theorem weight_steps_are_bounded_and_framed (suggestions : list Suggestion)
        (w0 : gmap string Z) :
  in_band w0 ->
  (forall pre s post k v,
     suggestions = pre ++ s :: post ->
     let w := (apply_suggestions pre w0).1 in
     let w' := (apply_suggestions (pre ++ [s]) w0).1 in
     signal_to_weight !! s.(target) = Some k ->
     w !! k = Some v ->
     (s.(s_type) = "reduce_weight" ->
        w' !! k = Some (Z.max 5 (v - 5))
        /\ (5 < v -> Z.max 5 (v - 5) < v)
        /\ (v = 5 -> Z.max 5 (v - 5) = 5)
        /\ (10 <= v -> Z.max 5 (v - 5) = v - 5))%Z
     /\ (s.(s_type) = "increase_weight" ->
           w' !! k = Some (Z.min 35 (v + 5))
           /\ (v < 35 -> v < Z.min 35 (v + 5))
           /\ (v = 35 -> Z.min 35 (v + 5) = 35)
           /\ (v <= 30 -> Z.min 35 (v + 5) = v + 5))%Z
     /\ (5 <= v <= 35)%Z
     /\ forall k', k' <> k -> w' !! k' = w !! k')
  /\ (forall k,
        (forall s, In s suggestions -> signal_to_weight !! s.(target) <> Some k) ->
        (apply_suggestions suggestions w0).1 !! k = w0 !! k).
Proof.
  intros Hband. split.
  - intros pre s post k v _ w w' Hk Hv.
    assert (Hw' : w' = (apply_suggestion (apply_suggestions pre w0) s).1)
      by (unfold w'; rewrite apply_suggestions_snoc; reflexivity).
    assert (Hv' : (5 <= v <= 35)%Z)
      by exact (apply_suggestions_band pre w0 Hband k v Hv).
    rewrite Hw', apply_suggestion_weights. fold w. rewrite Hk, Hv.
    split; [|split; [|split]].
    + intros Ht. rewrite Ht. cbn [String.eqb Ascii.eqb Bool.eqb].
      rewrite lookup_insert_eq. repeat split; lia.
    + intros Ht. rewrite Ht. cbn [String.eqb Ascii.eqb Bool.eqb].
      rewrite lookup_insert_eq. repeat split; lia.
    + exact Hv'.
    + intros k' Hne.
      destruct (String.eqb (s_type s) "reduce_weight");
        [apply lookup_insert_ne; congruence|].
      destruct (String.eqb (s_type s) "increase_weight");
        [apply lookup_insert_ne; congruence | reflexivity].
  - intros k Hk. unfold apply_suggestions. rewrite fold_frame; [reflexivity|].
    intros s Hs. unfold weight_key.
    destruct (String.eqb (s_type s) "reduce_weight" || String.eqb (s_type s) "increase_weight");
      [apply Hk; assumption | discriminate].
Qed.

Lemma nudge_applied f s st :
  exists extra, (nudge f s st).2.(applied) = st.2.(applied) ++ extra
                /\ (extra = [] -> (nudge f s st).1 = st.1).
Proof.
  destruct st as [w adj]. unfold nudge.
  destruct (signal_to_weight !! target s) as [k|];
    [|exists []; rewrite app_nil_r; auto].
  destruct (String.eqb k EmptyString); [exists []; rewrite app_nil_r; auto|].
  destruct (w !! k) as [v|]; [|exists []; rewrite app_nil_r; auto].
  eexists. split; [reflexivity | discriminate].
Qed.

Lemma apply_suggestion_applied st s :
  exists extra, (apply_suggestion st s).2.(applied) = st.2.(applied) ++ extra
                /\ (extra = [] -> (apply_suggestion st s).1 = st.1).
Proof.
  unfold apply_suggestion.
  destruct (String.eqb (s_type s) "reduce_weight"); [apply nudge_applied|].
  destruct (String.eqb (s_type s) "increase_weight"); [apply nudge_applied|].
  destruct (String.eqb (s_type s) "review"); exists []; rewrite app_nil_r; auto.
Qed.

Lemma fold_applied suggestions st :
  let st' := fold_left apply_suggestion suggestions st in
  exists extra, st'.2.(applied) = st.2.(applied) ++ extra /\ (extra = [] -> st'.1 = st.1).
Proof.
  revert st. induction suggestions as [|s l IH]; intros st; cbv zeta.
  - exists []. rewrite app_nil_r. auto.
  - cbn [fold_left].
    destruct (apply_suggestion_applied st s) as (e1 & H1 & K1).
    destruct (IH (apply_suggestion st s)) as (e2 & H2 & K2). cbv zeta in H2, K2.
    exists (e1 ++ e2). split.
    + rewrite H2, H1, app_assoc. reflexivity.
    + intros E. apply app_eq_nil in E as [-> ->]. rewrite K2, K1; reflexivity.
Qed.

Lemma auto_optimize_weights suggestions accuracy_rate self :
  current_weights (auto_optimize_model suggestions accuracy_rate self).2
  = (apply_suggestions suggestions (current_weights self)).1.
Proof.
  unfold auto_optimize_model.
  destruct (fold_applied suggestions (current_weights self, {| applied := []; skipped := [] |}))
    as (extra & Happ & Hsame).
  fold (apply_suggestions suggestions (current_weights self)) in Happ, Hsame.
  destruct (apply_suggestions suggestions (current_weights self)) as [w adj].
  cbn [fst snd applied app] in *.
  destruct (applied adj) as [|a l]; [|reflexivity].
  cbn [snd]. symmetry. apply Hsame. congruence.
Qed.

Lemma pinned_fixed suggestions w :
  pinned suggestions w -> (apply_suggestions suggestions w).1 = w.
Proof.
  unfold apply_suggestions. generalize ({| applied := []; skipped := [] |}).
  induction suggestions as [|s l IH]; intros adj Hp; [reflexivity|].
  cbn [fold_left].
  assert (Hs : (apply_suggestion (w, adj) s).1 = w).
  { rewrite apply_suggestion_weights. cbn [fst].
    destruct (String.eqb_spec (s_type s) "reduce_weight") as [Ht|_].
    - destruct (signal_to_weight !! target s) as [k|] eqn:Hk; [|reflexivity].
      destruct (w !! k) as [v|] eqn:Hv; [|reflexivity].
      destruct (Hp s k v) as [H5 _]; [left; reflexivity | assumption ..|].
      rewrite (H5 Ht) in *. apply insert_id. exact Hv.
    - destruct (String.eqb_spec (s_type s) "increase_weight") as [Ht|_]; [|reflexivity].
      destruct (signal_to_weight !! target s) as [k|] eqn:Hk; [|reflexivity].
      destruct (w !! k) as [v|] eqn:Hv; [|reflexivity].
      destruct (Hp s k v) as [_ H35]; [left; reflexivity | assumption ..|].
      rewrite (H35 Ht) in *. apply insert_id. exact Hv. }
  destruct (apply_suggestion (w, adj) s) as [w1 adj1]. cbn [fst] in Hs. subst w1.
  apply IH. intros s' k v Hin. apply Hp. right. assumption.
Qed.

(** C4, as amended. [auto_optimize_model] has no memory of the suggestions
    it has applied: a second run on the same suggestions applies every
    step again to the weights left by the first run. The weights after the
    second run equal those after the first when each weight that a
    suggestion acts on is already at that suggestion's bound (5 for
    [reduce_weight], 35 for [increase_weight]). *)
Theorem second_run_repeats_the_step suggestions accuracy_rate self :
  let self1 := (auto_optimize_model suggestions accuracy_rate self).2 in
  let self2 := (auto_optimize_model suggestions accuracy_rate self1).2 in
  current_weights self1 = (apply_suggestions suggestions (current_weights self)).1
  /\ current_weights self2 = (apply_suggestions suggestions (current_weights self1)).1
  /\ (pinned suggestions (current_weights self1) ->
      current_weights self2 = current_weights self1).
Proof.
  cbv zeta. rewrite !auto_optimize_weights. split; [reflexivity|]. split; [reflexivity|].
  intros Hp. apply pinned_fixed. exact Hp.
Qed.


Lemma second_run_repeats_the_step_witness :
  let self1 := (auto_optimize_model Examples.reduce_ma None Examples.at_floor).2 in
  let self2 := (auto_optimize_model Examples.reduce_ma None self1).2 in
  current_weights self2 = current_weights self1.
Proof.
  cbv zeta.
  destruct (second_run_repeats_the_step Examples.reduce_ma None Examples.at_floor)
    as (H1 & _ & Hfixed).
  apply Hfixed. rewrite H1.
  intros s k v [<-|[]] Hk Hv. vm_compute in Hk. inversion Hk; subst k. clear Hk.
  vm_compute in Hv. inversion Hv; subst v. clear Hv.
  split; [reflexivity | intros H; discriminate H].
Defined.

(** Against C4 as stated: from the fallback weights, a first run on one
    [reduce_weight] suggestion brings the moving-average weight from 25 to
    20 and a second run on the same suggestion brings it to 15. *)
Lemma second_run_moves_the_weight_again :
  let self1 := (auto_optimize_model Examples.reduce_ma None Examples.fresh).2 in
  let self2 := (auto_optimize_model Examples.reduce_ma None self1).2 in
  current_weights Examples.fresh !! "ma_golden_cross" = Some 25%Z
  /\ current_weights self1 !! "ma_golden_cross" = Some 20%Z
  /\ current_weights self2 !! "ma_golden_cross" = Some 15%Z
  /\ current_weights self2 <> current_weights self1.
Proof.
  cbv zeta.
  assert (H1 : current_weights (auto_optimize_model Examples.reduce_ma None Examples.fresh).2
               !! "ma_golden_cross" = Some 20%Z) by (vm_compute; reflexivity).
  assert (H2 : current_weights
                 (auto_optimize_model Examples.reduce_ma None
                    (auto_optimize_model Examples.reduce_ma None Examples.fresh).2).2
               !! "ma_golden_cross" = Some 15%Z) by (vm_compute; reflexivity).
  split; [vm_compute; reflexivity|]. split; [exact H1|]. split; [exact H2|].
  intros E. rewrite E, H1 in H2. discriminate H2.
Qed.

Lemma weight_steps_are_bounded_and_framed_witness :
  (apply_suggestions Examples.reduce_ma fallback_weights).1 !! "ma_golden_cross" = Some 20%Z
  /\ (apply_suggestions Examples.reduce_and_increase fallback_weights).1 !! "obv_confirm"
     = fallback_weights !! "obv_confirm".
Proof.
  assert (Hband : in_band fallback_weights) by decide_by_computation.
  destruct (weight_steps_are_bounded_and_framed Examples.reduce_and_increase
              fallback_weights Hband) as [Hstep Hframe].
  split.
  - destruct (Hstep [] (Examples.suggest "reduce_weight" "MA金叉")
                [Examples.suggest "increase_weight" "成交量放大"]
                "ma_golden_cross" 25%Z) as (Hreduce & _).
    + reflexivity.
    + vm_compute. reflexivity.
    + vm_compute. reflexivity.
    + destruct Hreduce as [Hnew _]; [reflexivity | exact Hnew].
  - apply Hframe. intros s [<-|[<-|[]]]; vm_compute; intros H; discriminate H.
Defined.

(** Against C5 as stated: below the floor a [reduce_weight] suggestion
    raises the weight (3 to 5), and above the ceiling an [increase_weight]
    suggestion lowers it (40 to 35). *)
Lemma weights_outside_the_band_move_the_other_way :
  let w' := (apply_suggestions Examples.reduce_and_increase Examples.out_of_band).1 in
  Examples.out_of_band !! "ma_golden_cross" = Some 3%Z
  /\ w' !! "ma_golden_cross" = Some 5%Z
  /\ Examples.out_of_band !! "volume_surge" = Some 40%Z
  /\ w' !! "volume_surge" = Some 35%Z.
Proof. cbv zeta. repeat split; vm_compute; reflexivity. Qed.

(** * Further properties of the code *)

(** ** Moving averages *)

Lemma mapM_Ok_length {A B} (f : A -> result B) l rs :
  mapM f l = Ok rs -> length rs = length l.
Proof.
  revert rs. induction l as [|x l IH]; intros rs H.
  - inversion H. reflexivity.
  - cbn in H. destruct (f x) as [y|]; [|discriminate].
    cbn in H. destruct (mapM f l) as [ys|]; [|discriminate].
    cbn in H. inversion H; subst. cbn. f_equal. apply IH. reflexivity.
Qed.

Lemma fold_Qplus_bounds lo hi l a n :
  Forall (fun x => lo <= x <= hi) l ->
  Py.of_nat n * lo <= a <= Py.of_nat n * hi ->
  Py.of_nat (n + length l) * lo <= fold_left Qplus l a <= Py.of_nat (n + length l) * hi.
Proof.
  revert a n. induction l as [|x l IH]; intros a n Hl Ha; cbn [fold_left length].
  - rewrite Nat.add_0_r. exact Ha.
  - inversion Hl as [|? ? Hx Hl']; subst.
    replace (n + S (length l))%nat with (S n + length l)%nat by lia.
    apply IH; [exact Hl'|].
    assert (E : Py.of_nat (S n) == Py.of_nat n + 1).
    { unfold Py.of_nat. rewrite Nat2Z.inj_succ. unfold Z.succ.
      rewrite inject_Z_plus. reflexivity. }
    rewrite E. lra.
Qed.

Lemma sum_bounds lo hi l :
  Forall (fun x => lo <= x <= hi) l ->
  Py.of_nat (length l) * lo <= Py.sum l <= Py.of_nat (length l) * hi.
Proof.
  intros H. unfold Py.sum. rewrite Qred_correct.
  apply (fold_Qplus_bounds lo hi l 0 0 H). change (Py.of_nat 0) with 0. lra.
Qed.

(** The mean of a non-empty list lies between the bounds of its elements. *)
Lemma mean_bounds lo hi l n r :
  Forall (fun x => lo <= x <= hi) l -> length l = n ->
  Py.div (Py.sum l) (Py.of_nat n) = Ok r -> lo <= r <= hi.
Proof.
  intros Hl Hn H. apply div_Ok in H as [Hz Hr].
  pose proof (sum_bounds lo hi l Hl) as Hs. rewrite Hn in Hs.
  assert (Hpos : 0 < Py.of_nat n).
  { pose proof (of_nat_nonneg n). lra. }
  rewrite Hr. split.
  - apply Qle_shift_div_l; [exact Hpos | lra].
  - apply Qle_shift_div_r; [exact Hpos | lra].
Qed.

Lemma Forall_slice {A} (P : A -> Prop) l lo hi : Forall P l -> Forall P (Py.slice l lo hi).
Proof.
  intros H. unfold Py.slice. apply Forall_take. apply Forall_drop. exact H.
Qed.

Lemma slice_length {A} (l : list A) lo hi :
  (lo <= hi <= length l)%nat -> length (Py.slice l lo hi) = (hi - lo)%nat.
Proof.
  intros H. unfold Py.slice. rewrite length_take, length_drop. lia.
Qed.

(** X1. [calculate_sma], for a period between 1 and the number of prices,
    answers [len - period + 1] values without raising, and each value lies
    between any two bounds of the prices. *)
Theorem sma_length_and_bounds prices period :
  (1 <= period <= length prices)%nat ->
  exists sma,
    TechnicalIndicators.calculate_sma prices period = Ok sma
    /\ length sma = (length prices - period + 1)%nat
    /\ forall lo hi, Forall (fun p => lo <= p <= hi) prices ->
                     Forall (fun v => lo <= v <= hi) sma.
Proof.
  intros [H1 H2]. unfold TechnicalIndicators.calculate_sma.
  destruct (Nat.ltb_spec (length prices) period) as [Hlt|_]; [lia|].
  destruct period as [|p]; [lia|].
  set (f := fun i => Py.div (Py.sum (Py.slice prices (i + 1 - S p) (i + 1))) (Py.of_nat (S p))).
  destruct (mapM_Ok_total f (seq (S p - 1) (length prices - (S p - 1)))) as [sma Hsma].
  { intros i _. apply div_total. intros Hz. apply of_nat_zero in Hz. lia. }
  exists sma. split; [exact Hsma|]. split.
  - rewrite (mapM_Ok_length _ _ _ Hsma), length_seq. lia.
  - intros lo hi Hb. apply Forall_lookup. intros k v Hk.
    destruct (mapM_Ok_lookup _ _ _ Hsma k v Hk) as (i & Hi & Hv).
    apply lookup_seq in Hi as [-> Hlt].
    unfold f in Hv. eapply mean_bounds; [| |exact Hv].
    + apply Forall_slice. exact Hb.
    + rewrite slice_length; lia.
Qed.

Lemma sma_length_and_bounds_witness :
  exists sma, TechnicalIndicators.calculate_sma [1; 2; 3; 4] 2 = Ok sma
              /\ length sma = 3%nat /\ Forall (fun v => 1 <= v <= 4) sma.
Proof.
  destruct (sma_length_and_bounds [1; 2; 3; 4] 2) as (sma & H & Hlen & Hb); [cbn; lia|].
  exists sma. split; [exact H|]. split; [exact Hlen|]. apply Hb.
  repeat (constructor; [cbv beta; lra|]). constructor.
Defined.

(** ** Exponential average and MACD *)

Lemma ema_loop_length m prev ps : length (TechnicalIndicators.ema_loop m prev ps) = length ps.
Proof.
  revert prev. induction ps as [|p ps IH]; intros prev; cbn; [reflexivity|].
  f_equal. apply IH.
Qed.

Lemma ema_loop_bounds lo hi m prev ps :
  0 <= m <= 1 -> lo <= prev <= hi -> Forall (fun p => lo <= p <= hi) ps ->
  Forall (fun v => lo <= v <= hi) (TechnicalIndicators.ema_loop m prev ps).
Proof.
  intros Hm. revert prev. induction ps as [|p ps IH]; intros prev Hprev Hps; cbn.
  - constructor.
  - inversion Hps as [|? ? Hp Hps']; subst.
    assert (He : lo <= Qred ((p - prev) * m + prev) <= hi).
    { rewrite Qred_correct. split; nra. }
    constructor; [exact He | apply IH; assumption].
Qed.

Lemma ema_Ok prices period :
  (1 <= period <= length prices)%nat ->
  exists m seed,
    Py.div 2 (Py.of_nat (period + 1)) = Ok m
    /\ Py.div (Py.sum (firstn period prices)) (Py.of_nat period) = Ok seed
    /\ TechnicalIndicators.calculate_ema prices period
       = Ok (seed :: TechnicalIndicators.ema_loop m seed (skipn period prices))
    /\ 0 <= m <= 1.
Proof.
  intros [H1 H2]. unfold TechnicalIndicators.calculate_ema.
  destruct (Nat.ltb_spec (length prices) period) as [Hlt|_]; [lia|].
  destruct (div_total 2 (Py.of_nat (period + 1))) as [m Hm].
  { intros Hz. apply of_nat_zero in Hz. lia. }
  destruct (div_total (Py.sum (firstn period prices)) (Py.of_nat period)) as [seed Hseed].
  { intros Hz. apply of_nat_zero in Hz. lia. }
  exists m, seed. rewrite Hm, Hseed. repeat split; try reflexivity.
  - apply div_Ok in Hm as [_ ->]. apply quot_nonneg; [lra|]. apply of_nat_pos. lia.
  - apply div_Ok in Hm as [_ ->]. apply Qle_shift_div_r; [apply of_nat_pos; lia|].
    unfold Py.of_nat. rewrite Nat2Z.inj_add, inject_Z_plus.
    assert (1 <= inject_Z (Z.of_nat period)).
    { rewrite <- (Zle_Qle 1). lia. }
    change (inject_Z (Z.of_nat 1)) with 1. lra.
Qed.

Lemma ema_spec prices period :
  (1 <= period <= length prices)%nat ->
  exists ema,
    TechnicalIndicators.calculate_ema prices period = Ok ema
    /\ length ema = (length prices - period + 1)%nat
    /\ forall lo hi, Forall (fun p => lo <= p <= hi) prices ->
                     Forall (fun v => lo <= v <= hi) ema.
Proof.
  intros H. destruct (ema_Ok prices period H) as (m & seed & Hm & Hseed & -> & Hm01).
  eexists. split; [reflexivity|]. split.
  - cbn [length]. rewrite ema_loop_length, length_drop. lia.
  - intros lo hi Hb.
    assert (Hs : lo <= seed <= hi).
    { eapply mean_bounds; [| |exact Hseed].
      - apply Forall_take. exact Hb.
      - rewrite length_take. lia. }
    constructor; [exact Hs|].
    apply ema_loop_bounds; [exact Hm01 | exact Hs | apply Forall_drop; exact Hb].
Qed.

(** X2. [calculate_ema], for a period between 1 and the number of prices,
    answers [len - period + 1] values without raising, and each value lies
    between any two bounds of the prices. *)
Theorem ema_length_and_bounds prices period :
  (1 <= period <= length prices)%nat ->
  exists ema,
    TechnicalIndicators.calculate_ema prices period = Ok ema
    /\ length ema = (length prices - period + 1)%nat
    /\ forall lo hi, Forall (fun p => lo <= p <= hi) prices ->
                     Forall (fun v => lo <= v <= hi) ema.
Proof. apply ema_spec. Qed.

Lemma ema_length_and_bounds_witness :
  exists ema, TechnicalIndicators.calculate_ema [1; 2; 3; 4] 2 = Ok ema
              /\ length ema = 3%nat /\ Forall (fun v => 1 <= v <= 4) ema.
Proof.
  destruct (ema_length_and_bounds [1; 2; 3; 4] 2) as (ema & H & Hlen & Hb); [cbn; lia|].
  exists ema. split; [exact H|]. split; [exact Hlen|]. apply Hb.
  repeat (constructor; [cbv beta; lra|]). constructor.
Defined.

Lemma ema_length prices period ema :
  (1 <= period <= length prices)%nat ->
  TechnicalIndicators.calculate_ema prices period = Ok ema ->
  length ema = (length prices - period + 1)%nat.
Proof.
  intros H He. destruct (ema_spec prices period H) as (ema' & He' & Hlen & _).
  congruence.
Qed.

Lemma zip_sub_length xs ys :
  length (TechnicalIndicators.zip_sub xs ys) = Nat.min (length xs) (length ys).
Proof. unfold TechnicalIndicators.zip_sub. apply length_zip_with. Qed.

Lemma zip_sub_lookup xs ys i h :
  TechnicalIndicators.zip_sub xs ys !! i = Some h ->
  exists x y, xs !! i = Some x /\ ys !! i = Some y /\ h == x - y.
Proof.
  unfold TechnicalIndicators.zip_sub. intros H.
  apply lookup_zip_with_Some in H as (x & y & -> & Hx & Hy).
  exists x, y. split; [exact Hx|]. split; [exact Hy|]. apply Qred_correct.
Qed.

(** X3. [calculate_macd] never raises. Below 26 prices the three series are
    empty; from 26 to 33 prices the MACD line has [len - 25] values and the
    signal line and the histogram are empty; from 34 prices on the three
    series have the same length [len - 33] and the histogram is, value by
    value, the MACD line minus the signal line. *)
Theorem macd_series_are_aligned prices :
  exists macd_line signal_line histogram,
    TechnicalIndicators.calculate_macd prices = Ok (macd_line, signal_line, histogram)
    /\ ((length prices < 26)%nat ->
        macd_line = [] /\ signal_line = [] /\ histogram = [])
    /\ ((26 <= length prices < 34)%nat ->
        length macd_line = (length prices - 25)%nat /\ signal_line = [] /\ histogram = [])
    /\ ((34 <= length prices)%nat ->
        length macd_line = (length prices - 33)%nat
        /\ length signal_line = (length prices - 33)%nat
        /\ length histogram = (length prices - 33)%nat
        /\ forall i h, histogram !! i = Some h ->
             exists m s, macd_line !! i = Some m /\ signal_line !! i = Some s /\ h == m - s).
Proof.
  unfold TechnicalIndicators.calculate_macd.
  destruct (Nat.ltb_spec (length prices) 26) as [Hlt|Hge].
  - exists [], [], []. split; [reflexivity|]. repeat split; intros; lia.
  - destruct (ema_spec prices 12) as (ema12 & H12 & L12 & _); [lia|].
    destruct (ema_spec prices 26) as (ema26 & H26 & L26 & _); [lia|].
    rewrite H12, H26. cbn [bind mbind result_bind].
    set (macd0 := TechnicalIndicators.zip_sub (drop (length ema12 - length ema26) ema12) ema26).
    assert (L0 : length macd0 = (length prices - 25)%nat).
    { unfold macd0. rewrite zip_sub_length, length_drop. lia. }
    destruct (Nat.leb_spec 9 (length macd0)) as [H9|H9].
    + destruct (ema_spec macd0 9) as (sig & Hsig & Lsig & _); [lia|].
      rewrite Hsig. cbn [bind mbind result_bind].
      eexists _, _, _. split; [reflexivity|].
      assert (Lm : length (Py.last_n (length sig) macd0) = (length prices - 33)%nat).
      { unfold Py.last_n. rewrite length_drop. lia. }
      split; [intros; lia|]. split; [intros; lia|]. intros _.
      split; [exact Lm|]. split; [lia|]. split; [rewrite zip_sub_length; lia|].
      intros i h Hh. apply zip_sub_lookup. exact Hh.
    + eexists _, _, _. split; [reflexivity|].
      split; [intros; lia|]. split; [intros; auto|]. intros; lia.
Qed.

Lemma macd_series_are_aligned_witness :
  exists macd_line signal_line histogram,
    TechnicalIndicators.calculate_macd (Py.not_none Examples.rising.(quote_close))
    = Ok (macd_line, signal_line, histogram)
    /\ length macd_line = 27%nat /\ length signal_line = 27%nat
    /\ length histogram = 27%nat.
Proof.
  destruct (macd_series_are_aligned (Py.not_none Examples.rising.(quote_close)))
    as (m & s & h & H & _ & _ & H34).
  exists m, s, h. split; [exact H|].
  destruct H34 as (Hm & Hs & Hh & _); [vm_compute; lia|].
  split; [exact Hm|]. split; [exact Hs | exact Hh].
Defined.

(** ** On-balance volume *)

Lemma obv_loop_length p o bars : length (TechnicalIndicators.obv_loop p o bars) = length bars.
Proof.
  revert p o. induction bars as [|[price vol] bars IH]; intros p o; cbn; [reflexivity|].
  f_equal. apply IH.
Qed.

Lemma obv_loop_lookup p0 o0 ps vs i o :
  length ps = length vs ->
  (o0 :: TechnicalIndicators.obv_loop p0 o0 (zip ps vs)) !! S i = Some o ->
  exists prev price volume,
    (o0 :: TechnicalIndicators.obv_loop p0 o0 (zip ps vs)) !! i = Some prev
    /\ (p0 :: ps) !! S i = Some price
    /\ vs !! i = Some volume
    /\ o = (prev + obv_step (nth i (p0 :: ps) 0%Q) price volume)%Z.
Proof.
  revert p0 o0 vs i. induction ps as [|p ps IH]; intros p0 o0 vs i Hlen H.
  - destruct vs; [|discriminate]. cbn in H. discriminate.
  - destruct vs as [|v vs]; [discriminate|]. cbn [zip zip_with TechnicalIndicators.obv_loop] in *.
    destruct i as [|i].
    + cbn in H. inversion H; subst o. exists o0, p, v. repeat split.
      unfold obv_step. cbn [nth].
      destruct (Py.Qgtb p p0); [reflexivity|]. destruct (Py.Qltb p p0); lia.
    + change ((o0 :: ?x :: ?l) !! S (S i)) with ((x :: l) !! S i) in H.
      destruct (IH p _ vs i ltac:(cbn in Hlen; lia) H) as (prev & price & volume & H1 & H2 & H3 & H4).
      exists prev, price, volume. repeat split; assumption.
Qed.

(** X4. When there are as many volumes as prices and at least two of each,
    [calculate_obv] answers one value per price, starting at 0, and each
    later value is the one before plus the session's volume if the price
    rose, minus it if the price fell, and unchanged otherwise; in every
    other case it answers the empty list. *)
Theorem obv_is_a_running_sum prices volumes :
  let obv := TechnicalIndicators.calculate_obv prices volumes in
  ((length prices <> length volumes \/ (length prices < 2)%nat) -> obv = [])
  /\ (length prices = length volumes -> (2 <= length prices)%nat ->
      length obv = length prices
      /\ obv !! 0%nat = Some 0%Z
      /\ forall i o, obv !! S i = Some o ->
           exists prev price volume,
             obv !! i = Some prev /\ prices !! S i = Some price /\ volumes !! S i = Some volume
             /\ o = (prev + obv_step (nth i prices 0%Q) price volume)%Z).
Proof.
  cbv zeta. unfold TechnicalIndicators.calculate_obv. split.
  - intros [Hne|Hlt].
    + destruct (Nat.eqb_spec (length prices) (length volumes)); [contradiction | reflexivity].
    + apply Nat.ltb_lt in Hlt. rewrite Hlt, orb_true_r. reflexivity.
  - intros Hlen H2.
    apply Nat.eqb_eq in Hlen as Heq. rewrite Heq.
    destruct (Nat.ltb_spec (length prices) 2) as [Hlt|_]; [lia|]. cbn [negb orb].
    destruct prices as [|p0 ps]; [cbn in H2; lia|].
    destruct volumes as [|v0 vs]; [discriminate|].
    cbn in Hlen. injection Hlen as Hlen.
    split; [|split].
    + cbn [length]. rewrite obv_loop_length, length_zip_with. lia.
    + reflexivity.
    + intros i o Ho.
      destruct (obv_loop_lookup p0 0%Z ps vs i o Hlen Ho)
        as (prev & price & volume & H1 & H3 & H4 & H5).
      exists prev, price, volume. repeat split; assumption.
Qed.

Lemma obv_is_a_running_sum_witness :
  TechnicalIndicators.calculate_obv [10; 11; 11; 9] [5; 6; 7; 8]%Z = [0; 6; 6; -2]%Z
  /\ length (TechnicalIndicators.calculate_obv [10; 11; 11; 9] [5; 6; 7; 8]%Z) = 4%nat.
Proof.
  destruct (obv_is_a_running_sum [10; 11; 11; 9] [5; 6; 7; 8]%Z) as [_ H].
  destruct H as (Hlen & _ & _); [reflexivity | cbn; lia |].
  split; [reflexivity | exact Hlen].
Defined.

(** ** RSI of one-way markets *)

Lemma fold_Qplus_zero l a : a == 0 -> Forall (fun x => x == 0) l -> fold_left Qplus l a == 0.
Proof.
  revert a. induction l as [|x l IH]; intros a Ha Hl; cbn [fold_left]; [exact Ha|].
  inversion Hl as [|? ? Hx Hl']; subst. apply IH; [|exact Hl']. rewrite Ha, Hx. reflexivity.
Qed.

Lemma sum_zero l : Forall (fun x => x == 0) l -> Py.sum l == 0.
Proof.
  intros H. unfold Py.sum. rewrite Qred_correct. apply fold_Qplus_zero; [reflexivity | exact H].
Qed.

Lemma fold_Qplus_pos l a : 0 <= a -> Forall (fun x => 0 < x) l -> l <> [] -> 0 < fold_left Qplus l a.
Proof.
  intros Ha Hl Hne. destruct l as [|x l]; [contradiction|].
  inversion Hl as [|? ? Hx Hl']; subst. cbn [fold_left].
  assert (H0 : 0 < a + x) by lra. clear Ha Hx Hl Hne. revert H0. generalize (a + x).
  induction l as [|y l IH]; intros b Hb; cbn [fold_left]; [exact Hb|].
  inversion Hl' as [|? ? Hy Hl'']; subst. apply IH; [exact Hl'' | lra].
Qed.

Lemma sum_pos l : Forall (fun x => 0 < x) l -> l <> [] -> 0 < Py.sum l.
Proof.
  intros H Hne. unfold Py.sum. rewrite Qred_correct. apply fold_Qplus_pos; [lra | exact H | exact Hne].
Qed.

(** The changes seen by the RSI at bar [i] are differences of neighbours. *)
Lemma changes_Forall (P : Q -> Prop) prices period i :
  (period <= i < length prices)%nat ->
  (forall j, (S j < length prices)%nat -> P (nth (S j) prices 0 - nth j prices 0)) ->
  Forall P (TechnicalIndicators.changes prices period i).
Proof.
  intros Hi H. unfold TechnicalIndicators.changes. apply List.Forall_forall.
  intros c Hc. apply List.in_map_iff in Hc as (j & <- & Hj).
  apply List.in_seq in Hj. destruct j as [|j]; [lia|].
  replace (S j - 1)%nat with j by lia. apply H. lia.
Qed.

Lemma Forall_map_iff {A B} (f : A -> B) (P : B -> Prop) l :
  Forall (fun x => P (f x)) l -> Forall P (map f l).
Proof. induction 1; cbn; constructor; assumption. Qed.

Lemma rsi_never_falling prices period i r :
  (0 < period <= i)%nat -> (i < length prices)%nat ->
  (forall j, (S j < length prices)%nat -> nth j prices 0 <= nth (S j) prices 0) ->
  TechnicalIndicators.rsi_at prices period i = Ok r -> r = 100.
Proof.
  intros Hp Hi Hmono H. unfold TechnicalIndicators.rsi_at in H.
  apply bind_Ok in H as (ag & Hag & H). apply bind_Ok in H as (al & Hal & H).
  assert (Hz : al == 0).
  { unfold TechnicalIndicators.avg_loss in Hal. apply div_Ok in Hal as [_ ->].
    rewrite sum_zero; [unfold Qdiv; lra|].
    apply Forall_map_iff. apply changes_Forall; [lia|].
    intros j Hj. specialize (Hmono j Hj). unfold TechnicalIndicators.loss.
    destruct (Py.Qgtb _ 0) eqn:E; [reflexivity|].
    assert (~ 0 < nth (S j) prices 0 - nth j prices 0).
    { intros Hc. apply Qgtb_true in Hc. congruence. }
    assert (E0 : nth (S j) prices 0 - nth j prices 0 == 0) by lra.
    rewrite E0. reflexivity. }
  apply Qeq_bool_iff in Hz. rewrite Hz in H. inversion H. reflexivity.
Qed.

Lemma rsi_always_falling prices period i r :
  (0 < period <= i)%nat -> (i < length prices)%nat ->
  (forall j, (S j < length prices)%nat -> nth (S j) prices 0 < nth j prices 0) ->
  TechnicalIndicators.rsi_at prices period i = Ok r -> r == 0.
Proof.
  intros Hp Hi Hmono H. unfold TechnicalIndicators.rsi_at in H.
  apply bind_Ok in H as (ag & Hag & H). apply bind_Ok in H as (al & Hal & H).
  assert (Hg : ag == 0).
  { unfold TechnicalIndicators.avg_gain in Hag. apply div_Ok in Hag as [_ ->].
    rewrite sum_zero; [unfold Qdiv; lra|].
    apply Forall_map_iff. apply changes_Forall; [lia|].
    intros j Hj. specialize (Hmono j Hj). unfold TechnicalIndicators.gain.
    destruct (Py.Qgtb _ 0) eqn:E; [|reflexivity].
    apply Qgtb_true in E. lra. }
  assert (Hl : 0 < al).
  { unfold TechnicalIndicators.avg_loss in Hal. apply div_Ok in Hal as [_ ->].
    apply Qlt_shift_div_l; [apply of_nat_pos; lia|]. rewrite Qmult_0_l.
    apply sum_pos.
    - apply Forall_map_iff. apply changes_Forall; [lia|].
      intros j Hj. specialize (Hmono j Hj). unfold TechnicalIndicators.loss.
      destruct (Py.Qgtb _ 0) eqn:E; [apply Qgtb_true in E; lra|].
      rewrite Qabs_neg by lra. lra.
    - unfold TechnicalIndicators.changes.
      destruct period as [|p]; [lia | cbn; discriminate]. }
  destruct (Qeq_bool al 0) eqn:E; [apply Qeq_bool_iff in E; lra|].
  apply bind_Ok in H as (rs & Hrs & H). apply bind_Ok in H as (d & Hd & H).
  inversion H; subst r. clear H.
  apply div_Ok in Hrs as [_ Hrs]. apply div_Ok in Hd as [_ Hd].
  assert (Hrs0 : rs == 0). { rewrite Hrs, Hg. unfold Qdiv. lra. }
  rewrite Qred_correct, Hd, Hrs0. field.
Qed.

(** X5. For a positive period, when no price of the series is below the one
    before it (a flat series included) every value of [calculate_rsi] is
    100, and when every price is below the one before it every value is
    0. *)
Theorem rsi_of_one_way_markets prices period rs :
  (0 < period)%nat ->
  TechnicalIndicators.calculate_rsi prices period = Ok rs ->
  ((forall j, (S j < length prices)%nat -> nth j prices 0 <= nth (S j) prices 0) ->
   Forall (fun r => r = 100) rs)
  /\ ((forall j, (S j < length prices)%nat -> nth (S j) prices 0 < nth j prices 0) ->
      Forall (fun r => r == 0) rs).
Proof.
  intros Hp H. unfold TechnicalIndicators.calculate_rsi in H.
  destruct (length prices <? period + 1)%nat.
  - inversion H; subst. split; intros _; constructor.
  - split; intros Hmono; apply Forall_lookup; intros k r Hk;
      destruct (mapM_Ok_lookup _ _ _ H k r Hk) as (i & Hi & Hr);
      apply lookup_seq in Hi as [-> Hlt].
    + eapply rsi_never_falling; [| |exact Hmono|exact Hr]; lia.
    + eapply rsi_always_falling; [| |exact Hmono|exact Hr]; lia.
Qed.

Lemma rsi_of_one_way_markets_witness :
  TechnicalIndicators.calculate_rsi [7; 7; 7; 7] 2 = Ok [100; 100]
  /\ Forall (fun r => r = 100) [100; 100].
Proof.
  split; [reflexivity|].
  destruct (rsi_of_one_way_markets [7; 7; 7; 7] 2 [100; 100]) as [Hflat _];
    [lia | reflexivity |].
  apply Hflat. intros j Hj. cbn in Hj.
  destruct j as [|[|[|j]]]; cbn; try lra. lia.
Defined.

Import Accounting.

(** ** Trend strength and grades *)

Lemma trend_total closes days :
  exists desc bonus,
    Scorer.check_trend_strength closes days = Ok (desc, bonus)
    /\ In bonus [15; 10; 5; 0; -10]%Z
    /\ ((length closes < days + 1)%nat -> desc = "数据不足" /\ bonus = 0%Z).
Proof.
  unfold Scorer.check_trend_strength.
  destruct (Nat.ltb_spec (length closes) (days + 1)) as [Hlt|Hge].
  - eexists _, _. split; [reflexivity|]. split; [cbn; tauto | auto].
  - set (recent := Py.last_n (days + 1) closes).
    assert (Hlen : length recent = (days + 1)%nat).
    { unfold recent, Py.last_n. rewrite length_drop. lia. }
    destruct recent as [|first rest] eqn:Hrecent; [cbn in Hlen; lia|].
    rewrite <- Hrecent. cbn [bind mbind result_bind].
    assert (Htotal : exists total_change,
               (if Py.Qgtb first 0
                then bind (Py.from_end 1 recent)
                       (fun final => bind (Py.div (final - first) first)
                                       (fun r => Ok (r * 100)))
                else Ok 0) = Ok total_change).
    { destruct (Py.Qgtb first 0) eqn:E; [|eauto].
      apply Qgtb_true in E.
      destruct (from_end_total 1 recent) as [final Hfinal]; [rewrite Hrecent; cbn; lia|].
      rewrite Hfinal. cbn [bind mbind result_bind].
      destruct (div_total (final - first) first) as [r Hr]; [lra|].
      rewrite Hr. cbn. eauto. }
    destruct Htotal as [total_change ->]. cbn [bind mbind result_bind].
    repeat match goal with
           | |- context [if ?c then _ else _] => destruct c
           end;
      eexists _, _; (split; [reflexivity|]); (split; [cbn; tauto | intros; lia]).
Qed.

(** X6. [check_trend_strength] never raises; its bonus is one of 15, 10, 5,
    0 and -10; with fewer than [days + 1] closes it answers the label for
    missing data and no bonus. *)
Theorem trend_strength_is_total closes days :
  exists desc bonus,
    Scorer.check_trend_strength closes days = Ok (desc, bonus)
    /\ In bonus [15; 10; 5; 0; -10]%Z
    /\ ((length closes < days + 1)%nat -> desc = "数据不足" /\ bonus = 0%Z).
Proof. apply trend_total. Qed.

Lemma rank_A : grade_rank Scorer.grade_A = 3%nat. Proof. reflexivity. Qed.
Lemma rank_B : grade_rank Scorer.grade_B = 2%nat. Proof. reflexivity. Qed.
Lemma rank_C : grade_rank Scorer.grade_C = 1%nat. Proof. reflexivity. Qed.
Lemma rank_D : grade_rank Scorer.grade_D = 0%nat. Proof. reflexivity. Qed.

(** X7. [check_signal_quality] is monotone: with at least as many strong
    tags and at least as high a score, the grade is at least as good. *)
Theorem grade_is_monotone tags1 total1 tags2 total2 :
  (Scorer.strong_count tags1 <= Scorer.strong_count tags2)%Z ->
  (total1 <= total2)%Z ->
  (grade_rank (Scorer.check_signal_quality tags1 total1)
   <= grade_rank (Scorer.check_signal_quality tags2 total2))%nat.
Proof.
  intros Hs Ht. unfold Scorer.check_signal_quality.
  destruct (Z.leb_spec 2 (Scorer.strong_count tags1));
    destruct (Z.leb_spec 70 total1);
    destruct (Z.leb_spec 1 (Scorer.strong_count tags1));
    destruct (Z.leb_spec 50 total1);
    destruct (Z.leb_spec 40 total1);
    destruct (Z.leb_spec 2 (Scorer.strong_count tags2));
    destruct (Z.leb_spec 70 total2);
    destruct (Z.leb_spec 1 (Scorer.strong_count tags2));
    destruct (Z.leb_spec 50 total2);
    destruct (Z.leb_spec 40 total2);
    cbn [andb]; rewrite ?rank_A, ?rank_B, ?rank_C, ?rank_D; lia.
Qed.

Lemma grade_is_monotone_witness :
  (grade_rank (Scorer.check_signal_quality ["🔥 MACD金叉确认"] 45)
   <= grade_rank (Scorer.check_signal_quality ["🔥 MACD金叉确认"; "🔥 成交量放大 2.3倍"] 75))%nat.
Proof.
  apply grade_is_monotone; [vm_compute; intros H; discriminate H | lia].
Defined.

Import Scorer.

(** ** Score accounting of the seven rules *)

Lemma grew_by_same n W acc : (0 <= W)%Z -> grew_by n W acc acc.
Proof.
  intros HW. exists [], 0%Z. rewrite app_nil_r, Z.add_0_r.
  destruct acc. cbn. repeat split; lia.
Qed.

Lemma grew_by_fire tag w n W acc : (0 <= w <= W)%Z -> grew_by (S n) W acc (fire tag w acc).
Proof.
  intros Hw. exists [tag], w. unfold fire. repeat split; cbn; try lia. discriminate.
Qed.

Lemma grew_by_trans n1 W1 n2 W2 a b c :
  grew_by n1 W1 a b -> grew_by n2 W2 b c -> grew_by (n1 + n2) (W1 + W2) a c.
Proof.
  intros (t1 & d1 & -> & Hl1 & Hd1 & Hz1) (t2 & d2 & -> & Hl2 & Hd2 & Hz2).
  exists (t1 ++ t2), (d1 + d2)%Z. cbn [fst snd].
  rewrite <- app_assoc, Z.add_assoc, length_app.
  repeat split; try lia.
  intros H. apply app_eq_nil in H as [H1 H2]. rewrite Hz1, Hz2 by assumption. reflexivity.
Qed.

Lemma half_bound w : (0 <= w)%Z -> (0 <= w / 2 <= w)%Z.
Proof.
  intros H. split; [apply Z.div_pos; lia|].
  apply Z.div_le_upper_bound; lia.
Qed.

(** Splits the hypothesis [H : body = Ok acc'] of a rule along its binds
    and tests, down to the [Ok] that ends each path. *)
Ltac rule_paths H :=
  repeat first
    [ apply bind_Ok in H as (? & _ & H); cbv beta in H
    | match type of H with
      | (if ?c then _ else _) = Ok _ => destruct c
      | (match ?x with _ => _ end) = Ok _ => destruct x
      | (let _ := _ in _) = Ok _ => cbv zeta in H
      end ].

Ltac rule_done H :=
  injection H as <-;
  first [ apply grew_by_same; lia
        | apply grew_by_fire; lia ].

Lemma rule_ma_grows cfg closes acc acc' :
  nonnegative cfg.(weights) ->
  rule_ma cfg closes acc = Ok acc' ->
  grew_by 1 (Z.max cfg.(weights).(ma_golden_cross) cfg.(weights).(trend_continuation)) acc acc'.
Proof.
  intros (H1 & H2 & H3 & H4 & H5 & H6 & H7 & H8) H. unfold rule_ma in H.
  rule_paths H; rule_done H.
Qed.

Lemma rule_macd_grows cfg closes acc acc' :
  nonnegative cfg.(weights) ->
  rule_macd cfg closes acc = Ok acc' ->
  grew_by 1 cfg.(weights).(macd_golden_cross) acc acc'.
Proof.
  intros (H1 & H2 & H3 & H4 & H5 & H6 & H7 & H8) H. unfold rule_macd in H.
  pose proof (half_bound _ H2).
  rule_paths H; rule_done H.
Qed.

Lemma rule_rsi_grows cfg closes acc acc' :
  nonnegative cfg.(weights) ->
  rule_rsi cfg closes acc = Ok acc' ->
  grew_by 1 cfg.(weights).(rsi_reversal) acc acc'.
Proof.
  intros (H1 & H2 & H3 & H4 & H5 & H6 & H7 & H8) H. unfold rule_rsi in H.
  pose proof (half_bound _ H3).
  rule_paths H; rule_done H.
Qed.

Lemma rule_volume_grows cfg volumes avg acc acc' :
  nonnegative cfg.(weights) ->
  rule_volume cfg volumes avg acc = Ok acc' ->
  grew_by 1 cfg.(weights).(volume_surge) acc acc'.
Proof.
  intros (H1 & H2 & H3 & H4 & H5 & H6 & H7 & H8) H. unfold rule_volume in H.
  rule_paths H; rule_done H.
Qed.

Lemma rule_obv_grows cfg closes volumes acc acc' :
  nonnegative cfg.(weights) ->
  rule_obv cfg closes volumes acc = Ok acc' ->
  grew_by 1 cfg.(weights).(obv_confirm) acc acc'.
Proof.
  intros (H1 & H2 & H3 & H4 & H5 & H6 & H7 & H8) H. unfold rule_obv in H.
  rule_paths H; rule_done H.
Qed.

Lemma rule_breakout_grows cfg highs price acc acc' :
  nonnegative cfg.(weights) ->
  rule_breakout cfg highs price acc = Ok acc' ->
  grew_by 2 (cfg.(weights).(price_breakout_52w) + cfg.(weights).(price_breakout_20d)) acc acc'.
Proof.
  intros (H1 & H2 & H3 & H4 & H5 & H6 & H7 & H8) H. unfold rule_breakout in H.
  pose proof (half_bound _ H5).
  destruct (nonempty highs && (20 <=? length highs)%nat);
    [|injection H as <-; apply grew_by_same; lia].
  apply bind_Ok in H as (high_52w & _ & H).
  apply bind_Ok in H as (ratio_52w & _ & H). cbv zeta in H.
  apply bind_Ok in H as (high_20d & _ & H).
  set (W52 := cfg.(weights).(price_breakout_52w)) in *.
  set (W20 := cfg.(weights).(price_breakout_20d)) in *.
  match type of H with
  | (if _ then Ok (fire _ _ ?a) else _) = _ =>
      assert (Hfirst : grew_by 1 W52 acc a)
  end.
  { destruct (Py.Qgeb ratio_52w (98 # 100)); [apply grew_by_fire; lia|].
    destruct (Py.Qgeb ratio_52w (92 # 100)); [apply grew_by_fire; lia | apply grew_by_same; lia]. }
  change 2%nat with (1 + 1)%nat.
  eapply grew_by_trans; [exact Hfirst|].
  destruct (Py.Qgeb price (high_20d * (99 # 100))); injection H as <-;
    [apply grew_by_fire; lia | apply grew_by_same; lia].
Qed.

Lemma run_rules_accounting cfg closes volumes highs price avg tags total trend :
  nonnegative cfg.(weights) ->
  run_rules cfg closes volumes highs price avg = Ok (tags, total, trend) ->
  (length tags <= 8)%nat
  /\ (-10 <= total <= score_ceiling cfg.(weights))%Z
  /\ (tags = [] -> total <= 0)%Z.
Proof.
  intros Hw H. unfold run_rules in H.
  apply bind_Ok in H as (a1 & E1 & H). apply (rule_ma_grows _ _ _ _ Hw) in E1.
  apply bind_Ok in H as (a2 & E2 & H). apply (rule_macd_grows _ _ _ _ Hw) in E2.
  apply bind_Ok in H as (a3 & E3 & H). apply (rule_rsi_grows _ _ _ _ Hw) in E3.
  apply bind_Ok in H as (a4 & E4 & H). apply (rule_volume_grows _ _ _ _ _ Hw) in E4.
  apply bind_Ok in H as (a5 & E5 & H). apply (rule_breakout_grows _ _ _ _ _ Hw) in E5.
  apply bind_Ok in H as (a6 & E6 & H). apply (rule_obv_grows _ _ _ _ _ Hw) in E6.
  pose proof (grew_by_trans _ _ _ _ _ _ _
                (grew_by_trans _ _ _ _ _ _ _
                   (grew_by_trans _ _ _ _ _ _ _
                      (grew_by_trans _ _ _ _ _ _ _
                         (grew_by_trans _ _ _ _ _ _ _ E1 E2) E3) E4) E5) E6)
    as (ts & d & -> & Hlen & Hd & Hz).
  cbn [fst snd app Z.add] in *.
  unfold rule_trend in H.
  destruct (trend_total closes cfg.(trend_confirm_days)) as (desc & bonus & Ht & Hb & _).
  rewrite Ht in H. cbn [bind mbind result_bind] in H.
  injection H as <- <- <-.
  unfold score_ceiling.
  assert (Hbonus : (-10 <= bonus <= 15)%Z) by (cbn in Hb; lia).
  destruct (Z.ltb_spec 0 bonus) as [Hpos|Hneg].
  - rewrite length_app. cbn [length]. split; [lia|]. split; [lia|].
    intros Hnil. apply app_eq_nil in Hnil as [_ Hnil]. discriminate.
  - split; [lia|]. split; [lia|]. intros Hnil. rewrite (Hz Hnil). lia.
Qed.

(** X8. With non-negative weights, whenever the seven rules run to their
    end: there are at most 8 tags; the score lies between -10 and the sum of
    the weights that can fire together plus 15; a score above 0 always comes
    with a tag; so under a positive [min_score] the threshold test amounts
    to [score >= min_score] alone. *)
Theorem rule_scores_are_accounted cfg closes volumes highs price avg tags total trend :
  nonnegative cfg.(weights) ->
  run_rules cfg closes volumes highs price avg = Ok (tags, total, trend) ->
  (length tags <= 8)%nat
  /\ (-10 <= total <= score_ceiling cfg.(weights))%Z
  /\ (tags = [] -> (total <= 0)%Z)
  /\ ((0 < cfg.(min_score))%Z ->
      passes_threshold cfg tags total = (cfg.(min_score) <=? total)%Z).
Proof.
  intros Hw H.
  destruct (run_rules_accounting _ _ _ _ _ _ _ _ _ Hw H) as (Hlen & Hb & Hnil).
  split; [exact Hlen|]. split; [exact Hb|]. split; [exact Hnil|].
  intros Hmin. unfold passes_threshold.
  destruct tags as [|t ts]; [|reflexivity].
  cbn [nonempty andb]. symmetry. apply Z.leb_gt. specialize (Hnil eq_refl). lia.
Qed.

Lemma rule_scores_are_accounted_witness :
  match run_rules default_config (Py.not_none Examples.rising.(quote_close))
                  (Py.not_none Examples.rising.(quote_volume))
                  (Py.not_none Examples.rising.(quote_high)) (11431 # 50) 2150000 with
  | Ok (tags, total, _) => (length tags <= 8)%nat /\ (-10 <= total <= 145)%Z
  | Raise _ => False
  end.
Proof.
  destruct (run_rules default_config (Py.not_none Examples.rising.(quote_close))
                      (Py.not_none Examples.rising.(quote_volume))
                      (Py.not_none Examples.rising.(quote_high)) (11431 # 50) 2150000)
    as [[[tags total] trend]|e] eqn:E.
  - assert (Hw : nonnegative default_config.(weights)) by (unfold nonnegative; cbn; lia).
    destruct (rule_scores_are_accounted _ _ _ _ _ _ _ _ _ Hw E) as (Hlen & Hb & _).
    split; [exact Hlen | exact Hb].
  - vm_compute in E. discriminate E.
Defined.

(** ** What an emitted signal guarantees *)

Lemma build_signal_gates now sym data price avg tags total trend sig :
  build_signal now sym data price avg tags total trend = Ok sig ->
  sig.(symbol) = sym /\ sig.(current_price) = price /\ sig.(avg_volume) = avg
  /\ sig.(trend_strength) = trend.
Proof.
  unfold build_signal. intros H.
  apply bind_Ok in H as (prev_close & _ & H).
  apply bind_Ok in H as (change & _ & H).
  apply bind_Ok in H as (vol & _ & H).
  inversion H; subst. cbn. auto.
Qed.

Lemma Qltb_false x y : Py.Qltb x y = false -> y <= x.
Proof.
  intros H. destruct (Qlt_le_dec x y) as [Hlt|Hle]; [|exact Hle].
  apply Qltb_true in Hlt. congruence.
Qed.

Lemma emitted_signal_gates cfg fetch now sym sig :
  analyze_stock cfg fetch now sym = Some sig ->
  exists data,
    fetch sym = Some data
    /\ (60 <= length (Py.not_none data.(quote_close)))%nat
    /\ sig.(symbol) = sym
    /\ cfg.(min_price) <= sig.(current_price) <= cfg.(max_price)
    /\ cfg.(min_avg_volume) <= sig.(avg_volume)
    /\ sig.(signals) <> []
    /\ (cfg.(min_score) <= sig.(score))%Z
    /\ sig.(signal_quality) = check_signal_quality sig.(signals) sig.(score)
    /\ sig.(timestamp) = now
    /\ (nonnegative cfg.(weights) ->
        (length sig.(signals) <= 8)%nat /\ (sig.(score) <= score_ceiling cfg.(weights))%Z).
Proof.
  unfold analyze_stock. intros H.
  destruct (fetch sym) as [data|] eqn:Hf; [|discriminate].
  exists data. split; [reflexivity|].
  destruct (analyze_data cfg now sym data) as [r|e] eqn:Ha; cbn [try_except] in H;
    [subst r | discriminate].
  unfold analyze_data in Ha.
  destruct (Nat.ltb_spec (length (Py.not_none data.(quote_close))) 60) as [|Hlen];
    [discriminate|].
  split; [exact Hlen|].
  apply bind_Ok in Ha as (price & _ & Ha).
  destruct (price_out_of_range cfg price) eqn:Hp; [discriminate|].
  apply bind_Ok in Ha as (avg & _ & Ha).
  destruct (volume_too_low cfg avg) eqn:Hv; [discriminate|].
  apply bind_Ok in Ha as ([[tags total] trend] & Hrules & Ha). cbv beta iota in Ha.
  destruct (passes_threshold cfg tags total) eqn:Hpass; [|discriminate].
  destruct (build_signal now sym data price avg tags total trend) as [sig'|e] eqn:Hb;
    cbn in Ha; [|discriminate].
  injection Ha as ->.
  destruct (build_signal_fields _ _ _ _ _ _ _ _ _ Hb) as (-> & -> & -> & ->).
  destruct (build_signal_gates _ _ _ _ _ _ _ _ _ Hb) as (-> & Hprice & Havg & _).
  apply passes_threshold_spec in Hpass as [Hne Hmin].
  unfold price_out_of_range in Hp. apply orb_false_elim in Hp as [Hlo Hhi].
  apply Qltb_false in Hlo. apply Qltb_false in Hhi. apply Qltb_false in Hv.
  rewrite Hprice, Havg.
  split; [reflexivity|]. split; [split; assumption|].
  split; [assumption|]. split; [assumption|]. split; [assumption|].
  split; [reflexivity|]. split; [reflexivity|].
  intros Hw.
  destruct (run_rules_accounting _ _ _ _ _ _ _ _ _ Hw Hrules) as (H8 & Hc & _).
  split; [exact H8 | lia].
Qed.

(** X9. A signal returned by [analyze_stock] has passed every gate: data
    was fetched and holds at least 60 closes, the signal carries the
    symbol asked for, its price lies in the configured range, its average
    volume reaches the minimum, it has at least one tag and a score of at
    least [min_score], its grade is the grade of its tags and score, and
    its time stamp is the clock reading; with non-negative weights it has
    at most 8 tags and its score does not exceed the ceiling. *)
Theorem emitted_signal_passed_every_gate cfg fetch now sym sig :
  analyze_stock cfg fetch now sym = Some sig ->
  exists data,
    fetch sym = Some data
    /\ (60 <= length (Py.not_none data.(quote_close)))%nat
    /\ sig.(symbol) = sym
    /\ cfg.(min_price) <= sig.(current_price) <= cfg.(max_price)
    /\ cfg.(min_avg_volume) <= sig.(avg_volume)
    /\ sig.(signals) <> []
    /\ (cfg.(min_score) <= sig.(score))%Z
    /\ sig.(signal_quality) = check_signal_quality sig.(signals) sig.(score)
    /\ sig.(timestamp) = now
    /\ (nonnegative cfg.(weights) ->
        (length sig.(signals) <= 8)%nat /\ (sig.(score) <= score_ceiling cfg.(weights))%Z).
Proof. apply emitted_signal_gates. Qed.

Lemma emitted_signal_passed_every_gate_witness :
  exists sig,
    analyze_stock default_config Examples.fetch_rising 0 "AAA" = Some sig
    /\ 5 <= sig.(current_price) <= 1000
    /\ (40 <= sig.(score))%Z.
Proof.
  destruct (analyze_stock default_config Examples.fetch_rising 0 "AAA") as [sig|] eqn:E.
  - exists sig. split; [reflexivity|].
    destruct (emitted_signal_passed_every_gate _ _ _ _ _ E)
      as (data & _ & _ & _ & Hprice & _ & _ & Hscore & _).
    split; [exact Hprice | exact Hscore].
  - vm_compute in E. discriminate E.
Defined.


(** ** Ranking of the screening results *)

Section ranking.
Import Orchestrator.
Context {A : Type} (key : A -> Z).

Lemma insert_desc_filter_eq s x l :
  filter (fun r => key r = s) (insert_desc key x l)
  = filter (fun r => key r = s) (x :: l).
Proof.
  induction l as [|y l IH]; cbn [insert_desc]; [reflexivity|].
  destruct (Z.ltb_spec (key x) (key y)) as [Hlt|Hge]; [|reflexivity].
  rewrite filter_cons, IH, !filter_cons.
  destruct (decide (key y = s)), (decide (key x = s)); try reflexivity. lia.
Qed.

Lemma sort_desc_stable s l :
  filter (fun r => key r = s) (sort_desc key l) = filter (fun r => key r = s) l.
Proof.
  induction l as [|x l IH]; [reflexivity|].
  cbn [sort_desc foldr]. fold (sort_desc key l).
  rewrite insert_desc_filter_eq, !filter_cons, IH. reflexivity.
Qed.

Lemma Sorted_desc_head x l :
  Sorted (fun a b => (key b <= key a)%Z) (x :: l) -> Forall (fun y => (key y <= key x)%Z) l.
Proof.
  intros H. apply Sorted_StronglySorted in H; [|intros a b c; lia].
  apply StronglySorted_inv in H as [_ H]. exact H.
Qed.

Lemma filter_none (P : A -> Prop) `{!forall x, Decision (P x)} l :
  Forall (fun y => ~ P y) l -> filter P l = [].
Proof.
  induction 1 as [|y l Hy _ IH]; [reflexivity|].
  rewrite filter_cons, IH. destruct (decide (P y)); [contradiction | reflexivity].
Qed.

Lemma threshold_prefix t l i r :
  Sorted (fun a b => (key b <= key a)%Z) l ->
  l !! i = Some r ->
  (t <= key r)%Z <-> (i < length (filter (fun y => (t <= key y)%Z) l))%nat.
Proof.
  intros Hs. revert i. induction l as [|x l IH]; intros i Hi; [discriminate|].
  pose proof (Sorted_desc_head _ _ Hs) as Hhead.
  apply Sorted_inv in Hs as [Hs _]. specialize (IH Hs).
  rewrite filter_cons. destruct i as [|i]; cbn in Hi.
  - injection Hi as ->. destruct (decide (t <= key r)%Z) as [Hr|Hr].
    + cbn. split; [lia | intros _; exact Hr].
    + split; [contradiction|]. intros Hlt. exfalso.
      assert (Hnil : filter (fun y => (t <= key y)%Z) l = []).
      { apply filter_none. eapply Forall_impl; [exact Hhead|]. intros y Hy; cbn in *; lia. }
      rewrite Hnil in Hlt. cbn in Hlt. lia.
  - rewrite (IH i Hi). destruct (decide (t <= key x)%Z) as [Hx|Hx]; [cbn; lia|].
    assert (Hnil : filter (fun y => (t <= key y)%Z) l = []).
    { apply filter_none. eapply Forall_impl; [exact Hhead|]. intros y Hy; cbn in *; lia. }
    rewrite Hnil. cbn. lia.
Qed.

End ranking.

(** X10. Whatever order the thread pool completes the tasks in, the list
    returned by [screen_stocks] holds exactly the signals of the input
    symbols, by non-increasing score; signals of equal score stay in the
    order of completion; and the first [high_score_count] entries are
    exactly the ones with a score of at least 70. *)
Theorem screen_results_are_ranked analyze symbols run_order completion_order :
  Permutation symbols completion_order ->
  let '(results, stats) :=
    Orchestrator.screen_stocks analyze symbols run_order completion_order in
  Permutation results (omap analyze symbols)
  /\ Sorted (fun a b => (b.(score) <= a.(score))%Z) results
  /\ (forall s, filter (fun r => r.(score) = s) results
                = filter (fun r => r.(score) = s)
                         (Orchestrator.collect analyze completion_order))
  /\ (0 <= stats.(Orchestrator.high_score_count) <= stats.(Orchestrator.signals_found))%Z
  /\ (forall i r, results !! i = Some r ->
        (70 <= r.(score))%Z <-> (Z.of_nat i < stats.(Orchestrator.high_score_count))%Z).
Proof.
  intros Hdone. unfold Orchestrator.screen_stocks.
  cbn [Orchestrator.high_score_count Orchestrator.signals_found].
  set (results := Orchestrator.collect analyze completion_order).
  pose proof (sort_desc_perm score results) as Hperm.
  pose proof (sort_desc_sorted score results) as Hsorted.
  split; [|split; [|split; [|split]]].
  - rewrite Hperm. unfold results, Orchestrator.collect. rewrite <- Hdone. reflexivity.
  - exact Hsorted.
  - intros s. apply sort_desc_stable.
  - pose proof (length_filter (fun r => (70 <= r.(score))%Z) results). lia.
  - intros i r Hi.
    rewrite (threshold_prefix score 70 _ i r Hsorted Hi).
    assert (Hcount : length (filter (fun y => (70 <= y.(score))%Z)
                                    (Orchestrator.sort_desc score results))
                     = length (filter (fun y => (70 <= y.(score))%Z) results)).
    { apply Permutation_length. rewrite Hperm. reflexivity. }
    rewrite Hcount. lia.
Qed.

Lemma screen_results_are_ranked_witness :
  let '(results, stats) :=
    Orchestrator.screen_stocks (Scorer.analyze_stock default_config Examples.fetch_one 0)
      Examples.universe Examples.run_order Examples.completion_order in
  Sorted (fun a b => (b.(score) <= a.(score))%Z) results
  /\ (0 <= stats.(Orchestrator.high_score_count) <= stats.(Orchestrator.signals_found))%Z.
Proof.
  pose proof (screen_results_are_ranked
                (Scorer.analyze_stock default_config Examples.fetch_one 0)
                Examples.universe Examples.run_order Examples.completion_order) as H.
  destruct (Orchestrator.screen_stocks _ _ _ _) as [results stats].
  destruct H as (_ & H2 & _ & H4 & _).
  - unfold Examples.universe, Examples.completion_order.
    apply perm_trans with (l' := ["AAA"; "CCC"; "BBB"]).
    + apply perm_skip. apply perm_swap.
    + apply perm_swap.
  - split; [exact H2 | exact H4].
Defined.


(** ** Chunks of a long message *)

Section chunks.
Import TelegramNotifier.
Context {Char : Type}.

Lemma firstn_plus (a b : nat) (l : list Char) :
  firstn (a + b) l = firstn a l ++ firstn b (skipn a l).
Proof.
  revert l. induction a as [|a IH]; intros l; [reflexivity|].
  destruct l as [|x l]; cbn; [destruct b; reflexivity|]. f_equal. apply IH.
Qed.

Lemma chunks_concat n (text : list Char) c :
  concat (map (fun i => Py.slice text i (i + n)) (map (fun k => k * n)%nat (seq 0 c)))
  = firstn (c * n) text.
Proof.
  induction c as [|c IH]; [reflexivity|].
  rewrite seq_S, !map_app, concat_app, IH. cbn [map concat plus].
  rewrite app_nil_r. unfold Py.slice.
  replace (c * n + n - c * n)%nat with n by lia.
  replace (S c * n)%nat with (c * n + n)%nat by lia.
  symmetry. apply firstn_plus.
Qed.

Lemma chunk_count n len : (0 < n)%nat ->
  let c := ((len + n - 1) / n)%nat in
  (len <= c * n)%nat /\ forall k, (k < c)%nat -> (k * n < len)%nat.
Proof.
  intros Hn c.
  pose proof (Nat.div_mod_eq (len + n - 1) n) as Hdm.
  pose proof (Nat.mod_upper_bound (len + n - 1) n ltac:(lia)) as Hmod.
  fold c in Hdm. split; [nia|]. intros k Hk. nia.
Qed.

Lemma messages_concat n (text : list Char) : (0 < n)%nat -> concat (messages n text) = text.
Proof.
  intros Hn. unfold messages, range_step. rewrite chunks_concat.
  apply firstn_all2. apply (chunk_count n (length text) Hn).
Qed.

Lemma messages_sizes n (text : list Char) : (0 < n)%nat ->
  Forall (fun m => (1 <= length m <= n)%nat) (messages n text).
Proof.
  intros Hn. unfold messages, range_step.
  apply List.Forall_forall. intros m Hm.
  apply in_map_iff in Hm as (i & <- & Hi).
  apply in_map_iff in Hi as (k & <- & Hk).
  apply in_seq in Hk.
  pose proof (proj2 (chunk_count n (length text) Hn) k ltac:(lia)) as Hlt.
  unfold Py.slice. rewrite length_take, length_drop. lia.
Qed.

Variable post : nat -> list Char -> result Z.

Lemma send_loop_spec k msgs accepted :
  exists done,
    (send_loop post k msgs accepted).2 = accepted ++ done
    /\ done `prefix_of` msgs
    /\ ((send_loop post k msgs accepted).1 = true <-> done = msgs).
Proof.
  revert k accepted. induction msgs as [|msg rest IH]; intros k accepted; cbn [send_loop].
  - exists []. rewrite app_nil_r. repeat split; reflexivity.
  - destruct (post k msg) as [status_code|e].
    + destruct (status_code =? 200)%Z; cbn [negb].
      * destruct (IH (S k) (accepted ++ [msg])) as (done & Hacc & Hpre & Hok).
        exists (msg :: done). rewrite Hacc, <- app_assoc. split; [reflexivity|].
        split; [apply prefix_cons; exact Hpre|].
        rewrite Hok. split; [intros ->; reflexivity | intros H; injection H as ->; reflexivity].
      * exists []. rewrite app_nil_r. split; [reflexivity|].
        split; [apply prefix_nil|]. split; discriminate.
    + exists []. rewrite app_nil_r. split; [reflexivity|].
      split; [apply prefix_nil|]. split; discriminate.
Qed.

End chunks.

(** X11. [send_message] cuts the text into chunks of 1 to 4000 characters
    whose concatenation is the text. The chunks accepted with status 200
    are always a prefix of them; the call answers [True] exactly when all
    of them were accepted, so after a [False] the earlier chunks have
    already been delivered. For an empty text no request is made and the
    answer is [True]. *)
Theorem message_chunks_are_sent_in_order {Char : Type}
        (post : nat -> list Char -> result Z) (text : list Char) :
  let msgs := TelegramNotifier.messages TelegramNotifier.max_length text in
  let '(ok, accepted) := TelegramNotifier.send_message post text in
  concat msgs = text
  /\ Forall (fun m => (1 <= length m <= 4000)%nat) msgs
  /\ accepted `prefix_of` msgs
  /\ (ok = true <-> accepted = msgs)
  /\ (text = [] -> ok = true /\ accepted = []).
Proof.
  cbv zeta. unfold TelegramNotifier.send_message.
  destruct (send_loop_spec post 0 (TelegramNotifier.messages TelegramNotifier.max_length text) [])
    as (done & Hacc & Hpre & Hok).
  destruct (TelegramNotifier.send_loop post 0 _ []) as [ok accepted].
  cbn [fst snd app] in *. subst accepted.
  assert (Hpos : (0 < TelegramNotifier.max_length)%nat)
    by (unfold TelegramNotifier.max_length; lia).
  split; [apply messages_concat; exact Hpos|].
  split; [apply (messages_sizes TelegramNotifier.max_length text Hpos)|].
  split; [exact Hpre|]. split; [exact Hok|].
  intros ->.
  assert (Hnone : TelegramNotifier.messages TelegramNotifier.max_length (@nil Char) = [])
    by reflexivity.
  rewrite Hnone in Hpre, Hok. destruct Hpre as [rest Hrest].
  symmetry in Hrest. apply app_eq_nil in Hrest as [-> _].
  split; [apply Hok; reflexivity | reflexivity].
Qed.

(** ** Saving a batch and updating a record *)

Section store.
Import DataStore Integrity.

Lemma NoDup_snoc {A} (l : list A) x : List.NoDup l -> ~ In x l -> List.NoDup (l ++ [x]).
Proof.
  intros Hl. induction Hl as [|y l Hy Hl IH]; intros Hx; cbn.
  - repeat constructor. intros [].
  - constructor.
    + intros Hin. apply in_app_or in Hin as [Hin|[<-|[]]]; [contradiction|].
      apply Hx. left. reflexivity.
    + apply IH. intros Hin. apply Hx. right. exact Hin.
Qed.

Lemma insert_rows_well_formed json_dumps scan_time db result :
  well_formed db -> well_formed (insert_rows json_dumps scan_time db result).
Proof.
  intros (Hs & Ht & Hsb & Htb). unfold well_formed, insert_rows.
  cbn [screening_results performance_tracking last_screening_id last_tracking_id].
  rewrite !map_app. cbn [map sr_id pt_id].
  split; [|split; [|split]].
  - apply NoDup_snoc; [exact Hs|]. intros Hin. apply in_map_iff in Hin as (s & Hid & Hin).
    rewrite List.Forall_forall in Hsb. specialize (Hsb s Hin). lia.
  - apply NoDup_snoc; [exact Ht|]. intros Hin. apply in_map_iff in Hin as (t & Hid & Hin).
    rewrite List.Forall_forall in Htb. specialize (Htb t Hin). lia.
  - apply Forall_app. split.
    + eapply Forall_impl; [exact Hsb|]. intros s H; cbn in *; lia.
    + repeat constructor; cbn; lia.
  - apply Forall_app. split.
    + eapply Forall_impl; [exact Htb|]. intros t H; cbn in *; lia.
    + repeat constructor; cbn; lia.
Qed.

Lemma fold_insert_appends json_dumps scan_time results db :
  well_formed db ->
  exists new_rows new_tracking,
    (fold_left (insert_rows json_dumps scan_time) results db).(screening_results)
    = db.(screening_results) ++ new_rows
    /\ (fold_left (insert_rows json_dumps scan_time) results db).(performance_tracking)
       = db.(performance_tracking) ++ new_tracking
    /\ Forall2 (stores json_dumps scan_time) results new_rows
    /\ Forall2 tracks new_rows new_tracking
    /\ Forall untouched new_tracking
    /\ well_formed (fold_left (insert_rows json_dumps scan_time) results db).
Proof.
  revert db. induction results as [|result results IH]; intros db Hwf.
  - exists [], []. cbn. rewrite !app_nil_r. repeat split; try constructor; apply Hwf.
  - cbn [fold_left].
    destruct (IH _ (insert_rows_well_formed json_dumps scan_time db result Hwf))
      as (ns & nt & Hs & Ht & Hst & Htr & Hun & Hwf').
    rewrite Hs, Ht. cbn [insert_rows screening_results performance_tracking].
    rewrite <- !app_assoc. cbn [app].
    eexists (_ :: ns), (_ :: nt).
    split; [reflexivity|]. split; [reflexivity|].
    split; [constructor; [|exact Hst]; repeat split|].
    split; [constructor; [|exact Htr]; repeat split|].
    split; [constructor; [|exact Hun]; repeat split | exact Hwf'].
Qed.

(** X12. On a store whose ids are in order and which has ids left for the
    batch: when the volume and the score of every entry fit in 64 bits,
    [save_screening_results] answers the number of entries of the batch
    and appends, in batch order, one screening row per entry holding the
    entry's fields and one tracking row per entry that refers to that
    screening row, repeats its symbol, date, price and score, and has no
    outcome yet; rows already in the store are left as they were, the ids
    stay distinct, and an empty batch changes nothing. When one entry does
    not fit, the call raises [OverflowError] and the store is left as it
    was, without the entries that came before it. *)
Theorem saved_batch_is_appended json_dumps results scan_time db :
  well_formed db ->
  has_room db (length results) ->
  (Forall (fun entry => storable entry = true) results ->
   exists db',
     save_screening_results json_dumps results scan_time db
     = Ok (db', Z.of_nat (length results))
     /\ (results = [] -> db' = db)
     /\ well_formed db'
     /\ exists new_rows new_tracking,
          db'.(screening_results) = db.(screening_results) ++ new_rows
          /\ db'.(performance_tracking) = db.(performance_tracking) ++ new_tracking
          /\ Forall2 (stores json_dumps scan_time) results new_rows
          /\ Forall2 tracks new_rows new_tracking
          /\ Forall untouched new_tracking)
  /\ (Exists (fun entry => storable entry = false) results ->
      save_screening_results json_dumps results scan_time db = Raise OverflowError
      /\ store_after json_dumps results scan_time db = db).
Proof.
  intros Hwf Hroom. split.
  - intros Hfit.
    destruct (fold_insert_appends json_dumps scan_time results db Hwf)
      as (ns & nt & Hs & Ht & Hst & Htr & Hun & Hwf').
    exists (fold_left (insert_rows json_dumps scan_time) results db).
    split; [apply save_Ok; assumption|].
    split; [intros ->; reflexivity|]. split; [exact Hwf'|].
    exists ns, nt. repeat split; assumption.
  - intros Hex. apply save_unfit; assumption.
Qed.

Lemma saved_batch_is_appended_witness :
  (exists db',
     save_screening_results Examples.dumps Examples.two Examples.scan_time empty_db
     = Ok (db', 2%Z)
     /\ well_formed db')
  /\ save_screening_results Examples.dumps (Examples.two ++ [Examples.oversized])
                            Examples.scan_time empty_db
     = Raise OverflowError.
Proof.
  assert (Hwf : well_formed empty_db)
    by (unfold well_formed; cbn; repeat split; constructor).
  split.
  - destruct (saved_batch_is_appended Examples.dumps Examples.two Examples.scan_time empty_db)
      as [H _]; [exact Hwf | unfold has_room; cbn; lia |].
    destruct H as (db' & Hsave & _ & Hwf' & _); [repeat constructor|].
    exists db'. split; [exact Hsave | exact Hwf'].
  - destruct (saved_batch_is_appended Examples.dumps (Examples.two ++ [Examples.oversized])
                Examples.scan_time empty_db)
      as [_ H]; [exact Hwf | unfold has_room; cbn; lia |].
    apply H. do 2 apply Exists_cons_tl. apply Exists_cons_hd. reflexivity.
Defined.

Lemma DB_eq (a b : DB) :
  a.(screening_results) = b.(screening_results) ->
  a.(performance_tracking) = b.(performance_tracking) ->
  a.(last_screening_id) = b.(last_screening_id) ->
  a.(last_tracking_id) = b.(last_tracking_id) -> a = b.
Proof. destruct a, b; cbn; intros; subst; reflexivity. Qed.

Lemma update_tracking_well_formed tracking_id data now db :
  well_formed db -> well_formed (update_tracking tracking_id data now db).
Proof.
  intros (Hs & Ht & Hsb & Htb). unfold well_formed, update_tracking.
  cbn [screening_results performance_tracking last_screening_id last_tracking_id].
  assert (Hids : map pt_id (map (fun row => if (row.(pt_id) =? tracking_id)%Z
                                            then set_tracking data now row else row)
                                (performance_tracking db))
                 = map pt_id (performance_tracking db)).
  { rewrite map_map. apply map_ext. intros row.
    destruct (pt_id row =? tracking_id)%Z; reflexivity. }
  rewrite Hids. split; [exact Hs|]. split; [exact Ht|]. split; [exact Hsb|].
  apply Forall_map. eapply Forall_impl; [exact Htb|]. intros row H.
  destruct (pt_id row =? tracking_id)%Z; exact H.
Qed.

Lemma set_tracking_again data now later row :
  set_tracking data later (set_tracking data now row) = set_tracking data later row.
Proof.
  unfold set_tracking. cbn.
  destruct data as [a1 a2 a3 a4 a5 a6 a7 a8 a9 a10 a11]. cbn.
  destruct a1, a2, a3, a4, a5, a6, a7, a8, a9, a10; reflexivity.
Qed.

(** Two updates of different ids, in either order. *)
Lemma update_tracking_swap id1 data1 now1 id2 data2 now2 db :
  id2 <> id1 ->
  update_tracking id2 data2 now2 (update_tracking id1 data1 now1 db)
  = update_tracking id1 data1 now1 (update_tracking id2 data2 now2 db).
Proof.
  intros Hne. apply DB_eq; try reflexivity.
  unfold update_tracking. cbn [performance_tracking].
  rewrite !map_map. apply map_ext. intros row.
  destruct (Z.eqb_spec (pt_id row) id1) as [E1|E1];
    destruct (Z.eqb_spec (pt_id row) id2) as [E2|E2]; cbn [set_tracking pt_id].
  - congruence.
  - destruct (Z.eqb_spec (pt_id row) id2); [contradiction|].
    destruct (Z.eqb_spec (pt_id row) id1); [reflexivity | contradiction].
  - destruct (Z.eqb_spec (pt_id row) id2); [|contradiction].
    destruct (Z.eqb_spec (pt_id row) id1); [contradiction | reflexivity].
  - destruct (Z.eqb_spec (pt_id row) id2); [contradiction|].
    destruct (Z.eqb_spec (pt_id row) id1); [contradiction | reflexivity].
Qed.

(** The time of an update shows in [updated_at] only. *)
Lemma forget_update_time tracking_id data now later db :
  forget_times (update_tracking tracking_id data later db)
  = forget_times (update_tracking tracking_id data now db).
Proof.
  apply DB_eq; try reflexivity. unfold forget_times, update_tracking.
  cbn [performance_tracking]. rewrite !map_map. apply map_ext. intros row.
  destruct (pt_id row =? tracking_id)%Z; reflexivity.
Qed.

Lemma forget_set_tracking_eq data now r1 r2 :
  forget_time r1 = forget_time r2 ->
  forget_time (set_tracking data now r1) = forget_time (set_tracking data now r2).
Proof.
  destruct r1, r2. unfold forget_time, set_tracking. cbn.
  intros H. inversion H; subst. reflexivity.
Qed.

Lemma forget_update tracking_id data now db1 db2 :
  forget_times db1 = forget_times db2 ->
  forget_times (update_tracking tracking_id data now db1)
  = forget_times (update_tracking tracking_id data now db2).
Proof.
  intros H. apply DB_eq.
  - apply (f_equal screening_results) in H. exact H.
  - apply (f_equal performance_tracking) in H. unfold forget_times, update_tracking in *.
    cbn [performance_tracking] in *. rewrite !map_map.
    revert H. generalize (performance_tracking db1) (performance_tracking db2).
    induction l as [|r1 l1 IH]; intros [|r2 l2] H; try discriminate H; [reflexivity|].
    cbn [map] in *.
    assert (Hr : forget_time r1 = forget_time r2)
      by (apply (f_equal (hd (forget_time r1))) in H; exact H).
    assert (Hl : map forget_time l1 = map forget_time l2)
      by (apply (f_equal (@tl _)) in H; exact H).
    f_equal; [|apply IH; exact Hl].
    assert (Hid : pt_id r1 = pt_id r2) by (apply (f_equal pt_id) in Hr; exact Hr).
    rewrite Hid. destruct (pt_id r2 =? tracking_id)%Z; [|exact Hr].
    apply forget_set_tracking_eq. exact Hr.
  - apply (f_equal last_screening_id) in H. exact H.
  - apply (f_equal last_tracking_id) in H. exact H.
Qed.

(** X13. [update_tracking], for an id and a success flag that fit in 64
    bits, writes to the rows with the given id and to nothing else: the
    screening table, the ids and every other tracking row are as before,
    and an id that is not in the table changes nothing and is not an
    error. The row written carries the time of the update in
    [updated_at], the column that [get_pending_tracking] compares with
    yesterday's date. So the same update repeated at a later time leaves
    the store that a single update at the later time leaves: the outcome
    fields are those of the first update and only [updated_at] moves.
    Updates of two different ids give the same store in either order as
    long as each keeps its time; made one after the other with the clock
    running, the two orders agree on everything but the [updated_at] of
    the two rows. *)
Theorem update_tracking_touches_one_record tracking_id data now db :
  bindable tracking_id data = true ->
  let db' := update_tracking tracking_id data now db in
  db'.(screening_results) = db.(screening_results)
  /\ map pt_id db'.(performance_tracking) = map pt_id db.(performance_tracking)
  /\ (forall id, id <> tracking_id -> tracking_row db' id = tracking_row db id)
  /\ (tracking_row db tracking_id = None -> db' = db)
  /\ (forall row, tracking_row db' tracking_id = Some row -> row.(updated_at) = Some now)
  /\ (forall later,
        update_tracking tracking_id data later db' = update_tracking tracking_id data later db
        /\ forget_times (update_tracking tracking_id data later db') = forget_times db')
  /\ (forall id2 data2 now2, id2 <> tracking_id ->
        update_tracking id2 data2 now2 db'
        = update_tracking tracking_id data now (update_tracking id2 data2 now2 db))
  /\ (forall id2 data2 later, id2 <> tracking_id ->
        forget_times (update_tracking id2 data2 later db')
        = forget_times (update_tracking tracking_id data later
                                        (update_tracking id2 data2 now db)))
  /\ (well_formed db -> well_formed db').
Proof.
  intros _. cbv zeta.
  split; [reflexivity|]. split; [|split; [|split; [|split; [|split; [|split; [|split]]]]]].
  - unfold update_tracking. cbn [performance_tracking]. rewrite map_map.
    apply map_ext. intros row. destruct (pt_id row =? tracking_id)%Z; reflexivity.
  - intros id Hid. rewrite tracking_row_update.
    destruct (tracking_row db id) as [row|] eqn:E; [|reflexivity]. cbn.
    unfold tracking_row in E. apply find_some in E as [_ E]. apply Z.eqb_eq in E.
    destruct (Z.eqb_spec (pt_id row) tracking_id); [congruence | reflexivity].
  - intros Hnone. apply DB_eq; try reflexivity.
    unfold update_tracking. cbn [performance_tracking].
    unfold tracking_row in Hnone.
    rewrite <- (map_id (performance_tracking db)) at 2. apply map_ext_in.
    intros row Hin. pose proof (find_none _ _ Hnone row Hin) as Hne. cbn in Hne.
    rewrite Hne. reflexivity.
  - intros row. rewrite tracking_row_update.
    destruct (tracking_row db tracking_id) as [row0|] eqn:E; [|discriminate]. cbn.
    unfold tracking_row in E. apply find_some in E as [_ E]. rewrite E.
    intros H. inversion H; subst. reflexivity.
  - intros later.
    assert (Hagain : update_tracking tracking_id data later
                       (update_tracking tracking_id data now db)
                     = update_tracking tracking_id data later db).
    { apply DB_eq; try reflexivity. unfold update_tracking. cbn [performance_tracking].
      rewrite map_map. apply map_ext. intros row.
      destruct (pt_id row =? tracking_id)%Z eqn:E.
      - cbn [set_tracking pt_id]. rewrite E. apply set_tracking_again.
      - rewrite E. reflexivity. }
    split; [exact Hagain|]. rewrite Hagain. apply forget_update_time.
  - intros id2 data2 now2 Hne. apply update_tracking_swap. exact Hne.
  - intros id2 data2 later Hne.
    rewrite (update_tracking_swap tracking_id data now id2 data2 later db Hne).
    rewrite (forget_update_time tracking_id data now later
               (update_tracking id2 data2 now db)).
    apply forget_update. apply forget_update_time.
  - apply update_tracking_well_formed.
Qed.

Lemma update_tracking_touches_one_record_witness :
  let db' := update_tracking 1 Examples.no_news 12 Examples.db0 in
  (forall row, tracking_row db' 1 = Some row -> row.(updated_at) = Some 12%Z)
  /\ update_tracking 1 Examples.no_news 19 db' = update_tracking 1 Examples.no_news 19 Examples.db0
  /\ update_tracking 1 Examples.no_news 19 db' <> db'.
Proof.
  destruct (update_tracking_touches_one_record 1 Examples.no_news 12 Examples.db0 eq_refl)
    as (_ & _ & _ & _ & Htime & Hlater & _).
  cbv zeta. split; [exact Htime|]. split; [apply (Hlater 19%Z)|].
  intros H. apply (f_equal (fun db => omap updated_at (performance_tracking db))) in H.
  vm_compute in H. discriminate H.
Defined.

End store.

(** ** Outcome tracking *)

Section tracker.
Import DataStore PerformanceTracker TrackingPass Integrity.

Lemma find_signal_idx_spec dates signal_date i0 :
  match find_signal_idx dates signal_date i0 with
  | Some i =>
      (i0 <= i)%nat
      /\ (exists d, dates !! (i - i0)%nat = Some d /\ (signal_date <= d)%Z)
      /\ Forall (fun d => (d < signal_date)%Z) (take (i - i0) dates)
  | None => Forall (fun d => (d < signal_date)%Z) dates
  end.
Proof.
  revert i0. induction dates as [|d dates IH]; intros i0; cbn [find_signal_idx].
  - constructor.
  - destruct (Z.leb_spec signal_date d) as [Hle|Hlt].
    + rewrite Nat.sub_diag. split; [lia|]. split; [exists d; split; [reflexivity | exact Hle]|].
      constructor.
    + specialize (IH (S i0)). destruct (find_signal_idx dates signal_date (S i0)) as [i|].
      * destruct IH as (Hi & (d' & Hd' & Hle) & Hbefore).
        replace (i - i0)%nat with (S (i - S i0)) by lia.
        split; [lia|]. split; [exists d'; split; [exact Hd' | exact Hle]|].
        cbn [take]. constructor; [exact Hlt | exact Hbefore].
      * constructor; [exact Hlt | exact IH].
Qed.

(** X14. The signal index found by [_update_single_tracking] is the first
    bar dated on or after the signal date: every bar before it is earlier
    than the signal date; and no index is found exactly when every bar
    is earlier than the signal date (then the record is left alone). *)
Theorem signal_index_is_the_first_bar dates signal_date :
  match find_signal_idx dates signal_date 0 with
  | Some i =>
      (exists d, dates !! i = Some d /\ (signal_date <= d)%Z)
      /\ Forall (fun d => (d < signal_date)%Z) (take i dates)
  | None => Forall (fun d => (d < signal_date)%Z) dates
  end.
Proof.
  pose proof (find_signal_idx_spec dates signal_date 0) as H.
  destruct (find_signal_idx dates signal_date 0) as [i|]; [|exact H].
  rewrite Nat.sub_0_r in H. destruct H as (_ & H1 & H2). split; assumption.
Qed.

Lemma pct_change_total x signal_price :
  ~ signal_price == 0 -> exists r, pct_change x signal_price = Ok r.
Proof.
  intros H. unfold pct_change.
  destruct (div_total (x - signal_price) signal_price H) as [r ->]. cbn. eauto.
Qed.

Lemma pct_change_Ok x signal_price r :
  pct_change x signal_price = Ok r ->
  ~ signal_price == 0 /\ r == (x - signal_price) / signal_price * 100.
Proof.
  unfold pct_change. intros H. apply bind_Ok in H as (q & Hq & H).
  apply div_Ok in Hq as [Hne Hq]. injection H as <-.
  split; [exact Hne|]. rewrite Qred_correct, Hq. reflexivity.
Qed.

Lemma day_n_Ok closes signal_idx n signal_price p c :
  day_n closes signal_idx n signal_price = Ok (p, c) ->
  day_filled closes signal_idx n signal_price p c.
Proof.
  unfold day_n, day_filled. intros H.
  destruct (Nat.ltb_spec (signal_idx + n) (length closes)) as [Hlt|_];
    [|injection H as <- <-; exact I].
  destruct (nth (signal_idx + n) closes None) as [q|] eqn:En; cbn [truthy] in H;
    [|injection H as <- <-; exact I].
  destruct (Qeq_bool q 0) eqn:Eq; [injection H as <- <-; exact I|].
  apply bind_Ok in H as (change & Hc & H). injection H as <- <-.
  apply pct_change_Ok in Hc as [Hne Hc].
  apply Qeq_bool_neq in Eq. repeat split; assumption.
Qed.

Lemma day_n_total closes signal_idx n signal_price :
  ~ signal_price == 0 -> exists pc, day_n closes signal_idx n signal_price = Ok pc.
Proof.
  intros Hne. unfold day_n.
  destruct (signal_idx + n <? length closes)%nat; [|eauto].
  destruct (truthy (nth (signal_idx + n) closes None)) as [c|]; [|eauto].
  destruct (pct_change_total c signal_price Hne) as [r ->]. cbn. eauto.
Qed.

Lemma max_gain_total (hs : list Q) signal_price :
  ~ signal_price == 0 ->
  exists g, (match hs with
             | [] => Ok None
             | _ => bind (Py.max hs) (fun max_high => Some <$> pct_change max_high signal_price)
             end) = Ok g.
Proof.
  intros Hne. destruct hs as [|h hs]; [eauto|]. cbn [Py.max bind mbind result_bind].
  destruct (pct_change_total (fold_left Py.maxQ hs h) signal_price Hne) as [r ->]. cbn. eauto.
Qed.

Lemma max_loss_total (ls : list Q) signal_price :
  ~ signal_price == 0 ->
  exists g, (match ls with
             | [] => Ok None
             | _ => bind (Py.min ls) (fun min_low => Some <$> pct_change min_low signal_price)
             end) = Ok g.
Proof.
  intros Hne. destruct ls as [|l ls]; [eauto|]. cbn [Py.min bind mbind result_bind].
  destruct (pct_change_total (fold_left Py.minQ ls l) signal_price Hne) as [r ->]. cbn. eauto.
Qed.

Lemma extreme_Ok (xs : list Q) (pick : list Q -> result Q) signal_price g :
  (match xs with
   | [] => Ok None
   | _ => bind (pick xs) (fun x => Some <$> pct_change x signal_price)
   end) = Ok (Some g) -> ~ signal_price == 0.
Proof.
  destruct xs as [|x xs]; [discriminate|]. intros H.
  apply bind_Ok in H as (m & _ & H).
  destruct (pct_change m signal_price) as [r|e] eqn:E; [|discriminate].
  apply pct_change_Ok in E as [Hne _]. exact Hne.
Qed.

Lemma tracking_data_total chart signal_idx signal_price :
  ~ signal_price == 0 -> exists data, tracking_data chart signal_idx signal_price = Ok data.
Proof.
  intros Hne. unfold tracking_data.
  destruct (day_n_total chart.(closes) signal_idx 1 signal_price Hne) as [[p1 c1] ->].
  destruct (day_n_total chart.(closes) signal_idx 3 signal_price Hne) as [[p3 c3] ->].
  destruct (day_n_total chart.(closes) signal_idx 5 signal_price Hne) as [[p5 c5] ->].
  destruct (day_n_total chart.(closes) signal_idx 7 signal_price Hne) as [[p7 c7] ->].
  cbn [bind mbind result_bind]. cbv zeta.
  match goal with
  | |- context [bind (match ?hs with [] => _ | _ => _ end) _] =>
      destruct (max_gain_total hs signal_price Hne) as [g ->]
  end.
  cbn [bind mbind result_bind].
  match goal with
  | |- context [bind (match ?ls with [] => _ | _ => _ end) _] =>
      destruct (max_loss_total ls signal_price Hne) as [l ->]
  end.
  cbn [bind mbind result_bind]. eauto.
Qed.

Lemma day_filled_zero closes signal_idx n signal_price p c :
  signal_price == 0 -> day_filled closes signal_idx n signal_price p c -> p = None /\ c = None.
Proof.
  intros Hz. unfold day_filled. destruct p, c; tauto.
Qed.

(** X15. The outcome data built for a record. With a signal price other
    than 0 it is always built. Each day-N price comes with its change and
    the other way round, is the close of bar [signal_idx + N], which
    exists and is not 0, and the change is the gain over the signal price in
    percent. The verdict is 1 or 0 by the day-7 change against 3 when that
    change is there, else by the maximum gain against 5 when that is
    there, and absent only when both are absent. With a signal price of
    0 the data can only be built empty: any bar to record makes the
    computation raise. *)
Theorem outcome_data_is_consistent chart signal_idx signal_price :
  (~ signal_price == 0 -> exists data, tracking_data chart signal_idx signal_price = Ok data)
  /\ forall data, tracking_data chart signal_idx signal_price = Ok data ->
       day_filled chart.(closes) signal_idx 1 signal_price
                  data.(d_day1_price) data.(d_day1_change)
       /\ day_filled chart.(closes) signal_idx 3 signal_price
                     data.(d_day3_price) data.(d_day3_change)
       /\ day_filled chart.(closes) signal_idx 5 signal_price
                     data.(d_day5_price) data.(d_day5_change)
       /\ day_filled chart.(closes) signal_idx 7 signal_price
                     data.(d_day7_price) data.(d_day7_change)
       /\ (data.(d_is_successful) = None
           <-> data.(d_day7_change) = None /\ data.(d_max_gain) = None)
       /\ (forall c, data.(d_day7_change) = Some c ->
             data.(d_is_successful) = Some (if Py.Qgeb c 3 then 1 else 0)%Z)
       /\ (data.(d_day7_change) = None -> forall g, data.(d_max_gain) = Some g ->
             data.(d_is_successful) = Some (if Py.Qgeb g 5 then 1 else 0)%Z)
       /\ (signal_price == 0 -> no_data data).
Proof.
  split; [apply tracking_data_total|].
  intros data H. unfold tracking_data in H.
  apply bind_Ok in H as ([p1 c1] & H1 & H). apply day_n_Ok in H1.
  apply bind_Ok in H as ([p3 c3] & H3 & H). apply day_n_Ok in H3.
  apply bind_Ok in H as ([p5 c5] & H5 & H). apply day_n_Ok in H5.
  apply bind_Ok in H as ([p7 c7] & H7 & H). apply day_n_Ok in H7.
  cbv zeta in H.
  apply bind_Ok in H as (gain & Hg & H).
  apply bind_Ok in H as (loss & Hl & H).
  injection H as <-.
  cbn [d_day1_price d_day1_change d_day3_price d_day3_change d_day5_price d_day5_change
       d_day7_price d_day7_change d_max_gain d_max_loss d_is_successful].
  split; [exact H1|]. split; [exact H3|]. split; [exact H5|]. split; [exact H7|].
  split; [|split; [|split]].
  - destruct c7 as [c|]; [split; [discriminate | intros [? _]; discriminate]|].
    destruct gain as [g|]; [split; [discriminate | intros [_ ?]; discriminate]|].
    split; auto.
  - intros c ->. reflexivity.
  - intros -> g ->. reflexivity.
  - intros Hz. unfold no_data.
    cbn [d_day1_price d_day1_change d_day3_price d_day3_change d_day5_price d_day5_change
         d_day7_price d_day7_change d_max_gain d_max_loss d_is_successful].
    destruct (day_filled_zero _ _ _ _ _ _ Hz H1) as [-> ->].
    destruct (day_filled_zero _ _ _ _ _ _ Hz H3) as [-> ->].
    destruct (day_filled_zero _ _ _ _ _ _ Hz H5) as [-> ->].
    destruct (day_filled_zero _ _ _ _ _ _ Hz H7) as [-> ->].
    assert (gain = None) as ->.
    { destruct gain as [g|]; [|reflexivity]. exfalso.
      exact (extreme_Ok _ Py.max _ _ Hg Hz). }
    assert (loss = None) as ->.
    { destruct loss as [l|]; [|reflexivity]. exfalso.
      exact (extreme_Ok _ Py.min _ _ Hl Hz). }
    repeat split.
Qed.

End tracker.

Section tracking_pass.
Import DataStore PerformanceTracker TrackingPass Integrity.

Lemma update_one_cases record response now db :
  update_one record response now db = db
  \/ exists data, update_one record response now db = update_tracking record.(pt_id) data now db.
Proof.
  unfold update_one, update_single_tracking.
  destruct response as [chart|]; [|left; reflexivity].
  destruct (negb (Scorer.nonempty (dates chart)) || negb (Scorer.nonempty (closes chart)));
    [left; reflexivity|].
  destruct (find_signal_idx (dates chart) (signal_date record) 0) as [signal_idx|];
    [|left; reflexivity].
  destruct (tracking_data chart signal_idx (signal_price record)) as [data|e];
    [right; exists data; reflexivity | left; reflexivity].
Qed.

Lemma update_tracking_other tracking_id data now db id :
  id <> tracking_id ->
  tracking_row (update_tracking tracking_id data now db) id = tracking_row db id.
Proof.
  intros Hid. rewrite tracking_row_update.
  destruct (tracking_row db id) as [row|] eqn:E; [|reflexivity]. cbn.
  unfold tracking_row in E. apply find_some in E as [_ E]. apply Z.eqb_eq in E.
  destruct (Z.eqb_spec (pt_id row) tracking_id); [congruence | reflexivity].
Qed.

Lemma pass_frame (respond : Z -> option Chart) (clock : Z -> Z) records db id :
  Forall (fun record => record.(pt_id) <> id) records ->
  let db' := fold_left (fun db record =>
                          update_one record (respond record.(pt_id)) (clock record.(pt_id)) db)
                       records db in
  tracking_row db' id = tracking_row db id.
Proof.
  cbv zeta. intros H. revert db. induction H as [|record records Hne _ IH]; intros db;
    [reflexivity|].
  cbn [fold_left]. rewrite IH.
  destruct (update_one_cases record (respond (pt_id record)) (clock (pt_id record)) db)
    as [->|[data ->]]; [reflexivity|].
  apply update_tracking_other. congruence.
Qed.

Lemma pass_keeps (respond : Z -> option Chart) (clock : Z -> Z) records db :
  let db' := fold_left (fun db record =>
                          update_one record (respond record.(pt_id)) (clock record.(pt_id)) db)
                       records db in
  db'.(screening_results) = db.(screening_results)
  /\ map pt_id db'.(performance_tracking) = map pt_id db.(performance_tracking)
  /\ forall id row, tracking_row db id = Some row ->
       exists row', tracking_row db' id = Some row' /\ fills_kept row row'.
Proof.
  cbv zeta. revert db. induction records as [|record records IH]; intros db.
  - split; [reflexivity|]. split; [reflexivity|]. intros id row H.
    exists row. split; [exact H | apply fills_kept_refl].
  - cbn [fold_left].
    set (db1 := update_one record (respond (pt_id record)) (clock (pt_id record)) db).
    destruct (IH db1) as (Hs & Hi & Hk).
    assert (H1 : db1.(screening_results) = db.(screening_results)
                 /\ map pt_id db1.(performance_tracking) = map pt_id db.(performance_tracking)
                 /\ forall id row, tracking_row db id = Some row ->
                      exists row', tracking_row db1 id = Some row' /\ fills_kept row row').
    { unfold db1.
      destruct (update_one_cases record (respond (pt_id record)) (clock (pt_id record)) db)
        as [->|[data ->]].
      - split; [reflexivity|]. split; [reflexivity|]. intros id row H.
        exists row. split; [exact H | apply fills_kept_refl].
      - split; [reflexivity|]. split.
        + unfold update_tracking. cbn [performance_tracking]. rewrite map_map.
          apply map_ext. intros row. destruct (pt_id row =? pt_id record)%Z; reflexivity.
        + intros id row H. apply update_tracking_keeps. exact H. }
    destruct H1 as (Hs1 & Hi1 & Hk1).
    split; [congruence|]. split; [congruence|].
    intros id row H. destruct (Hk1 id row H) as (row1 & Hr1 & K1).
    destruct (Hk id row1 Hr1) as (row2 & Hr2 & K2).
    exists row2. split; [exact Hr2 | eapply fills_kept_trans; eassumption].
Qed.

(** X16. A pass of [update_all_tracking] only writes to the records that
    [get_pending_tracking] selects. On a store whose ids are distinct, a
    record that is not pending (older than 14 days, or with its day-7
    price filled and updated since the day before) is exactly as before,
    whatever the collaborator answers; the screening table and the ids
    are as before; and no outcome field that was set is lost. *)
Theorem closed_records_are_left_alone (day_of : Z -> Z) today sql_today respond clock db :
  well_formed db ->
  let db' := update_all_tracking day_of today sql_today respond clock db in
  db'.(screening_results) = db.(screening_results)
  /\ map pt_id db'.(performance_tracking) = map pt_id db.(performance_tracking)
  /\ (forall id row, tracking_row db id = Some row ->
        exists row', tracking_row db' id = Some row' /\ fills_kept row row')
  /\ (forall id row, tracking_row db id = Some row ->
        is_pending day_of (today - 14) sql_today row = false ->
        tracking_row db' id = Some row).
Proof.
  intros (_ & Hnd & _) db'. unfold db', update_all_tracking. cbv zeta.
  destruct (pass_keeps respond clock (get_pending_tracking day_of 14 today sql_today db) db)
    as (Hs & Hi & Hk).
  split; [exact Hs|]. split; [exact Hi|]. split; [exact Hk|].
  intros id row Hrow Hclosed. rewrite <- Hrow. apply pass_frame.
  apply List.Forall_forall. intros record Hin Hid.
  unfold get_pending_tracking in Hin. apply filter_In in Hin as [Hin Hpending].
  unfold tracking_row in Hrow. apply find_some in Hrow as [Hin' Hid'].
  apply Z.eqb_eq in Hid'.
  assert (record = row)
    by (apply (NoDup_map_injective pt_id _ _ _ Hnd Hin Hin'); congruence).
  subst record. congruence.
Qed.

Lemma closed_records_are_left_alone_witness :
  tracking_row (update_all_tracking (fun t => t) 20 20
                  (fun _ => Some Examples.chart_gap) (fun _ => 20%Z) Examples.db_full) 1
  = tracking_row Examples.db_full 1.
Proof.
  destruct (tracking_row Examples.db_full 1) as [row|] eqn:E.
  - destruct (closed_records_are_left_alone (fun t => t) 20 20
                (fun _ => Some Examples.chart_gap) (fun _ => 20%Z) Examples.db_full)
      as (_ & _ & _ & H).
    + unfold well_formed. vm_compute. split; [|split; [|split]].
      * constructor; [intros [] | constructor].
      * constructor; [intros [] | constructor].
      * repeat constructor. intros H. discriminate H.
      * repeat constructor. intros H. discriminate H.
    + apply (H 1%Z row E). vm_compute in E. injection E as <-. vm_compute. reflexivity.
  - vm_compute in E. discriminate E.
Defined.

End tracking_pass.

(** ** Tracking statistics *)

Section stats.
Import DataStore TrackingStats.

Lemma filter_length_le {A} (f : A -> bool) l : (length (List.filter f l) <= length l)%nat.
Proof.
  induction l as [|x l IH]; cbn; [lia|]. destruct (f x); cbn; lia.
Qed.

Lemma accuracy_spec rows :
  exists a,
    accuracy (SUM_successful rows) (Z.of_nat (length rows)) = Ok a
    /\ 0 <= a <= 100
    /\ (rows = [] -> a = 0).
Proof.
  unfold accuracy. destruct rows as [|row rows].
  - cbn. exists 0. repeat split; lra.
  - destruct (Z.eqb_spec (Z.of_nat (length (row :: rows))) 0) as [E|_]; [cbn in E; lia|].
    cbn [SUM_successful].
    set (s := Z.of_nat (length (List.filter succeeded (row :: rows)))).
    set (t := Z.of_nat (length (row :: rows))).
    assert (Hs : (0 <= s <= t)%Z)
      by (unfold s, t; pose proof (filter_length_le succeeded (row :: rows)); lia).
    assert (Ht : (0 < t)%Z) by (unfold t; cbn [length]; lia).
    assert (Htq : 0 < inject_Z t) by (change 0 with (inject_Z 0); rewrite <- Zlt_Qlt; exact Ht).
    assert (Hsq : 0 <= inject_Z s <= inject_Z t)
      by (split; [change 0 with (inject_Z 0)|]; rewrite <- Zle_Qle; lia).
    destruct (div_total (inject_Z s) (inject_Z t)) as [r Hr]; [lra|].
    rewrite Hr. cbn [bind mbind result_bind]. eexists. split; [reflexivity|].
    apply div_Ok in Hr as [_ Hr]. split; [|discriminate].
    rewrite Qred_correct, Hr.
    assert (H1 : 0 <= inject_Z s / inject_Z t) by (apply quot_nonneg; lra).
    assert (H2 : inject_Z s / inject_Z t <= 1).
    { apply Qle_shift_div_r; [exact Htq | lra]. }
    split; lra.
Qed.

Lemma score_group_cases row :
  score_group row = "high" \/ score_group row = "medium" \/ score_group row = "low".
Proof.
  unfold score_group. destruct (70 <=? signal_score row)%Z; [auto|].
  destruct (40 <=? signal_score row)%Z; auto.
Qed.

Lemma group_partition (rows : list TrackingRow) :
  length rows
  = (length (group_rows rows "high") + length (group_rows rows "medium")
     + length (group_rows rows "low"))%nat.
Proof.
  unfold group_rows. induction rows as [|row rows IH]; [reflexivity|].
  cbn [List.filter].
  destruct (score_group_cases row) as [E|[E|E]]; rewrite E.
  - change ("high" =? "high")%string with true.
    change ("high" =? "medium")%string with false.
    change ("high" =? "low")%string with false. cbn [length]. lia.
  - change ("medium" =? "high")%string with false.
    change ("medium" =? "medium")%string with true.
    change ("medium" =? "low")%string with false. cbn [length]. lia.
  - change ("low" =? "high")%string with false.
    change ("low" =? "medium")%string with false.
    change ("low" =? "low")%string with true. cbn [length]. lia.
Qed.

Lemma group_rows_filter (f : TrackingRow -> bool) rows group :
  List.filter f (group_rows rows group) = group_rows (List.filter f rows) group.
Proof.
  unfold group_rows. induction rows as [|row rows IH]; [reflexivity|].
  cbn [List.filter].
  destruct (String.eqb (score_group row) group) eqn:E, (f row) eqn:F; cbn [List.filter];
    rewrite ?E, ?F, IH; reflexivity.
Qed.

Lemma group_entry_spec rows :
  rows <> [] ->
  exists entry,
    group_entry rows = Ok entry
    /\ entry.(g_total) = Z.of_nat (length rows)
    /\ entry.(g_successful) = Some (Z.of_nat (length (List.filter succeeded rows)))
    /\ 0 <= entry.(g_accuracy) <= 100.
Proof.
  intros Hne. unfold group_entry. cbv zeta.
  destruct (accuracy_spec rows) as (a & -> & Ha & _). cbn [bind mbind result_bind].
  eexists. split; [reflexivity|]. cbn.
  destruct rows; [contradiction|]. repeat split; apply Ha.
Qed.

Lemma add_group_spec rows m group by_score :
  m = Ok by_score ->
  exists by_score',
    add_group rows m group = Ok by_score'
    /\ (forall k, k <> group -> by_score' !! k = by_score !! k)
    /\ (by_score !! group = None -> group_view rows group (by_score' !! group)).
Proof.
  intros ->. unfold add_group, group_view. cbn [bind mbind result_bind].
  destruct (group_rows rows group) as [|row members] eqn:E.
  - exists by_score. split; [reflexivity|]. split; [reflexivity | auto].
  - destruct (group_entry_spec (row :: members)) as (entry & He & _); [discriminate|].
    rewrite He. cbn [bind mbind result_bind].
    eexists. split; [reflexivity|]. split.
    + intros k Hk. apply lookup_insert_ne. congruence.
    + intros _. exists entry. split; [apply lookup_insert_eq | reflexivity].
Qed.

Lemma by_score_spec rows :
  exists by_score,
    fold_left (add_group rows) ["high"; "medium"; "low"] (Ok ∅) = Ok by_score
    /\ group_view rows "high" (by_score !! "high")
    /\ group_view rows "medium" (by_score !! "medium")
    /\ group_view rows "low" (by_score !! "low")
    /\ forall k, k <> "high" -> k <> "medium" -> k <> "low" -> by_score !! k = None.
Proof.
  cbn [fold_left].
  destruct (add_group_spec rows (Ok ∅) "high" ∅ eq_refl) as (m1 & -> & F1 & V1).
  destruct (add_group_spec rows (Ok m1) "medium" m1 eq_refl) as (m2 & -> & F2 & V2).
  destruct (add_group_spec rows (Ok m2) "low" m2 eq_refl) as (m3 & -> & F3 & V3).
  exists m3. split; [reflexivity|].
  assert (Hhm : "high" <> "medium") by discriminate.
  assert (Hhl : "high" <> "low") by discriminate.
  assert (Hml : "medium" <> "low") by discriminate.
  split; [|split; [|split]].
  - rewrite F3, F2 by congruence. apply V1. apply lookup_empty.
  - rewrite F3 by congruence. apply V2. rewrite F1 by congruence. apply lookup_empty.
  - apply V3. rewrite F2, F1 by congruence. apply lookup_empty.
  - intros k H1 H2 H3. rewrite F3, F2, F1 by assumption. apply lookup_empty.
Qed.

Lemma group_view_counts rows group g :
  group_view rows group g ->
  from_option g_total 0%Z g = Z.of_nat (length (group_rows rows group))
  /\ from_option (fun e => default 0%Z e.(g_successful)) 0%Z g
     = Z.of_nat (length (List.filter succeeded (group_rows rows group)))
  /\ forall entry, g = Some entry ->
       (1 <= entry.(g_total))%Z
       /\ (exists s, entry.(g_successful) = Some s /\ (0 <= s <= entry.(g_total))%Z)
       /\ 0 <= entry.(g_accuracy) <= 100.
Proof.
  unfold group_view. destruct (group_rows rows group) as [|row members] eqn:E.
  - intros ->. cbn. split; [reflexivity|]. split; [reflexivity|].
    intros entry H. discriminate H.
  - intros (entry & -> & He).
    destruct (group_entry_spec (row :: members)) as (entry' & He' & Ht & Hs & Ha);
      [discriminate|].
    rewrite He in He'. injection He' as He'. subst entry'.
    cbn [from_option]. rewrite Hs, Ht. cbn [default].
    split; [reflexivity|]. split; [reflexivity|].
    intros entry0 H0. injection H0 as H0. subst entry0. rewrite Ht, Hs.
    split; [cbn [length]; lia|]. split; [|exact Ha].
    eexists. split; [reflexivity|].
    pose proof (filter_length_le succeeded (row :: members)). lia.
Qed.

(** X17. [get_tracking_stats] never raises (both divisions are guarded by
    the count). The successful signals are between 0 and the total, the
    accuracy rates between 0 and 100; without any tracked record the
    accuracy and the average return are 0 and [by_score] is empty.
    [by_score] holds only the groups high, medium and low that have at
    least one record, and the totals and the successes of the groups add
    up to the overall ones. *)
Theorem tracking_stats_add_up cutoff_date db :
  exists stats,
    get_tracking_stats cutoff_date db = Ok stats
    /\ (0 <= stats.(successful_signals) <= stats.(total_signals))%Z
    /\ 0 <= stats.(accuracy_rate) <= 100
    /\ (stats.(total_signals) = 0%Z ->
        stats.(accuracy_rate) = 0 /\ stats.(avg_return) = 0 /\ stats.(by_score) = ∅)
    /\ stats.(total_signals)
       = (group_total stats "high" + group_total stats "medium" + group_total stats "low")%Z
    /\ stats.(successful_signals)
       = (group_successful stats "high" + group_successful stats "medium"
          + group_successful stats "low")%Z
    /\ forall group entry, stats.(by_score) !! group = Some entry ->
         (group = "high" \/ group = "medium" \/ group = "low")
         /\ (1 <= entry.(g_total))%Z
         /\ (exists s, entry.(g_successful) = Some s /\ (0 <= s <= entry.(g_total))%Z)
         /\ 0 <= entry.(g_accuracy) <= 100.
Proof.
  unfold get_tracking_stats. cbv zeta.
  set (rows := List.filter (tracked cutoff_date) (performance_tracking db)).
  destruct (accuracy_spec rows) as (a & -> & Ha & Ha0). cbn [bind mbind result_bind].
  destruct (by_score_spec rows) as (m & -> & Vh & Vm & Vl & Vo). cbn [bind mbind result_bind].
  eexists. split; [reflexivity|].
  unfold group_total, group_successful.
  cbn [total_signals successful_signals accuracy_rate avg_return by_score].
  destruct (group_view_counts _ _ _ Vh) as (Th & Sh & Eh).
  destruct (group_view_counts _ _ _ Vm) as (Tm & Sm & Em).
  destruct (group_view_counts _ _ _ Vl) as (Tl & Sl & El).
  assert (Hsucc : default 0%Z (SUM_successful rows)
                  = Z.of_nat (length (List.filter succeeded rows)))
    by (destruct rows; reflexivity).
  split; [rewrite Hsucc; pose proof (filter_length_le succeeded rows); lia|].
  split; [exact Ha|]. split; [|split; [|split]].
  - intros H0. assert (Hrows : rows = []) by (destruct rows; [reflexivity | cbn in H0; lia]).
    split; [apply Ha0; exact Hrows|]. rewrite Hrows. split; [reflexivity|].
    apply map_empty. intros k.
    rewrite Hrows in Vh, Vm, Vl. cbn in Vh, Vm, Vl.
    destruct (String.eqb_spec k "high") as [->|H1]; [exact Vh|].
    destruct (String.eqb_spec k "medium") as [->|H2]; [exact Vm|].
    destruct (String.eqb_spec k "low") as [->|H3]; [exact Vl|].
    apply Vo; assumption.
  - rewrite Th, Tm, Tl. rewrite (group_partition rows) at 1. lia.
  - rewrite Hsucc, Sh, Sm, Sl, !group_rows_filter.
    rewrite (group_partition (List.filter succeeded rows)) at 1. lia.
  - intros group entry H.
    destruct (String.eqb_spec group "high") as [->|H1]; [split; [auto | apply Eh; exact H]|].
    destruct (String.eqb_spec group "medium") as [->|H2]; [split; [auto | apply Em; exact H]|].
    destruct (String.eqb_spec group "low") as [->|H3]; [split; [auto | apply El; exact H]|].
    rewrite Vo in H by assumption. discriminate H.
Qed.

End stats.


(** ** Daily summaries *)

Section summaries.
Import DailySummary.
Variable json_dumps : list string -> string.

Lemma find_filter_other (date d : Z) (l : list SummaryRow) :
  d <> date ->
  find (fun row => (row.(summary_date) =? d)%Z)
       (List.filter (fun row => negb (row.(summary_date) =? date)%Z) l)
  = find (fun row => (row.(summary_date) =? d)%Z) l.
Proof.
  intros Hd. induction l as [|row l IH]; [reflexivity|]. cbn [List.filter find].
  destruct (Z.eqb_spec (summary_date row) date) as [E|E]; cbn [negb].
  - destruct (Z.eqb_spec (summary_date row) d); [congruence | exact IH].
  - cbn [find]. destruct (summary_date row =? d)%Z; [reflexivity | exact IH].
Qed.

Lemma find_filter_same (date : Z) (l : list SummaryRow) :
  find (fun row => (row.(summary_date) =? date)%Z)
       (List.filter (fun row => negb (row.(summary_date) =? date)%Z) l) = None.
Proof.
  induction l as [|row l IH]; [reflexivity|]. cbn [List.filter].
  destruct (Z.eqb_spec (summary_date row) date) as [E|E]; cbn [negb]; [exact IH|].
  cbn [find]. destruct (Z.eqb_spec (summary_date row) date); [contradiction | exact IH].
Qed.

Lemma find_app_none {A} (f : A -> bool) l k : find f l = None -> find f (l ++ k) = find f k.
Proof.
  induction l as [|x l IH]; [reflexivity|]. cbn. destruct (f x); [discriminate | exact IH].
Qed.

Lemma find_app_some {A} (f : A -> bool) l k x : find f l = Some x -> find f (l ++ k) = Some x.
Proof.
  induction l as [|y l IH]; [discriminate|]. cbn. destruct (f y); [auto | exact IH].
Qed.

Lemma save_summary_on date data t d :
  summary_on (save_daily_summary json_dumps date data t) d
  = if (d =? date)%Z
    then Some {| ds_id := t.(last_id) + 1;
                 summary_date := date;
                 total_scans := default 0%Z data.(d_total_scans);
                 total_signals := default 0%Z data.(d_total_signals);
                 top_stocks := json_dumps (default [] data.(d_top_stocks));
                 avg_score := default 0 data.(d_avg_score);
                 sent_email := default 0%Z data.(d_sent_email) |}
    else summary_on t d.
Proof.
  unfold summary_on, save_daily_summary. cbn [rows].
  destruct (Z.eqb_spec d date) as [->|Hd].
  - rewrite find_app_none by apply find_filter_same. cbn. rewrite Z.eqb_refl. reflexivity.
  - destruct (find (fun row => (summary_date row =? d)%Z) (rows t)) as [row|] eqn:E.
    + apply find_app_some. rewrite find_filter_other by exact Hd. exact E.
    + rewrite find_app_none by (rewrite find_filter_other by exact Hd; exact E).
      cbn. destruct (Z.eqb_spec date d); [congruence | reflexivity].
Qed.

Lemma save_one_per_date date data t :
  one_per_date t -> one_per_date (save_daily_summary json_dumps date data t).
Proof.
  unfold one_per_date, save_daily_summary. cbn [rows]. intros Hnd.
  rewrite map_app. cbn [map summary_date]. apply NoDup_snoc.
  - induction (rows t) as [|row l IH]; [constructor|]. cbn [List.filter].
    cbn [map] in Hnd. inversion Hnd as [|? ? Hrow Hl]; subst.
    destruct (negb (summary_date row =? date)%Z); [|apply IH; exact Hl].
    cbn [map]. constructor; [|apply IH; exact Hl].
    intros Hin. apply Hrow. apply in_map_iff in Hin as (r & Hr & Hin).
    apply filter_In in Hin as [Hin _]. apply in_map_iff. exists r. auto.
  - intros Hin. apply in_map_iff in Hin as (r & Hr & Hin).
    apply filter_In in Hin as [_ Hne]. rewrite Hr, Z.eqb_refl in Hne. discriminate Hne.
Qed.

Lemma mark_summary_on date t d :
  summary_on (mark_email_sent date t) d
  = (fun row => if (row.(summary_date) =? date)%Z then set_sent row else row)
      <$> summary_on t d.
Proof.
  unfold summary_on, mark_email_sent. cbn [rows].
  induction (rows t) as [|row l IH]; [reflexivity|]. cbn [map find].
  assert (Hd : summary_date (if (summary_date row =? date)%Z then set_sent row else row)
               = summary_date row) by (destruct (summary_date row =? date)%Z; reflexivity).
  rewrite Hd. destruct (summary_date row =? d)%Z; [reflexivity | exact IH].
Qed.

Lemma mark_one_per_date date t : one_per_date t -> one_per_date (mark_email_sent date t).
Proof.
  unfold one_per_date, mark_email_sent. cbn [rows]. intros H.
  rewrite map_map.
  erewrite map_ext; [exact H|]. intros row. cbn.
  destruct (summary_date row =? date)%Z; reflexivity.
Qed.

(** X18. [save_daily_summary] keeps one row per date: after it the row of
    the date holds the data given, with 0 for an absent [sent_email], and
    the rows of the other dates are as before. [mark_email_sent] sets the
    flag of the date's row, leaves the other rows alone and does nothing
    when the date has no row. So a summary saved again after its e-mail
    was marked as sent is back to unsent, unless the data carries the
    flag. *)
Theorem summary_is_replaced_per_date date data t :
  one_per_date t ->
  let saved := save_daily_summary json_dumps date data t in
  let marked := mark_email_sent date saved in
  let again := save_daily_summary json_dumps date data marked in
  one_per_date saved /\ one_per_date marked /\ one_per_date again
  /\ (exists row, summary_on saved date = Some row
        /\ row.(total_scans) = default 0%Z data.(d_total_scans)
        /\ row.(total_signals) = default 0%Z data.(d_total_signals)
        /\ row.(top_stocks) = json_dumps (default [] data.(d_top_stocks))
        /\ row.(avg_score) = default 0 data.(d_avg_score)
        /\ row.(sent_email) = default 0%Z data.(d_sent_email)
        /\ summary_on marked date = Some (set_sent row)
        /\ exists row', summary_on again date = Some row'
             /\ row'.(sent_email) = default 0%Z data.(d_sent_email))
  /\ (forall d, d <> date ->
        summary_on saved d = summary_on t d /\ summary_on marked d = summary_on t d
        /\ summary_on again d = summary_on t d)
  /\ (summary_on t date = None -> mark_email_sent date t = t).
Proof.
  intros Hone. cbv zeta.
  pose proof (save_one_per_date date data t Hone) as H1.
  pose proof (mark_one_per_date date _ H1) as H2.
  pose proof (save_one_per_date date data _ H2) as H3.
  split; [exact H1|]. split; [exact H2|]. split; [exact H3|].
  split; [|split].
  - eexists. rewrite save_summary_on, Z.eqb_refl. split; [reflexivity|].
    cbn [total_scans total_signals top_stocks avg_score sent_email].
    repeat (split; [reflexivity|]). split.
    + rewrite mark_summary_on, save_summary_on, Z.eqb_refl. cbn. rewrite Z.eqb_refl.
      reflexivity.
    + eexists. rewrite save_summary_on, Z.eqb_refl. split; reflexivity.
  - intros d Hd. apply Z.eqb_neq in Hd as Hd'.
    assert (Hmark : forall t0, summary_on (mark_email_sent date t0) d = summary_on t0 d).
    { intros t0. rewrite mark_summary_on.
      destruct (summary_on t0 d) as [row|] eqn:E; [|reflexivity]. cbn.
      unfold summary_on in E. apply find_some in E as [_ E]. apply Z.eqb_eq in E.
      destruct (Z.eqb_spec (summary_date row) date); [congruence | reflexivity]. }
    assert (Hsave : forall t0, summary_on (save_daily_summary json_dumps date data t0) d
                               = summary_on t0 d).
    { intros t0. rewrite save_summary_on, Hd'. reflexivity. }
    rewrite !Hsave, !Hmark, !Hsave. repeat split; reflexivity.
  - intros Hnone. unfold mark_email_sent. destruct t as [l n]. cbn [rows last_id] in *.
    f_equal. unfold summary_on in Hnone. cbn [rows] in Hnone.
    rewrite <- (map_id l) at 2. apply map_ext_in. intros row Hin.
    pose proof (find_none _ _ Hnone row Hin) as Hne. cbn in Hne. rewrite Hne. reflexivity.
Qed.

End summaries.

Lemma summary_is_replaced_per_date_witness :
  DailySummary.summary_on
    (DailySummary.mark_email_sent 10
       (DailySummary.save_daily_summary Examples.dumps 10
          {| DailySummary.d_total_scans := Some 3%Z;
             DailySummary.d_total_signals := Some 3%Z;
             DailySummary.d_top_stocks := Some ["AAA"];
             DailySummary.d_avg_score := Some 55;
             DailySummary.d_sent_email := None |}
          {| DailySummary.rows := []; DailySummary.last_id := 0 |})) 11
  = None.
Proof.
  destruct (summary_is_replaced_per_date Examples.dumps 10
              {| DailySummary.d_total_scans := Some 3%Z;
                 DailySummary.d_total_signals := Some 3%Z;
                 DailySummary.d_top_stocks := Some ["AAA"];
                 DailySummary.d_avg_score := Some 55;
                 DailySummary.d_sent_email := None |}
              {| DailySummary.rows := []; DailySummary.last_id := 0 |})
    as (_ & _ & _ & _ & Hother & _).
  - constructor.
  - destruct (Hother 11%Z) as (_ & -> & _); [discriminate | reflexivity].
Defined.


(** ** Parameter history *)

Section params.
Import ModelParams.
Context {Params : Type}.
Variable json_dumps : Params -> string.
Variable json_loads : string -> Params.

Lemma first_row_in rows best b :
  fold_left pick rows best = Some b -> best = Some b \/ In b rows.
Proof.
  revert best. induction rows as [|row rows IH]; intros best H; [left; exact H|].
  cbn [fold_left] in H. apply IH in H as [H|H]; [|right; right; exact H].
  destruct best as [b0|]; cbn [pick] in H.
  - destruct (newer row b0); injection H as <-; [right; left; reflexivity | left; reflexivity].
  - injection H as <-. right. left. reflexivity.
Qed.

Lemma first_row_snoc rows row :
  first_row (rows ++ [row]) = pick (first_row rows) row.
Proof. unfold first_row. rewrite fold_left_app. reflexivity. Qed.

Lemma first_row_none rows : first_row rows = None -> rows = [].
Proof.
  unfold first_row. destruct rows as [|row rows]; [reflexivity|].
  cbn [fold_left pick]. intros H. exfalso.
  assert (Hs : forall l b, fold_left pick l (Some b) <> None).
  { induction l as [|x l IHl]; intros b; cbn [fold_left pick]; [discriminate|].
    destruct (newer x b); apply IHl. }
  exact (Hs rows row H).
Qed.

Hypothesis codec_round_trip : forall p, json_loads (json_dumps p) = p.

(** X19. [get_latest_model_params] after [save_model_params]: on a table
    whose ids are below the counter and whose rows are not dated after
    today, the parameters just saved are the ones read back; when a row is
    dated after today (the clock went back), the row read is not the one
    just saved; and an empty table answers [None]. *)
Theorem latest_params_are_the_saved_ones today p accuracy note t :
  well_formed t ->
  (Forall (fun row => (row.(effective_date) <= today)%Z) t.(rows) ->
   get_latest_model_params json_loads (save_model_params json_dumps today p accuracy note t)
   = Some p)
  /\ (Exists (fun row => (today < row.(effective_date))%Z) t.(rows) ->
      exists row, first_row (save_model_params json_dumps today p accuracy note t).(rows)
                  = Some row
                  /\ In row t.(rows) /\ (today < row.(effective_date))%Z)
  /\ (t.(rows) = [] -> get_latest_model_params json_loads t = None).
Proof.
  intros Hwf. unfold well_formed in Hwf.
  unfold get_latest_model_params, save_model_params. cbn [rows].
  rewrite first_row_snoc. split; [|split].
  - intros Hdates.
    destruct (first_row (rows t)) as [b|] eqn:E; cbn [pick].
    + assert (Hb : In b (rows t)).
      { unfold first_row in E. apply first_row_in in E as [E|E]; [discriminate | exact E]. }
      rewrite List.Forall_forall in Hdates, Hwf.
      specialize (Hdates b Hb). specialize (Hwf b Hb).
      assert (Hnew : newer {| mp_id := last_id t + 1; effective_date := today;
                              params := json_dumps p; accuracy_rate := accuracy;
                              notes := note |} b = true).
      { unfold newer. cbn [effective_date mp_id].
        destruct (Z.ltb_spec (effective_date b) today); [reflexivity|].
        cbn [orb]. apply andb_true_intro. split; [apply Z.eqb_eq; lia | apply Z.ltb_lt; lia]. }
      rewrite Hnew. cbn. rewrite codec_round_trip. reflexivity.
    + cbn. rewrite codec_round_trip. reflexivity.
  - intros Hlater.
    assert (Hbest : exists b, first_row (rows t) = Some b /\ In b (rows t)
                              /\ (today < effective_date b)%Z).
    { unfold first_row.
      assert (Hgen : forall l best,
                 (Exists (fun row => (today < effective_date row)%Z) l
                  \/ exists b0, best = Some b0 /\ (today < effective_date b0)%Z) ->
                 exists b, fold_left pick l best = Some b /\ (today < effective_date b)%Z).
      { induction l as [|x l IHl]; intros best H.
        - destruct H as [H|(b0 & -> & H)]; [inversion H | exists b0; auto].
        - cbn [fold_left]. apply IHl.
          destruct H as [H|(b0 & -> & H)].
          + apply Exists_cons in H as [H|H]; [|left; exact H].
            right. destruct best as [b0|]; cbn [pick]; [|eauto].
            destruct (newer x b0) eqn:En; [eauto|].
            exists b0. split; [reflexivity|].
            unfold newer in En. apply orb_false_elim in En as [E1 E2].
            apply Z.ltb_ge in E1. lia.
          + right. cbn [pick]. destruct (newer x b0) eqn:En; [|eauto].
            exists x. split; [reflexivity|].
            unfold newer in En. apply orb_prop in En as [E1|E2].
            * apply Z.ltb_lt in E1. lia.
            * apply andb_prop in E2 as [E2 _]. apply Z.eqb_eq in E2. lia. }
      destruct (Hgen (rows t) None (or_introl Hlater)) as (b & Hb & Hlt).
      exists b. split; [exact Hb|]. split; [|exact Hlt].
      apply first_row_in in Hb as [Hb|Hb]; [discriminate | exact Hb]. }
    destruct Hbest as (b & -> & Hin & Hlt). cbn [pick].
    assert (Hold : newer {| mp_id := last_id t + 1; effective_date := today;
                            params := json_dumps p; accuracy_rate := accuracy;
                            notes := note |} b = false).
    { unfold newer. cbn [effective_date mp_id].
      destruct (Z.ltb_spec (effective_date b) today); [lia|].
      destruct (Z.eqb_spec today (effective_date b)); [lia | reflexivity]. }
    rewrite Hold. exists b. auto.
  - intros ->. reflexivity.
Qed.

End params.

Lemma latest_params_are_the_saved_ones_witness :
  ModelParams.get_latest_model_params Examples.loads
    (ModelParams.save_model_params Examples.dumps 10 ["ma_golden_cross"] None "first"
       {| ModelParams.rows := []; ModelParams.last_id := 0 |})
  = Some ["ma_golden_cross"].
Proof.
  destruct (latest_params_are_the_saved_ones Examples.dumps Examples.loads loads_dumps
              10 ["ma_golden_cross"] None "first"
              {| ModelParams.rows := []; ModelParams.last_id := 0 |}) as (H & _).
  - constructor.
  - apply H. constructor.
Defined.


(** ** Signal types and the overfitting check *)

Section analysis.
Import WeeklyAnalyzer Analysis.

Lemma prefix_MACD_MA s : String.prefix "MACD" s = true -> String.prefix "MA" s = true.
Proof.
  destruct s as [|c1 [|c2 s]]; cbn [String.prefix]; try discriminate.
  - destruct (ascii_dec "M" c1); discriminate.
  - destruct (ascii_dec "M" c1); [|discriminate].
    destruct (ascii_dec "A" c2); [|discriminate].
    intros _. destruct s; reflexivity.
Qed.

Lemma contains_MACD_MA s : Fmt.contains "MACD" s = true -> Fmt.contains "MA" s = true.
Proof.
  induction s as [|c s IH].
  - cbn. discriminate.
  - cbn [Fmt.contains].
    destruct (String.prefix "MACD" (String c s)) eqn:E.
    + rewrite (prefix_MACD_MA _ E). reflexivity.
    + intros H. rewrite (IH H). destruct (String.prefix "MA" (String c s)); reflexivity.
Qed.

Lemma extract_sound signal :
  In (extract_signal_type signal) signal_types /\ extract_signal_type signal <> "MACD金叉".
Proof.
  split.
  - unfold extract_signal_type, signal_types.
    repeat match goal with
           | |- context [if ?c then _ else _] => destruct c
           end; cbn; tauto.
  - unfold extract_signal_type.
    destruct (Fmt.contains "MA" signal) eqn:Hma.
    + destruct (Fmt.contains "金叉" signal) eqn:Hx; cbn [andb]; [discriminate|].
      rewrite andb_false_r.
      repeat match goal with
             | |- context [if ?c then _ else _] => destruct c
             end; discriminate.
    + destruct (Fmt.contains "MACD" signal) eqn:Hmacd;
        [apply contains_MACD_MA in Hmacd; congruence|].
      cbn [andb].
      repeat match goal with
             | |- context [if ?c then _ else _] => destruct c
             end; discriminate.
Qed.

(** X20. [_extract_signal_type] answers one of its labels other than
    'MACD金叉': a text that holds 'MACD' also holds 'MA', so a text with
    'MACD' and '金叉' is already taken by the first test and counted as
    'MA金叉'. This is the case of the tag that the screener emits for a
    MACD golden cross. *)
Theorem macd_cross_is_counted_as_ma_cross signal :
  In (extract_signal_type signal) signal_types
  /\ extract_signal_type signal <> "MACD金叉"
  /\ (Fmt.contains "MACD" signal = true -> Fmt.contains "金叉" signal = true ->
      extract_signal_type signal = "MA金叉")
  /\ extract_signal_type "🔥 MACD金叉确认" = "MA金叉".
Proof.
  destruct (extract_sound signal) as [Hin Hne].
  split; [exact Hin|]. split; [exact Hne|]. split.
  - intros Hmacd Hx. unfold extract_signal_type.
    rewrite (contains_MACD_MA _ Hmacd), Hx. reflexivity.
  - vm_compute. reflexivity.
Qed.

End analysis.


(** ** Performance by signal type *)

Section performance.
Import WeeklyAnalyzer Analysis.
Variable json_loads : string -> list string.
Variable stdev : list Q -> Q.

Lemma bump_keys k ok change stats :
  map fst (bump k ok change stats)
  = if existsb (String.eqb k) (map fst stats) then map fst stats else map fst stats ++ [k].
Proof.
  induction stats as [|[k0 d] stats IH]; [reflexivity|].
  cbn [bump map fst existsb].
  rewrite (String.eqb_sym k k0).
  destruct (String.eqb k0 k); cbn [orb map fst]; [reflexivity|].
  rewrite IH. destruct (existsb (String.eqb k) (map fst stats)); reflexivity.
Qed.

Lemma bump_NoDup k ok change stats :
  List.NoDup (map fst stats) -> List.NoDup (map fst (bump k ok change stats)).
Proof.
  intros H. rewrite bump_keys.
  destruct (existsb (String.eqb k) (map fst stats)) eqn:E; [exact H|].
  apply NoDup_snoc; [exact H|]. intros Hin.
  assert (existsb (String.eqb k) (map fst stats) = true)
    by (apply existsb_exists; exists k; split; [exact Hin | apply String.eqb_refl]).
  congruence.
Qed.

Lemma bump_sound k ok change stats :
  In k signal_types -> k <> "MACD金叉" ->
  Forall sound_entry stats -> Forall sound_entry (bump k ok change stats).
Proof.
  intros Hk Hne H. induction H as [|[k0 d] stats Hd Hs IH]; cbn [bump].
  - constructor; [|constructor]. unfold sound_entry.
    cbn [fst snd count successful returns app length].
    split; [exact Hk|]. split; [exact Hne|]. destruct ok; lia.
  - destruct (String.eqb k0 k); [|constructor; [exact Hd | exact IH]].
    constructor; [|exact Hs].
    destruct Hd as (H1 & H2 & H3 & H4 & H5). cbn [fst snd] in *.
    unfold sound_entry. cbn [fst snd count successful returns].
    rewrite length_app. cbn [length].
    repeat split; try assumption; try lia; destruct ok; lia.
Qed.

Lemma bump_total k ok change stats :
  total_count (bump k ok change stats) = (total_count stats + 1)%Z.
Proof.
  unfold total_count.
  induction stats as [|[k0 d] stats IH]; cbn [bump]; [reflexivity|].
  destruct (String.eqb k0 k); cbn [foldr fst snd count] in *; lia.
Qed.

Lemma collect_stats_sound fetched :
  List.NoDup (map fst (collect_stats json_loads fetched))
  /\ Forall sound_entry (collect_stats json_loads fetched)
  /\ total_count (collect_stats json_loads fetched)
     = Z.of_nat (length (flat_map (signals_of json_loads) fetched)).
Proof.
  unfold collect_stats.
  assert (Hgen : forall stats,
             List.NoDup (map fst stats) -> Forall sound_entry stats ->
             let out :=
               fold_left (fun signal_stats row =>
                            fold_left (fun signal_stats signal =>
                                         bump (extract_signal_type signal)
                                              (truthy row.(f_is_successful))
                                              row.(f_day7_change) signal_stats)
                                      (signals_of json_loads row) signal_stats)
                         fetched stats in
             List.NoDup (map fst out) /\ Forall sound_entry out
             /\ total_count out
                = (total_count stats
                   + Z.of_nat (length (flat_map (signals_of json_loads) fetched)))%Z).
  { induction fetched as [|row fetched IH]; intros stats Hnd Hs; cbv zeta.
    - cbn [fold_left flat_map length]. split; [exact Hnd|]. split; [exact Hs | lia].
    - cbn [fold_left flat_map].
      assert (Hrow : forall tags stats0,
                 List.NoDup (map fst stats0) -> Forall sound_entry stats0 ->
                 let out := fold_left (fun signal_stats signal =>
                                         bump (extract_signal_type signal)
                                              (truthy row.(f_is_successful))
                                              row.(f_day7_change) signal_stats)
                                      tags stats0 in
                 List.NoDup (map fst out) /\ Forall sound_entry out
                 /\ total_count out = (total_count stats0 + Z.of_nat (length tags))%Z).
      { induction tags as [|signal tags IHs]; intros stats0 Hnd0 Hs0; cbv zeta.
        - cbn [fold_left length]. split; [exact Hnd0|]. split; [exact Hs0 | lia].
        - cbn [fold_left]. destruct (extract_sound signal) as [Hin Hne].
          destruct (IHs _ (bump_NoDup (extract_signal_type signal)
                                      (truthy row.(f_is_successful))
                                      row.(f_day7_change) _ Hnd0)
                        (bump_sound _ _ _ _ Hin Hne Hs0))
            as (A & B & C).
          split; [exact A|]. split; [exact B|].
          rewrite C, bump_total. cbn [length]. lia. }
      destruct (Hrow (signals_of json_loads row) stats Hnd Hs) as (A & B & C).
      destruct (IH _ A B) as (A' & B' & C').
      split; [exact A'|]. split; [exact B'|].
      rewrite C', C, length_app. lia. }
  destruct (Hgen [] ltac:(constructor) ltac:(constructor)) as (A & B & C).
  split; [exact A|]. split; [exact B|]. rewrite C. cbn. lia.
Qed.

Lemma perf_of_sound item :
  sound_entry item ->
  exists perf, perf_of stdev item.2 = Ok perf
               /\ perf.(p_count) = item.2.(count)
               /\ 0 <= perf.(p_accuracy) <= 100.
Proof.
  destruct item as [k d]. intros (_ & _ & Hc & Hs & Hr). cbn [fst snd] in *.
  unfold perf_of.
  assert (Hcq : 0 < inject_Z (count d))
    by (change 0 with (inject_Z 0); rewrite <- Zlt_Qlt; lia).
  assert (Hsq : 0 <= inject_Z (successful d) <= inject_Z (count d))
    by (split; [change 0 with (inject_Z 0)|]; rewrite <- Zle_Qle; lia).
  destruct (div_total (inject_Z (successful d)) (inject_Z (count d))) as [r Hdiv]; [lra|].
  rewrite Hdiv. cbn [bind mbind result_bind].
  destruct (returns d) as [|x xs] eqn:Er; [cbn in Hr; lia|].
  cbn [Scorer.nonempty mean].
  destruct (div_total (Py.sum (x :: xs)) (Py.of_nat (length (x :: xs)))) as [avg Havg].
  { intros H0. apply of_nat_zero in H0. discriminate H0. }
  rewrite Havg. cbn [bind mbind result_bind].
  eexists. split; [reflexivity|]. cbn [p_count p_accuracy]. split; [reflexivity|].
  apply div_Ok in Hdiv as [_ Hdiv]. rewrite Qred_correct, Hdiv.
  assert (H1 : 0 <= inject_Z (successful d) / inject_Z (count d)) by (apply quot_nonneg; lra).
  assert (H2 : inject_Z (successful d) / inject_Z (count d) <= 1)
    by (apply Qle_shift_div_r; [exact Hcq | lra]).
  split; lra.
Qed.

Lemma signal_performance_sound fetched :
  exists performance,
    analyze_signal_performance json_loads stdev fetched = Ok performance
    /\ List.NoDup (map fst performance)
    /\ Forall (fun item =>
                 In item.1 signal_types /\ item.1 <> "MACD金叉"
                 /\ (1 <= item.2.(p_count))%Z /\ 0 <= item.2.(p_accuracy) <= 100)
              performance
    /\ total_uses performance
       = Z.of_nat (length (flat_map (signals_of json_loads) fetched)).
Proof.
  unfold analyze_signal_performance.
  destruct (collect_stats_sound fetched) as (Hnd & Hs & Ht).
  set (stats := collect_stats json_loads fetched) in *.
  assert (Hall : List.filter (fun '(_, data) => (0 <? count data)%Z) stats = stats).
  { clearbody stats. clear Hnd Ht. induction Hs as [|[k d] l Hd _ IH]; [reflexivity|].
    cbn [List.filter]. destruct Hd as (_ & _ & Hc & _). cbn [snd] in Hc.
    destruct (Z.ltb_spec 0 (count d)); [rewrite IH; reflexivity | lia]. }
  rewrite Hall. rewrite <- Ht. clearbody stats. clear Hall Ht.
  induction stats as [|[k d] stats IH].
  - exists []. cbn. repeat split; constructor.
  - cbn [map fst] in Hnd. inversion Hnd as [|? ? Hk Hnd']; subst.
    inversion Hs as [|? ? Hd Hs']; subst.
    destruct (IH Hnd' Hs') as (perfs & Hm & P1 & P2 & P3).
    destruct (perf_of_sound (k, d) Hd) as (perf & Hp & Hcount & Hacc).
    cbn [snd] in Hp, Hcount.
    exists ((k, perf) :: perfs). split; [|split; [|split]].
    + cbn [mapM]. cbn. rewrite Hp. cbn. rewrite Hm. reflexivity.
    + cbn [map fst]. constructor; [|exact P1].
      assert (Hkeys : map fst perfs = map fst stats).
      { clear - Hm. revert perfs Hm. induction stats as [|[k0 d0] stats IHs]; intros perfs Hm.
        - cbn in Hm. injection Hm as <-. reflexivity.
        - cbn in Hm. destruct (perf_of stdev d0) as [p0|]; [|discriminate]. cbn in Hm.
          destruct (mapM _ stats) as [ps|] eqn:E; [|discriminate]. cbn in Hm.
          injection Hm as <-. cbn [map fst]. f_equal. apply IHs. reflexivity. }
      rewrite Hkeys. exact Hk.
    + constructor; [|exact P2]. destruct Hd as (H1 & H2 & H3 & _). cbn [fst snd] in *.
      rewrite Hcount. repeat split; try assumption; apply Hacc.
    + unfold total_uses, total_count in *. cbn [foldr snd] in *. rewrite Hcount, P3. reflexivity.
Qed.

(** X21. [_analyze_signal_performance], on whatever rows its query
    fetches, never raises (the division by [count] and the mean are
    guarded) and answers one entry per signal type met; no entry is
    named 'MACD金叉'; each entry counts at least one use and has an
    accuracy between 0 and 100; and the counts add up to the number of
    signal texts in the rows. *)
Theorem signal_performance_is_sound fetched :
  exists performance,
    analyze_signal_performance json_loads stdev fetched = Ok performance
    /\ List.NoDup (map fst performance)
    /\ Forall (fun item =>
                 In item.1 signal_types /\ item.1 <> "MACD金叉"
                 /\ (1 <= item.2.(p_count))%Z /\ 0 <= item.2.(p_accuracy) <= 100)
              performance
    /\ total_uses performance
       = Z.of_nat (length (flat_map (signals_of json_loads) fetched)).
Proof. apply signal_performance_sound. Qed.

End performance.


Section overfitting.
Import WeeklyAnalyzer Analysis.

Lemma Qltb_not x y : Py.Qltb x y = false <-> y <= x.
Proof.
  split; intros H.
  - destruct (Qlt_le_dec x y) as [Hlt|Hle]; [|exact Hle].
    apply Qltb_true in Hlt. congruence.
  - destruct (Py.Qltb x y) eqn:E; [|reflexivity]. apply Qltb_true in E. lra.
Qed.

Lemma risk_test loss ret :
  Py.Qltb loss (-10) && Py.Qltb ret 3 = true <-> loss < -10 /\ ret < 3.
Proof. rewrite andb_true_iff, !Qltb_true. reflexivity. Qed.

Lemma detect_is_overfitting stats :
  (detect_overfitting stats).(is_overfitting)
  = (Py.Qgtb (group_accuracy stats "high") 0 && Py.Qgtb (group_accuracy stats "low") 0
     && Py.Qltb (group_accuracy stats "high") (group_accuracy stats "low" + 10))
    || Py.Qgtb stats.(TrackingStats.accuracy_rate) 80.
Proof.
  unfold detect_overfitting. cbv zeta.
  destruct (Py.Qgtb (group_accuracy stats "high") 0 && Py.Qgtb (group_accuracy stats "low") 0);
    destruct (Py.Qltb (group_accuracy stats "high") (group_accuracy stats "low" + 10));
    destruct (Py.Qgtb stats.(TrackingStats.accuracy_rate) 80);
    destruct (Py.Qltb stats.(TrackingStats.accuracy_rate) 30);
    destruct (Py.Qltb stats.(TrackingStats.avg_max_loss) (-10)
              && Py.Qltb stats.(TrackingStats.avg_return) 3);
    destruct (stats.(TrackingStats.total_signals) <? 20)%Z; reflexivity.
Qed.

Lemma detect_severity stats :
  (detect_overfitting stats).(severity)
  = if Py.Qltb stats.(TrackingStats.avg_max_loss) (-10)
       && Py.Qltb stats.(TrackingStats.avg_return) 3 then "medium"
    else if Py.Qgtb stats.(TrackingStats.accuracy_rate) 80 then "medium"
    else if Py.Qltb stats.(TrackingStats.accuracy_rate) 30 then "high"
    else "low".
Proof.
  unfold detect_overfitting. cbv zeta.
  destruct (Py.Qgtb (group_accuracy stats "high") 0 && Py.Qgtb (group_accuracy stats "low") 0);
    destruct (Py.Qltb (group_accuracy stats "high") (group_accuracy stats "low" + 10));
    destruct (Py.Qgtb stats.(TrackingStats.accuracy_rate) 80);
    destruct (Py.Qltb stats.(TrackingStats.accuracy_rate) 30);
    destruct (Py.Qltb stats.(TrackingStats.avg_max_loss) (-10)
              && Py.Qltb stats.(TrackingStats.avg_return) 3);
    destruct (stats.(TrackingStats.total_signals) <? 20)%Z; reflexivity.
Qed.

Lemma detect_concerns stats :
  (length (detect_overfitting stats).(concerns) <= 4)%nat
  /\ ((detect_overfitting stats).(is_overfitting) = true ->
      (detect_overfitting stats).(concerns) <> []).
Proof.
  unfold detect_overfitting. cbv zeta.
  destruct (Py.Qgtb (group_accuracy stats "high") 0 && Py.Qgtb (group_accuracy stats "low") 0);
    destruct (Py.Qltb (group_accuracy stats "high") (group_accuracy stats "low" + 10));
    destruct (Py.Qgtb stats.(TrackingStats.accuracy_rate) 80);
    destruct (Py.Qltb stats.(TrackingStats.accuracy_rate) 30);
    destruct (Py.Qltb stats.(TrackingStats.avg_max_loss) (-10)
              && Py.Qltb stats.(TrackingStats.avg_return) 3);
    destruct (stats.(TrackingStats.total_signals) <? 20)%Z;
    cbn [concerns is_overfitting add_concern set_overfitting set_severity app length];
    (split; [lia | intros H; first [discriminate H | discriminate]]).
Qed.

(** X22. The verdict of [_detect_overfitting], in closed form. The model
    is flagged exactly when the high and the low score group both have a
    positive accuracy less than 10 points apart in favour of the high
    group, or the overall accuracy is above 80. The severity is 'medium'
    exactly when the accuracy is above 80 or the risk test fires (average
    maximum loss below -10 with an average return below 3), 'high' exactly
    when the accuracy is below 30 and the risk test does not fire, so the
    risk test lowers a 'high' to 'medium'. There are at most 4 concerns,
    and a flagged model has at least one. *)
Theorem overfitting_verdict stats :
  let a := detect_overfitting stats in
  let high := group_accuracy stats "high" in
  let low := group_accuracy stats "low" in
  let overall := stats.(TrackingStats.accuracy_rate) in
  let risky := stats.(TrackingStats.avg_max_loss) < -10 /\ stats.(TrackingStats.avg_return) < 3 in
  (a.(is_overfitting) = true <-> (0 < high /\ 0 < low /\ high < low + 10) \/ 80 < overall)
  /\ (a.(severity) = "medium" <-> 80 < overall \/ risky)
  /\ (a.(severity) = "high" <-> overall < 30 /\ ~ risky)
  /\ (a.(severity) = "low" <-> 30 <= overall <= 80 /\ ~ risky)
  /\ (length a.(concerns) <= 4)%nat
  /\ (a.(is_overfitting) = true -> a.(concerns) <> []).
Proof.
  cbv zeta.
  destruct (detect_concerns stats) as [Hlen Hne].
  rewrite detect_is_overfitting, detect_severity.
  set (high := group_accuracy stats "high").
  set (low := group_accuracy stats "low").
  set (overall := stats.(TrackingStats.accuracy_rate)).
  set (loss := stats.(TrackingStats.avg_max_loss)).
  set (ret := stats.(TrackingStats.avg_return)).
  assert (Hflag : Py.Qgtb high 0 && Py.Qgtb low 0 && Py.Qltb high (low + 10) = true
                  <-> 0 < high /\ 0 < low /\ high < low + 10).
  { rewrite !andb_true_iff, !Qgtb_true, Qltb_true. tauto. }
  split; [|split; [|split; [|split; [|split]]]]; [| | | |exact Hlen|].
  - rewrite orb_true_iff, Hflag, Qgtb_true. reflexivity.
  - destruct (Py.Qltb loss (-10) && Py.Qltb ret 3) eqn:Er.
    + apply risk_test in Er. split; [intros _; right; exact Er | reflexivity].
    + assert (Hnr : ~ (loss < -10 /\ ret < 3)) by (intros H; apply risk_test in H; congruence).
      destruct (Py.Qgtb overall 80) eqn:E80.
      * apply Qgtb_true in E80. split; [intros _; left; exact E80 | reflexivity].
      * assert (~ 80 < overall) by (intros H; apply Qgtb_true in H; congruence).
        destruct (Py.Qltb overall 30); (split; [discriminate | tauto]).
  - destruct (Py.Qltb loss (-10) && Py.Qltb ret 3) eqn:Er.
    + apply risk_test in Er. split; [discriminate | tauto].
    + assert (Hnr : ~ (loss < -10 /\ ret < 3)) by (intros H; apply risk_test in H; congruence).
      destruct (Py.Qgtb overall 80) eqn:E80.
      * apply Qgtb_true in E80. split; [discriminate | intros [H _]; lra].
      * destruct (Py.Qltb overall 30) eqn:E30.
        -- apply Qltb_true in E30. split; [intros _; split; assumption | reflexivity].
        -- apply Qltb_not in E30. split; [discriminate | intros [H _]; lra].
  - destruct (Py.Qltb loss (-10) && Py.Qltb ret 3) eqn:Er.
    + apply risk_test in Er. split; [discriminate | tauto].
    + assert (Hnr : ~ (loss < -10 /\ ret < 3)) by (intros H; apply risk_test in H; congruence).
      destruct (Py.Qgtb overall 80) eqn:E80.
      * apply Qgtb_true in E80. split; [discriminate | intros [[_ H] _]; lra].
      * assert (H80 : overall <= 80) by (apply Qltb_not; exact E80).
        destruct (Py.Qltb overall 30) eqn:E30.
        -- apply Qltb_true in E30. split; [discriminate | intros [[H _] _]; lra].
        -- apply Qltb_not in E30. split; [intros _; repeat split; assumption | reflexivity].
  - unfold high, low, overall. rewrite <- detect_is_overfitting. exact Hne.
Qed.

End overfitting.


(** ** The adjustment log *)

Section log.
Import WeeklyAnalyzer Analysis.

Lemma nudge_step f s w adj :
  exists extra,
    (nudge f s (w, adj)).2.(applied) = adj.(applied) ++ extra
    /\ (nudge f s (w, adj)).2.(skipped) = adj.(skipped)
    /\ (length extra <= 1)%nat
    /\ Forall (fun a => signal_to_weight !! s.(target) = Some a.(param)
                        /\ a.(a_reason) = s.(reason) /\ a.(new) = f a.(old)) extra
    /\ dom (nudge f s (w, adj)).1 = dom w.
Proof.
  unfold nudge. destruct (signal_to_weight !! target s) as [k|] eqn:Hk.
  2:{ exists []. rewrite app_nil_r. cbn. repeat split; try constructor; lia. }
  destruct (String.eqb k EmptyString).
  { exists []. rewrite app_nil_r. cbn. repeat split; try constructor; lia. }
  destruct (w !! k) as [v|] eqn:Hv.
  2:{ exists []. rewrite app_nil_r. cbn. repeat split; try constructor; lia. }
  eexists [_]. cbn [fst snd applied skipped]. split; [reflexivity|]. split; [reflexivity|].
  split; [cbn; lia|]. split; [repeat constructor|].
  apply dom_insert_lookup_L. rewrite Hv. eauto.
Qed.

Lemma apply_suggestion_step st s :
  exists extra,
    (apply_suggestion st s).2.(applied) = st.2.(applied) ++ extra
    /\ (apply_suggestion st s).2.(skipped)
       = st.2.(skipped) ++ (if is_type "review" s then [skipped_entry s] else [])
    /\ (length extra <= if is_weight_suggestion s then 1 else 0)%nat
    /\ Forall (logs s) extra
    /\ dom (apply_suggestion st s).1 = dom st.1.
Proof.
  destruct st as [w adj]. unfold apply_suggestion, is_weight_suggestion, is_type, logs, weight_key.
  destruct (String.eqb_spec (s_type s) "reduce_weight") as [E1|E1].
  { destruct (nudge_step (fun old_value => Z.max 5 (old_value - 5)) s w adj)
      as (extra & Ha & Hs & Hl & Hf & Hd).
    exists extra. rewrite E1 in *. cbn [String.eqb Ascii.eqb Bool.eqb orb].
    change ("reduce_weight" =? "review")%string with false.
    rewrite app_nil_r. repeat split; try assumption.
    eapply Forall_impl; [exact Hf|]. cbn. intros a (H1 & H2 & H3). auto. }
  destruct (String.eqb_spec (s_type s) "increase_weight") as [E2|E2].
  { destruct (nudge_step (fun old_value => Z.min 35 (old_value + 5)) s w adj)
      as (extra & Ha & Hs & Hl & Hf & Hd).
    exists extra. rewrite E2 in *. cbn [orb].
    change ("increase_weight" =? "review")%string with false.
    rewrite app_nil_r. repeat split; try assumption.
    eapply Forall_impl; [exact Hf|]. cbn. intros a (H1 & H2 & H3). auto. }
  exists []. rewrite app_nil_r. cbn [orb].
  destruct (String.eqb (s_type s) "review"); cbn [fst snd applied skipped];
    rewrite ?app_nil_r; repeat split; try constructor; lia.
Qed.

Lemma apply_suggestions_log suggestions st :
  let st' := fold_left apply_suggestion suggestions st in
  exists extra,
    st'.2.(applied) = st.2.(applied) ++ extra
    /\ st'.2.(skipped)
       = st.2.(skipped) ++ map skipped_entry (List.filter (is_type "review") suggestions)
    /\ (length extra <= length (List.filter is_weight_suggestion suggestions))%nat
    /\ Forall (fun a => exists s, In s suggestions /\ logs s a) extra
    /\ dom st'.1 = dom st.1.
Proof.
  cbv zeta. revert st. induction suggestions as [|s l IH]; intros st.
  - exists []. cbn. rewrite !app_nil_r. repeat split; try constructor.
  - cbn [fold_left].
    destruct (apply_suggestion_step st s) as (e1 & A1 & S1 & L1 & F1 & D1).
    destruct (IH (apply_suggestion st s)) as (e2 & A2 & S2 & L2 & F2 & D2).
    exists (e1 ++ e2). rewrite A2, A1, S2, S1, D2, D1, <- !app_assoc.
    split; [reflexivity|]. split.
    { f_equal. cbn [List.filter]. destruct (is_type "review" s); reflexivity. }
    split.
    { rewrite length_app. cbn [List.filter].
      destruct (is_weight_suggestion s); cbn [length]; lia. }
    split; [|reflexivity].
    apply Forall_app. split.
    + eapply Forall_impl; [exact F1|]. intros a Ha. exists s. split; [left; reflexivity | exact Ha].
    + eapply Forall_impl; [exact F2|]. intros a (s' & Hin & Ha).
      exists s'. split; [right; exact Hin | exact Ha].
Qed.

(** X23. The log of [auto_optimize_model]. Every 'review' suggestion
    is listed as skipped, in order, and nothing else is; each applied
    entry records a step made for a 'reduce_weight' or 'increase_weight'
    suggestion of the list on the weight its target maps to, so there are
    at most as many entries as such suggestions and suggestions of any
    other type ('adjust_threshold') leave no trace. The set of weight
    names never changes. With no applied entry the analyzer is left as
    it was; otherwise its weights are replaced and exactly one row is added
    to the parameter history. *)
Theorem adjustments_are_logged suggestions accuracy self :
  let '(adj, self') := auto_optimize_model suggestions accuracy self in
  adj.(skipped) = map skipped_entry (List.filter (is_type "review") suggestions)
  /\ (length adj.(applied) <= length (List.filter is_weight_suggestion suggestions))%nat
  /\ Forall (fun a => exists s, In s suggestions /\ logs s a) adj.(applied)
  /\ dom (current_weights self') = dom (current_weights self)
  /\ (adj.(applied) = [] -> self' = self)
  /\ (adj.(applied) <> [] ->
      self'.(config_weights) = Some (current_weights self')
      /\ self'.(model_params_history)
         = self.(model_params_history)
           ++ [(current_weights self', accuracy,
                "自动优化: " +:+ Fmt.of_nat (length adj.(applied)) +:+ " 项调整")]).
Proof.
  unfold auto_optimize_model, apply_suggestions.
  destruct (apply_suggestions_log suggestions
              (current_weights self, {| applied := []; skipped := [] |}))
    as (extra & Ha & Hs & Hl & Hf & Hd).
  destruct (fold_left apply_suggestion suggestions
              (current_weights self, {| applied := []; skipped := [] |})) as [w adj].
  cbn [fst snd applied skipped app] in *. subst extra.
  destruct (applied adj) as [|a l] eqn:E.
  - rewrite ?E. split; [exact Hs|]. split; [exact Hl|]. split; [exact Hf|].
    split; [reflexivity|]. split; [reflexivity | intros H; contradiction].
  - rewrite ?E. split; [exact Hs|]. split; [exact Hl|]. split; [exact Hf|].
    cbn [current_weights config_weights model_params_history default].
    split; [exact Hd|]. split; [intros H; discriminate H|].
    intros _. split; reflexivity.
Qed.

End log.


(** ** From the statistics to the suggestions *)

Section suggestions.
Import WeeklyAnalyzer Analysis.

Lemma filter_all {A} (f : A -> bool) l : Forall (fun x => f x = true) l -> List.filter f l = l.
Proof.
  induction 1 as [|x l Hx _ IH]; [reflexivity|]. cbn. rewrite Hx, IH. reflexivity.
Qed.

Lemma filter_nothing {A} (f : A -> bool) l : Forall (fun x => f x = false) l -> List.filter f l = [].
Proof.
  induction 1 as [|x l Hx _ IH]; [reflexivity|]. cbn. rewrite Hx, IH. reflexivity.
Qed.

Lemma weight_suggestion_spec item :
  (length (weight_suggestion item) <= 1)%nat
  /\ Forall (fun s => is_weight_suggestion s = true /\ is_type "review" s = false
                      /\ is_type "adjust_threshold" s = false
                      /\ justified [item] s) (weight_suggestion item).
Proof.
  destruct item as [signal_type perf]. unfold weight_suggestion.
  destruct (Z.leb_spec 5 (p_count perf)) as [Hc|_]; [|split; [cbn; lia | constructor]].
  destruct (Py.Qltb (p_accuracy perf) 30) eqn:E30.
  - split; [cbn; lia|]. constructor; [|constructor].
    split; [reflexivity|]. split; [reflexivity|]. split; [reflexivity|].
    exists perf. cbn [target s_type]. split; [left; reflexivity|]. split; [exact Hc|].
    left. split; [reflexivity | apply Qltb_true; exact E30].
  - destruct (Py.Qgtb (p_accuracy perf) 70 && Py.Qgtb (p_avg_return perf) 5) eqn:E70;
      [|split; [cbn; lia | constructor]].
    apply andb_prop in E70 as [E70 E5]. apply Qgtb_true in E70, E5.
    split; [cbn; lia|]. constructor; [|constructor].
    split; [reflexivity|]. split; [reflexivity|]. split; [reflexivity|].
    exists perf. cbn [target s_type]. split; [left; reflexivity|]. split; [exact Hc|].
    right. split; [reflexivity|]. split; [lra|]. split; assumption.
Qed.

Lemma weight_suggestions_spec signal_perf :
  (length (flat_map weight_suggestion signal_perf) <= length signal_perf)%nat
  /\ Forall (fun s => is_weight_suggestion s = true /\ is_type "review" s = false
                      /\ is_type "adjust_threshold" s = false
                      /\ justified signal_perf s) (flat_map weight_suggestion signal_perf).
Proof.
  induction signal_perf as [|item l [IHl IHf]]; [split; [cbn; lia | constructor]|].
  destruct (weight_suggestion_spec item) as [Hl Hf].
  cbn [flat_map]. rewrite length_app. split; [cbn [length]; lia|].
  apply Forall_app. split.
  - eapply Forall_impl; [exact Hf|]. cbn. intros s (H1 & H2 & H3 & perf & Hin & H4).
    repeat split; try assumption. exists perf. split; [|exact H4].
    destruct Hin as [Hin|[]]. left. exact Hin.
  - eapply Forall_impl; [exact IHf|]. cbn. intros s (H1 & H2 & H3 & perf & Hin & H4).
    repeat split; try assumption. exists perf. split; [right; exact Hin | exact H4].
Qed.

Lemma optimizer_log suggestions accuracy self :
  (auto_optimize_model suggestions accuracy self).1
  = (apply_suggestions suggestions (current_weights self)).2.
Proof.
  unfold auto_optimize_model.
  destruct (apply_suggestions suggestions (current_weights self)) as [w adj].
  destruct (applied adj); reflexivity.
Qed.

Lemma suggestions_spec stats signal_perf overfitting :
  let suggestions := generate_optimization_suggestions stats signal_perf overfitting in
  let weight := List.filter is_weight_suggestion suggestions in
  weight = flat_map weight_suggestion signal_perf
  /\ (length weight <= length signal_perf)%nat
  /\ Forall (justified signal_perf) weight
  /\ List.filter (is_type "review") suggestions
     = (if overfitting.(is_overfitting)
        then map (review overfitting.(severity)) overfitting.(concerns) else [])
  /\ length (List.filter (is_type "adjust_threshold") suggestions)
     = (if Py.Qltb (group_accuracy stats "high") 50 then 1 else 0)%nat
  /\ (stats.(TrackingStats.by_score) !! "high" = None ->
      Exists (fun s => s.(s_type) = "adjust_threshold") suggestions)
  /\ forall accuracy self,
       let adj := (auto_optimize_model suggestions accuracy self).1 in
       length adj.(skipped)
       = (if overfitting.(is_overfitting) then length overfitting.(concerns) else 0)%nat
       /\ (length adj.(applied) <= length signal_perf)%nat.
Proof.
  cbv zeta.
  destruct (weight_suggestions_spec signal_perf) as [Hlen Hall].
  set (W := flat_map weight_suggestion signal_perf) in *.
  set (T := if Py.Qltb (group_accuracy stats "high") 50
            then [{| s_type := "adjust_threshold";
                     target := "high_score_threshold";
                     reason := "高分股票准确率不足 ("
                               +:+ Fmt.fixed 1 (group_accuracy stats "high") +:+ "%)";
                     action := "建议提高高分阈值或调整评分权重";
                     priority := "high" |}]
            else []).
  set (R := if overfitting.(is_overfitting)
            then map (review overfitting.(severity)) overfitting.(concerns) else []).
  assert (Hgen : generate_optimization_suggestions stats signal_perf overfitting
                 = W ++ T ++ R).
  { unfold generate_optimization_suggestions, W, T, R. cbv zeta.
    destruct (Py.Qltb (group_accuracy stats "high") 50), (is_overfitting overfitting);
      rewrite <- ?app_assoc, ?app_nil_r; reflexivity. }
  assert (HT : Forall (fun s => is_weight_suggestion s = false /\ is_type "review" s = false
                                /\ is_type "adjust_threshold" s = true) T).
  { unfold T. destruct (Py.Qltb (group_accuracy stats "high") 50); repeat constructor. }
  assert (HR : Forall (fun s => is_weight_suggestion s = false /\ is_type "review" s = true
                                /\ is_type "adjust_threshold" s = false) R).
  { unfold R. destruct (is_overfitting overfitting); [|constructor].
    apply Forall_map. apply Forall_true. intros concern. repeat split. }
  assert (Hweight : List.filter is_weight_suggestion (W ++ T ++ R) = W).
  { rewrite !List.filter_app.
    rewrite (filter_all _ W) by (eapply Forall_impl; [exact Hall|]; cbn; tauto).
    rewrite (filter_nothing _ T) by (eapply Forall_impl; [exact HT|]; cbn; tauto).
    rewrite (filter_nothing _ R) by (eapply Forall_impl; [exact HR|]; cbn; tauto).
    rewrite !app_nil_r. reflexivity. }
  assert (Hreview : List.filter (is_type "review") (W ++ T ++ R) = R).
  { rewrite !List.filter_app.
    rewrite (filter_nothing _ W) by (eapply Forall_impl; [exact Hall|]; cbn; tauto).
    rewrite (filter_nothing _ T) by (eapply Forall_impl; [exact HT|]; cbn; tauto).
    rewrite (filter_all _ R) by (eapply Forall_impl; [exact HR|]; cbn; tauto).
    reflexivity. }
  assert (Hthreshold : List.filter (is_type "adjust_threshold") (W ++ T ++ R) = T).
  { rewrite !List.filter_app.
    rewrite (filter_nothing _ W) by (eapply Forall_impl; [exact Hall|]; cbn; tauto).
    rewrite (filter_all _ T) by (eapply Forall_impl; [exact HT|]; cbn; tauto).
    rewrite (filter_nothing _ R) by (eapply Forall_impl; [exact HR|]; cbn; tauto).
    rewrite app_nil_r. reflexivity. }
  rewrite Hgen, Hweight, Hreview, Hthreshold.
  split; [reflexivity|]. split; [exact Hlen|].
  split; [eapply Forall_impl; [exact Hall|]; cbn; tauto|].
  split; [reflexivity|].
  split; [unfold T; destruct (Py.Qltb (group_accuracy stats "high") 50); reflexivity|].
  split.
  - intros Hnone. apply Exists_app. right. apply Exists_app. left.
    unfold T, group_accuracy. rewrite Hnone. cbn [from_option].
    change (Py.Qltb 0 50) with true. constructor. reflexivity.
  - intros accuracy self. rewrite optimizer_log. unfold apply_suggestions.
    destruct (apply_suggestions_log (W ++ T ++ R)
                (current_weights self, {| applied := []; skipped := [] |}))
      as (extra & Ha & Hs & Hl & _).
    cbn [fst snd applied skipped app] in Ha, Hs. rewrite Ha, Hs, Hreview, Hweight in *.
    rewrite length_map. split; [|lia].
    unfold R. destruct (is_overfitting overfitting); [apply length_map | reflexivity].
Qed.

(** X24. The suggestions of [_generate_optimization_suggestions] and what
    the optimizer makes of them. There is at most one weight suggestion
    per signal type, each for a type used at least 5 times: a reduction
    when its accuracy is below 30, an increase when its accuracy is above
    70 with an average return above 5. The threshold suggestion is made
    exactly when the accuracy of the high score group is below 50, so
    always when that group is absent. The concerns become review
    suggestions only when the model is flagged as overfitting. In
    [auto_optimize_model] the skipped entries are those reviews, and the
    applied entries are at most one per signal type. *)
Theorem suggestions_follow_the_statistics stats signal_perf overfitting :
  let suggestions := generate_optimization_suggestions stats signal_perf overfitting in
  let weight := List.filter is_weight_suggestion suggestions in
  weight = flat_map weight_suggestion signal_perf
  /\ (length weight <= length signal_perf)%nat
  /\ Forall (justified signal_perf) weight
  /\ List.filter (is_type "review") suggestions
     = (if overfitting.(is_overfitting)
        then map (review overfitting.(severity)) overfitting.(concerns) else [])
  /\ length (List.filter (is_type "adjust_threshold") suggestions)
     = (if Py.Qltb (group_accuracy stats "high") 50 then 1 else 0)%nat
  /\ (stats.(TrackingStats.by_score) !! "high" = None ->
      Exists (fun s => s.(s_type) = "adjust_threshold") suggestions)
  /\ forall accuracy self,
       let adj := (auto_optimize_model suggestions accuracy self).1 in
       length adj.(skipped)
       = (if overfitting.(is_overfitting) then length overfitting.(concerns) else 0)%nat
       /\ (length adj.(applied) <= length signal_perf)%nat.
Proof. apply suggestions_spec. Qed.

End suggestions.


(** ** The daily summary *)

Section daily.
Import DataStore DailyReporter.
Variable json_dumps : list string -> string.
Variable json_loads : string -> list string.

Lemma sort_desc_sorted_id {A} (key : A -> Z) l :
  Sorted (fun a b => (key b <= key a)%Z) l -> Orchestrator.sort_desc key l = l.
Proof.
  induction 1 as [|x l Hl IH Hx]; [reflexivity|].
  cbn [Orchestrator.sort_desc foldr]. fold (Orchestrator.sort_desc key l). rewrite IH.
  destruct Hx as [|y l' Hy]; [reflexivity|].
  cbn [Orchestrator.insert_desc]. destruct (Z.ltb_spec (key x) (key y)); [lia | reflexivity].
Qed.

Lemma keep_best_fresh r best_scores :
  ~ In r.(o_symbol) (map fst best_scores) ->
  keep_best r best_scores = best_scores ++ [(r.(o_symbol), r)].
Proof.
  induction best_scores as [|[symbol best] rest IH]; intros Hin; [reflexivity|].
  cbn [keep_best]. destruct (String.eqb_spec symbol (o_symbol r)) as [E|_].
  - exfalso. apply Hin. left. exact E.
  - cbn [app]. f_equal. apply IH. intros H. apply Hin. right. exact H.
Qed.

Lemma best_scores_distinct results acc :
  List.NoDup (map fst acc ++ map o_symbol results) ->
  fold_left (fun best_scores r => keep_best r best_scores) results acc
  = acc ++ map (fun r => (r.(o_symbol), r)) results.
Proof.
  revert acc. induction results as [|r results IH]; intros acc Hnd.
  - cbn. rewrite app_nil_r. reflexivity.
  - cbn [fold_left map]. cbn [map] in Hnd.
    rewrite keep_best_fresh.
    + rewrite IH; [rewrite <- app_assoc; reflexivity|].
      rewrite map_app. cbn [map fst]. rewrite <- app_assoc. exact Hnd.
    + intros Hin. apply NoDup_remove_2 in Hnd. apply Hnd. apply in_or_app. left. exact Hin.
Qed.

Lemma count_symbol_fresh symbol counts :
  ~ In symbol (map fst counts) -> count_symbol symbol counts = counts ++ [(symbol, 1%Z)].
Proof.
  induction counts as [|[k n] rest IH]; intros Hin; [reflexivity|].
  cbn [count_symbol]. destruct (String.eqb_spec k symbol) as [E|_].
  - exfalso. apply Hin. left. exact E.
  - cbn [app]. f_equal. apply IH. intros H. apply Hin. right. exact H.
Qed.

Lemma counts_distinct results acc :
  List.NoDup (map fst acc ++ map o_symbol results) ->
  fold_left (fun counts r => count_symbol r.(o_symbol) counts) results acc
  = acc ++ map (fun r => (r.(o_symbol), 1%Z)) results.
Proof.
  revert acc. induction results as [|r results IH]; intros acc Hnd.
  - cbn. rewrite app_nil_r. reflexivity.
  - cbn [fold_left map]. cbn [map] in Hnd.
    rewrite count_symbol_fresh.
    + rewrite IH; [rewrite <- app_assoc; reflexivity|].
      rewrite map_app. cbn [map fst]. rewrite <- app_assoc. exact Hnd.
    + intros Hin. apply NoDup_remove_2 in Hnd. apply Hnd. apply in_or_app. left. exact Hin.
Qed.

Lemma ones_sorted (results : list ResultRow) :
  Sorted (fun a b : string * Z => (b.2 <= a.2)%Z) (map (fun r => (r.(o_symbol), 1%Z)) results).
Proof.
  induction results as [|r results IH]; [constructor|].
  cbn [map]. constructor; [exact IH|].
  destruct results; cbn; constructor. cbn. lia.
Qed.

Lemma buckets_partition (l : list ResultRow) :
  (count_where (fun s => (70 <=? s.(o_score))%Z) l
   + count_where (fun s => (40 <=? s.(o_score))%Z && (s.(o_score) <? 70)%Z) l
   + count_where (fun s => (s.(o_score) <? 40)%Z) l)%Z
  = Z.of_nat (length l).
Proof.
  unfold count_where. induction l as [|r l IH]; [reflexivity|].
  cbn [List.filter length].
  destruct (Z.leb_spec 70 (o_score r)); destruct (Z.leb_spec 40 (o_score r));
    destruct (Z.ltb_spec (o_score r) 70); destruct (Z.ltb_spec (o_score r) 40);
    cbn [andb length]; lia.
Qed.

Lemma answer_is_ranked db date results :
  get_results_by_date json_loads db date results ->
  List.NoDup (map o_symbol results)
  /\ Sorted (fun a b => (b.(o_score) <= a.(o_score))%Z) results.
Proof.
  intros (out & (Hnd & _ & _ & Hsorted) & ->). split.
  - rewrite map_map. cbn [decode_row o_symbol]. exact Hnd.
  - clear Hnd. induction Hsorted as [|row out Hs IH Hhd]; [constructor|].
    cbn [map]. constructor; [exact IH|].
    destruct Hhd as [|row' out' Hle]; cbn [map]; constructor. exact Hle.
Qed.

(** X25. [generate_daily_summary] on the answer of [get_results_by_date],
    which holds one row per symbol by falling score. It never raises.
    Without results it answers a summary without [unique_stocks] and
    saves nothing. Otherwise [unique_stocks] and [total_signals] are both
    the number of rows, [top_stocks] are the first 20 rows of the answer,
    the three score bands add up to the number of rows, every symbol is
    counted once, and the row saved for the date states that same number
    as [total_scans] and as [total_signals], names the first 10 symbols
    and is marked as not sent. *)
Theorem daily_summary_counts_symbols db target_date results t :
  get_results_by_date json_loads db target_date results ->
  exists summary t',
    generate_daily_summary json_dumps target_date results t = Ok (summary, t')
    /\ (results = [] ->
        t' = t /\ summary.(unique_stocks) = None /\ summary.(total_signals) = 0%Z)
    /\ (results <> [] ->
        let n := Z.of_nat (length results) in
        summary.(total_signals) = n
        /\ summary.(unique_stocks) = Some n
        /\ summary.(top_stocks) = take 20 results
        /\ (exists high medium low,
              summary.(high_score_count) = Some high
              /\ summary.(medium_score_count) = Some medium
              /\ summary.(low_score_count) = Some low
              /\ (high + medium + low)%Z = n)
        /\ summary.(most_frequent)
           = Some (map (fun r => (r.(o_symbol), 1%Z)) (take 5 results))
        /\ exists row,
             DailySummary.summary_on t' target_date = Some row
             /\ row.(DailySummary.total_scans) = n
             /\ row.(DailySummary.total_signals) = n
             /\ row.(DailySummary.top_stocks)
                = json_dumps (map o_symbol (take 10 results))
             /\ row.(DailySummary.sent_email) = 0%Z).
Proof.
  intros Hanswer. destruct (answer_is_ranked db target_date results Hanswer) as [Hnd Hsorted].
  unfold generate_daily_summary. destruct results as [|r results].
  - eexists _, _. split; [reflexivity|]. split; [auto | intros H; contradiction].
  - set (all := r :: results) in *.
    rewrite (best_scores_distinct all []) by exact Hnd.
    rewrite (counts_distinct all []) by exact Hnd.
    cbn [app]. rewrite map_map. cbn [snd]. rewrite map_id.
    rewrite (sort_desc_sorted_id o_score all Hsorted).
    unfold most_common. rewrite (sort_desc_sorted_id snd _ (ones_sorted all)).
    rewrite !length_map.
    assert (Hne : Scorer.nonempty all = true) by reflexivity. rewrite Hne.
    destruct (div_total (inject_Z (Py.sumZ (map o_score all))) (Py.of_nat (length all)))
      as [avg Havg].
    { intros H0. apply of_nat_zero in H0. discriminate H0. }
    rewrite Havg. cbn [bind mbind result_bind].
    eexists _, _. split; [reflexivity|]. split; [intros H; discriminate H|].
    intros _. cbv zeta.
    cbn [total_signals unique_stocks top_stocks high_score_count medium_score_count
         low_score_count most_frequent].
    split; [reflexivity|]. split; [reflexivity|]. split; [reflexivity|].
    split; [eexists _, _, _; repeat (split; [reflexivity|]); apply buckets_partition|].
    split; [f_equal; apply firstn_map|].
    eexists. rewrite save_summary_on, Z.eqb_refl. split; [reflexivity|].
    cbn. repeat split.
Qed.

End daily.

Lemma daily_summary_counts_symbols_witness :
  exists summary t',
    DailyReporter.generate_daily_summary Examples.dumps 10
      (map (DataStore.decode_row Examples.loads)
           (DataStore.run_select (Examples.store_of Examples.two) 10))
      {| DailySummary.rows := []; DailySummary.last_id := 0 |} = Ok (summary, t')
    /\ summary.(DailyReporter.unique_stocks) = Some 2%Z.
Proof.
  destruct (daily_summary_counts_symbols Examples.dumps Examples.loads
              (Examples.store_of Examples.two) 10
              (map (DataStore.decode_row Examples.loads)
                   (DataStore.run_select (Examples.store_of Examples.two) 10))
              {| DailySummary.rows := []; DailySummary.last_id := 0 |})
    as (summary & t' & Hrun & _ & Hsome).
  - exists (DataStore.run_select (Examples.store_of Examples.two) 10).
    split; [apply run_select_selected | reflexivity].
  - exists summary, t'. split; [exact Hrun|].
    destruct Hsome as (_ & Hu & _); [vm_compute; discriminate | exact Hu].
Defined.


(** ** Small samples *)

Section small_samples.
Import WeeklyAnalyzer Analysis.
Variable json_loads : string -> list string.
Variable stdev : list Q -> Q.

Lemma total_uses_bound performance item :
  Forall (fun item => (1 <= item.2.(p_count))%Z) performance ->
  In item performance -> (item.2.(p_count) <= total_uses performance)%Z.
Proof.
  unfold total_uses. induction 1 as [|x l Hx Hl IH]; intros Hin; [contradiction|].
  cbn [foldr]. destruct Hin as [->|Hin]; [|specialize (IH Hin)].
  - assert (0 <= foldr (fun item n => (item.2.(p_count) + n)%Z) 0%Z l)%Z; [|lia].
    clear -Hl. induction Hl as [|y l Hy _ IH]; cbn [foldr]; lia.
  - lia.
Qed.

(** X26. Small samples move no weight. When the rows fetched for the week
    hold fewer than 5 signal texts in all, no signal type reaches the 5
    uses that a weight suggestion needs, so whatever the statistics and
    the overfitting verdict are, [auto_optimize_model] applies nothing and
    leaves the analyzer as it was. *)
Theorem small_samples_move_no_weight fetched performance stats overfitting accuracy self :
  (length (flat_map (signals_of json_loads) fetched) < 5)%nat ->
  analyze_signal_performance json_loads stdev fetched = Ok performance ->
  let suggestions := generate_optimization_suggestions stats performance overfitting in
  List.filter is_weight_suggestion suggestions = []
  /\ (auto_optimize_model suggestions accuracy self).1.(applied) = []
  /\ (auto_optimize_model suggestions accuracy self).2 = self.
Proof.
  intros Hfew Hperf. cbv zeta.
  destruct (signal_performance_sound json_loads stdev fetched) as (performance' & Hrun & _ & Hall & Htotal).
  rewrite Hperf in Hrun. injection Hrun as <-.
  assert (Hnone : flat_map weight_suggestion performance = []).
  { assert (Hcounts : Forall (fun item => (1 <= item.2.(p_count))%Z) performance)
      by (eapply Forall_impl; [exact Hall|]; cbn; tauto).
    assert (Hsmall : Forall (fun item : string * Perf => (item.2.(p_count) < 5)%Z) performance).
    { apply List.Forall_forall. intros item Hin.
      pose proof (total_uses_bound performance item Hcounts Hin). lia. }
    clear -Hsmall. induction Hsmall as [|[k perf] l Hx _ IH]; [reflexivity|].
    cbn [flat_map]. rewrite IH, app_nil_r. unfold weight_suggestion. cbn [snd] in Hx.
    destruct (Z.leb_spec 5 (p_count perf)); [lia | reflexivity]. }
  destruct (suggestions_spec stats performance overfitting) as (Hw & _).
  rewrite Hnone in Hw.
  set (suggestions := generate_optimization_suggestions stats performance overfitting) in *.
  destruct (apply_suggestions_log suggestions
              (current_weights self, {| applied := []; skipped := [] |}))
    as (extra & Ha & _ & Hl & _).
  rewrite Hw in Hl. cbn [length fst snd applied app] in Ha, Hl.
  assert (Hextra : extra = []) by (destruct extra; [reflexivity | cbn in Hl; lia]).
  rewrite Hextra in Ha. clear Hextra Hl.
  split; [exact Hw|].
  unfold auto_optimize_model, apply_suggestions.
  destruct (fold_left apply_suggestion suggestions
              (current_weights self, {| applied := []; skipped := [] |})) as [w adj].
  cbn [snd] in Ha. rewrite Ha. split; [exact Ha | reflexivity].
Qed.

End small_samples.

Lemma small_samples_move_no_weight_witness :
  match Analysis.analyze_signal_performance Examples.loads MoreExamples.no_stdev
          MoreExamples.one_row with
  | Ok performance =>
      (WeeklyAnalyzer.auto_optimize_model
         (Analysis.generate_optimization_suggestions MoreExamples.no_outcomes performance
            (Analysis.detect_overfitting MoreExamples.no_outcomes))
         None Examples.fresh).2 = Examples.fresh
  | Raise _ => False
  end.
Proof.
  destruct (Analysis.analyze_signal_performance Examples.loads MoreExamples.no_stdev
              MoreExamples.one_row) as [performance|e] eqn:E.
  - apply (small_samples_move_no_weight Examples.loads MoreExamples.no_stdev
             MoreExamples.one_row performance MoreExamples.no_outcomes
             (Analysis.detect_overfitting MoreExamples.no_outcomes) None Examples.fresh).
    + vm_compute. lia.
    + exact E.
  - vm_compute in E. discriminate E.
Defined.

(** ** From the scan to the store *)

Section scan.
Import DataStore Integrity Scheduler.
Variable json_dumps : list string -> string.

Lemma Forall2_compose {A B C} (P : A -> B -> Prop) (Q : B -> C -> Prop) (R : A -> C -> Prop)
      la lb lc :
  (forall a b c, P a b -> Q b c -> R a c) ->
  Forall2 P la lb -> Forall2 Q lb lc -> Forall2 R la lc.
Proof.
  intros H HP. revert lc. induction HP as [|a b la lb Hab _ IH]; intros lc HQ.
  - inversion HQ. constructor.
  - inversion HQ as [|? c ? lc' Hbc HQ']; subst. constructor; [eauto | apply IH; exact HQ'].
Qed.

Lemma Forall2_map_left {A B C} (f : A -> B) (P : B -> C -> Prop) la lc :
  Forall2 P (map f la) lc -> Forall2 (fun a c => P (f a) c) la lc.
Proof.
  revert lc. induction la as [|a la IH]; intros lc H; inversion H; subst; constructor;
    [assumption | apply IH; assumption].
Qed.

Lemma Forall2_Forall_left {A B} (P : A -> Prop) (Q : A -> B -> Prop) (R : B -> Prop) la lb :
  (forall a b, P a -> Q a b -> R b) -> Forall P la -> Forall2 Q la lb -> Forall R lb.
Proof.
  intros H HP HQ. induction HQ as [|a b la lb Hab _ IH]; [constructor|].
  inversion HP; subst. constructor; [eauto | apply IH; assumption].
Qed.

Lemma Sorted_Forall2 {A B} (ka : A -> Z) (kb : B -> Z) la lb :
  Forall2 (fun a b => kb b = ka a) la lb ->
  Sorted (fun a a' => (ka a' <= ka a)%Z) la -> Sorted (fun b b' => (kb b' <= kb b)%Z) lb.
Proof.
  induction 1 as [|a b la lb Hab Hrest IH]; intros Hs; [constructor|].
  apply Sorted_inv in Hs as [Hs Hhd]. constructor; [apply IH; exact Hs|].
  destruct Hrest as [|a' b' la' lb' Hab' _]; [constructor|].
  apply HdRel_inv in Hhd. constructor. lia.
Qed.

Lemma length_collect (analyze : string -> option StockSignal) completion_order :
  (length (Orchestrator.collect analyze completion_order) <= length completion_order)%nat.
Proof.
  unfold Orchestrator.collect. induction completion_order as [|s l IH]; [reflexivity|].
  cbn [omap list_omap length]. destruct (analyze s); cbn [length]; lia.
Qed.

Lemma has_room_le db n m : (m <= n)%nat -> has_room db n -> has_room db m.
Proof. unfold has_room. lia. Qed.

(** X27. What [run_priority_scan] leaves in the store and in the log of run
    times, on a store whose ids are in order and which has ids left for
    one row per symbol. With an empty list of symbols it returns no
    result and no statistics at once: nothing is screened, the store and
    the log are as they were. With symbols, when the volume and the score
    of every signal found fit in 64 bits, the scan appends one screening
    row and one tracking row per signal, in the ranked order of the
    results (by falling score); each tracking row repeats the symbol,
    price and score of its signal, is dated on the scan day and has no
    outcome yet, so every tracking row opened by a scan has a score of at
    least [min_score] and a price within the configured range; nothing is
    saved when no signal is found; and the log of run times ends with the
    statistics of this run and never holds more than 100 entries. When
    the volume or the score of a signal does not fit, the scan raises
    [OverflowError]: nothing is stored and the log is not written. *)
Theorem scan_is_stored cfg fetch (clock : string -> Z) symbols run_order completion_order
        scan_time db runtime_history :
  well_formed db ->
  has_room db (length completion_order) ->
  let analyze := fun s => Scorer.analyze_stock cfg fetch (clock s) s in
  let scan :=
    scan_and_store json_dumps analyze symbols run_order completion_order scan_time db
                   runtime_history in
  let '(results, stats) :=
    Orchestrator.screen_stocks analyze symbols run_order completion_order in
  (symbols = [] -> scan = Ok ([], None, db, runtime_history))
  /\ (symbols <> [] ->
      Forall (fun r => storable (result_dict r) = true) results ->
      exists db' runtime_history',
        scan = Ok (results, Some stats, db', runtime_history')
        /\ (exists new_rows new_tracking,
              db'.(screening_results) = db.(screening_results) ++ new_rows
              /\ db'.(performance_tracking) = db.(performance_tracking) ++ new_tracking
              /\ Forall2 (fun r s => stores json_dumps scan_time (result_dict r) s)
                         results new_rows
              /\ Forall2 (opened_for scan_time.(dt_date)) results new_tracking
              /\ Forall (fun t => (cfg.(min_score) <= t.(signal_score))%Z
                                  /\ cfg.(min_price) <= t.(signal_price) <= cfg.(max_price))
                        new_tracking
              /\ Sorted (fun a b => (b.(sr_score) <= a.(sr_score))%Z) new_rows)
        /\ (results = [] -> db' = db)
        /\ well_formed db'
        /\ (length runtime_history' <= 100)%nat
        /\ last runtime_history' = Some stats)
  /\ (symbols <> [] ->
      Exists (fun r => storable (result_dict r) = false) results ->
      scan = Raise OverflowError).
Proof.
  intros Hwf Hroom analyze scan.
  destruct (Orchestrator.screen_stocks analyze symbols run_order completion_order)
    as [results stats] eqn:Escreen.
  assert (Hresults : results
                     = Orchestrator.sort_desc score
                         (Orchestrator.collect analyze completion_order))
    by (unfold Orchestrator.screen_stocks in Escreen; injection Escreen as <- _; reflexivity).
  assert (Hroom' : has_room db (length (map result_dict results))).
  { eapply has_room_le; [|exact Hroom]. rewrite length_map, Hresults.
    rewrite (Permutation_length (sort_desc_perm score _)). apply length_collect. }
  assert (Hscan : symbols <> [] ->
                  scan
                  = (db <- match results with
                           | [] => Ok db
                           | _ =>
                               '(db, _) <- save_screening_results
                                             json_dumps (map result_dict results) scan_time db;;
                               Ok db
                           end;;
                     Ok (results, Some stats, db, Py.last_n 100 (runtime_history ++ [stats])))).
  { intros Hne. subst scan. unfold scan_and_store.
    destruct symbols as [|s l]; [contradiction|]. rewrite Escreen. reflexivity. }
  split; [|split].
  - intros ->. reflexivity.
  - intros Hne Hfit. rewrite (Hscan Hne). clear Hscan scan.
    assert (Hsorted : Sorted (fun a b => (b.(score) <= a.(score))%Z) results)
      by (rewrite Hresults; apply sort_desc_sorted).
    assert (Hgates : Forall (fun r => (cfg.(min_score) <= r.(score))%Z
                                      /\ cfg.(min_price) <= r.(current_price) <= cfg.(max_price))
                            results).
    { apply List.Forall_forall. intros r Hin.
      assert (Hin' : In r (Orchestrator.collect analyze completion_order)).
      { eapply Permutation_in; [|exact Hin]. rewrite Hresults. apply sort_desc_perm. }
      unfold Orchestrator.collect in Hin'.
      apply list_elem_of_In, list_elem_of_omap in Hin' as (s & _ & Hs).
      destruct (emitted_signal_gates _ _ _ _ _ Hs)
        as (data & _ & _ & _ & Hprice & _ & _ & Hscore & _).
      split; assumption. }
    assert (Hlog : (length (Py.last_n 100 (runtime_history ++ [stats])) <= 100)%nat
                   /\ last (Py.last_n 100 (runtime_history ++ [stats])) = Some stats).
    { unfold Py.last_n. rewrite length_drop. split; [lia|].
      rewrite length_app. cbn [length].
      replace (length runtime_history + 1 - 100)%nat with (length runtime_history - 99)%nat
        by lia.
      rewrite drop_app_le by lia. apply last_snoc. }
    destruct (fold_insert_appends json_dumps scan_time (map result_dict results) db Hwf)
      as (ns & nt & Hs & Ht & Hst & Htr & Hun & Hwf').
    assert (Hsave : match results with
                    | [] => Ok db
                    | _ =>
                        '(db, _) <- save_screening_results
                                      json_dumps (map result_dict results) scan_time db;;
                        Ok db
                    end
                    = Ok (fold_left (insert_rows json_dumps scan_time)
                                    (map result_dict results) db)).
    { destruct results as [|r rs] eqn:E; [reflexivity|]. rewrite <- E in *.
      rewrite save_Ok; [reflexivity | | exact Hroom'].
      apply Forall_map. exact Hfit. }
    rewrite Hsave. run_bind.
    eexists _, _. split; [reflexivity|].
    split; [|split; [|split; [exact Hwf' | exact Hlog]]].
    + apply Forall2_map_left in Hst.
      assert (Hopen : Forall2 (opened_for scan_time.(dt_date)) results nt).
      { assert (Hpair : Forall2 (fun s t => tracks s t /\ untouched t) ns nt).
        { clear -Htr Hun. induction Htr as [|s t ns nt Hst _ IH]; [constructor|].
          inversion Hun; subst. constructor; [split; assumption | apply IH; assumption]. }
        eapply Forall2_compose; [|exact Hst | exact Hpair].
        intros r s t (Htime & Hsym & _ & Hprice & _ & _ & _ & _ & Hscore)
               ((Hid & Hsym' & Hdate & Hprice' & Hscore') & Hu).
        unfold opened_for. cbn [result_dict r_symbol r_price r_score] in *.
        rewrite Hsym', Hsym, Hprice', Hprice, Hscore', Hscore, Hdate, Htime. auto. }
      exists ns, nt. split; [exact Hs|]. split; [exact Ht|]. split; [exact Hst|].
      split; [exact Hopen|]. split.
      * eapply Forall2_Forall_left; [|exact Hgates | exact Hopen].
        intros r t [Hscore Hprice] (_ & Hp & Hsc & _). rewrite Hp, Hsc. split; assumption.
      * eapply Sorted_Forall2; [|exact Hsorted].
        eapply Forall2_impl; [exact Hst|]. cbn.
        intros r s (_ & _ & _ & _ & _ & _ & _ & _ & Hscore). exact Hscore.
    + intros ->. reflexivity.
  - intros Hne Hex. rewrite (Hscan Hne).
    assert (Hex' : Exists (fun entry => storable entry = false) (map result_dict results))
      by (apply Exists_map; exact Hex).
    destruct (save_unfit json_dumps _ scan_time db Hex' Hroom') as [Hraise _].
    destruct results as [|r rs] eqn:E; [inversion Hex|]. rewrite <- E in *.
    rewrite Hraise. reflexivity.
Qed.

End scan.

(** The signals of the example scan fit in 64 bits. *)
Lemma example_scan_fits :
  forallb (fun r => DataStore.storable (Scheduler.result_dict r))
          (Orchestrator.screen_stocks
             (fun s => Scorer.analyze_stock default_config Examples.fetch_one 0 s)
             Examples.universe Examples.run_order Examples.completion_order).1
  = true.
Proof. vm_compute. reflexivity. Qed.

Lemma scan_is_stored_witness :
  exists results stats db' runtime_history',
    Scheduler.scan_and_store Examples.dumps
      (fun s => Scorer.analyze_stock default_config Examples.fetch_one 0 s)
      Examples.universe Examples.run_order Examples.completion_order
      Examples.scan_time DataStore.empty_db []
    = Ok (results, Some stats, db', runtime_history')
    /\ Integrity.well_formed db'
    /\ last runtime_history' = Some stats.
Proof.
  pose proof (scan_is_stored Examples.dumps default_config Examples.fetch_one (fun _ => 0%Z)
                Examples.universe Examples.run_order Examples.completion_order
                Examples.scan_time DataStore.empty_db []) as H.
  cbv zeta in H. pose proof example_scan_fits as Hfit.
  destruct (Orchestrator.screen_stocks _ _ _ _) as [results stats].
  destruct H as (_ & H & _).
  - unfold Integrity.well_formed. cbn. repeat split; constructor.
  - unfold DataStore.has_room. cbn. lia.
  - destruct H as (db' & runtime_history' & Hscan & _ & _ & Hwf & _ & Hlast).
    + discriminate.
    + apply List.Forall_forall. intros r Hr.
      apply (proj1 (List.forallb_forall _ _) Hfit r Hr).
    + exists results, stats, db', runtime_history'.
      split; [exact Hscan|]. split; [exact Hwf | exact Hlast].
Defined.

(** ** Reading a range of days back *)

Section range.
Import DataStore RangeQuery.
Variable json_dumps : list string -> string.
Variable json_loads : string -> list string.
Hypothesis codec_round_trip : forall l, json_loads (json_dumps l) = l.
Hypothesis codec_nonempty : forall l, json_dumps l <> EmptyString.

Lemma rows_between_saved batch scan_time db start_date end_date :
  exists rows,
    rows_between (fold_left (insert_rows json_dumps scan_time) batch db) start_date end_date
    = rows_between db start_date end_date ++ rows
    /\ map (fun row => read_as (decode_row json_loads row)) rows
       = (if (start_date <=? scan_time.(dt_date))%Z && (scan_time.(dt_date) <=? end_date)%Z
          then map saved_as batch else []).
Proof.
  revert db. induction batch as [|result batch IH]; intros db.
  - exists []. cbn [fold_left map]. rewrite app_nil_r. split; [reflexivity|].
    destruct (_ && _); reflexivity.
  - cbn [fold_left].
    destruct (IH (insert_rows json_dumps scan_time db result)) as (rows & Hrows & Hdec).
    rewrite Hrows. unfold rows_between at 1. cbn [insert_rows screening_results].
    rewrite List.filter_app. cbn [List.filter sr_scan_time].
    fold (rows_between db start_date end_date).
    destruct ((start_date <=? dt_date scan_time)%Z && (dt_date scan_time <=? end_date)%Z).
    + eexists (_ :: rows). rewrite <- app_assoc. cbn [app]. split; [reflexivity|].
      cbn [map]. rewrite Hdec. f_equal.
      unfold read_as, saved_as, decode_row. cbn.
      destruct (String.eqb_spec (json_dumps (r_signals result)) EmptyString) as [E|_].
      * exfalso. eapply codec_nonempty. exact E.
      * rewrite codec_round_trip. reflexivity.
    + exists rows. rewrite app_nil_r. split; [reflexivity | exact Hdec].
Qed.

(** X28. [get_results_by_date_range] after [save_screening_results], with a
    JSON codec that gives back what it was given, on a store that has ids
    left for the batch. When the volume and the score of every entry fit
    in 64 bits the batch is saved, and then: when the day of the scan lies
    in the range, the answer holds what it held before together with
    every entry of the batch, an entry for each time its symbol is
    repeated (unlike [get_results_by_date] the range query does not keep
    one row per symbol); when the day lies outside, the answer holds what
    it held before; the answer comes latest scan first and, within one
    scan, by falling score. When one entry does not fit the call raises
    [OverflowError] and the answer holds what it held before. *)
Theorem saved_batch_is_read_back_by_range batch scan_time db start_date end_date earlier :
  has_room db (length batch) ->
  get_results_by_date_range json_loads db start_date end_date earlier ->
  (Forall (fun entry => storable entry = true) batch ->
   exists db',
     save_screening_results json_dumps batch scan_time db
     = Ok (db', Z.of_nat (length batch))
     /\ forall results,
          get_results_by_date_range json_loads db' start_date end_date results ->
          Permutation (map read_as results)
                      (map read_as earlier
                       ++ (if (start_date <=? scan_time.(dt_date))%Z
                              && (scan_time.(dt_date) <=? end_date)%Z
                           then map saved_as batch else []))
          /\ exists out, results = map (decode_row json_loads) out /\ Sorted before out)
  /\ (Exists (fun entry => storable entry = false) batch ->
      save_screening_results json_dumps batch scan_time db = Raise OverflowError
      /\ forall results,
           get_results_by_date_range json_loads
             (store_after json_dumps batch scan_time db) start_date end_date results ->
           Permutation (map read_as results) (map read_as earlier)).
Proof.
  intros Hroom (out0 & (Hperm0 & _) & ->). split.
  - intros Hfit. exists (fold_left (insert_rows json_dumps scan_time) batch db).
    split; [apply save_Ok; assumption|].
    intros results (out & (Hperm & Hsorted) & ->).
    split; [|exists out; split; [reflexivity | exact Hsorted]].
    destruct (rows_between_saved batch scan_time db start_date end_date)
      as (rows & Hrows & Hdec).
    rewrite Hrows in Hperm. rewrite !map_map.
    rewrite (Permutation_map (fun row => read_as (decode_row json_loads row)) Hperm).
    rewrite map_app, Hdec.
    apply Permutation_app_tail. apply Permutation_map. symmetry. exact Hperm0.
  - intros Hex. destruct (save_unfit json_dumps batch scan_time db Hex Hroom) as [Hraise Hsame].
    split; [exact Hraise|]. rewrite Hsame.
    intros results (out & (Hperm & _) & ->).
    rewrite !map_map. apply Permutation_map. rewrite Hperm. symmetry. exact Hperm0.
Qed.

End range.

Lemma saved_batch_is_read_back_by_range_witness :
  DataStore.save_screening_results Examples.dumps Examples.twice Examples.scan_time
                                   DataStore.empty_db
  = Ok (Examples.store_of Examples.twice, 2%Z)
  /\ RangeQuery.get_results_by_date_range
       Examples.loads (Examples.store_of Examples.twice) 10 10
       (map (DataStore.decode_row Examples.loads)
            [Examples.row_of 2 (Examples.saved "AAA" 60);
             Examples.row_of 1 (Examples.saved "AAA" 50)])
  /\ forall results,
       RangeQuery.get_results_by_date_range
         Examples.loads (Examples.store_of Examples.twice) 10 10 results ->
       Permutation (map DataStore.read_as results) (map DataStore.saved_as Examples.twice).
Proof.
  destruct (saved_batch_is_read_back_by_range Examples.dumps Examples.loads
              loads_dumps dumps_nonempty Examples.twice Examples.scan_time
              DataStore.empty_db 10 10 []) as [H _].
  - unfold DataStore.has_room. cbn. lia.
  - exists []. split; [split; [reflexivity | constructor] | reflexivity].
  - destruct H as (db' & Hsave & Hread); [repeat constructor|].
    assert (Hdb : db' = Examples.store_of Examples.twice).
    { unfold Examples.store_of, DataStore.store_after. rewrite Hsave. reflexivity. }
    rewrite Hdb in Hsave, Hread. split; [exact Hsave|]. split.
    + eexists. split; [|reflexivity]. split.
      * change (RangeQuery.rows_between (Examples.store_of Examples.twice) 10 10)
          with [Examples.row_of 1 (Examples.saved "AAA" 50);
                Examples.row_of 2 (Examples.saved "AAA" 60)].
        apply perm_swap.
      * constructor; [constructor; constructor|].
        constructor. right. right. split; [reflexivity|]. cbn. lia.
    + intros results Hres. destruct (Hread results Hres) as [Hperm _]. exact Hperm.
Defined.
